(** * progress-tracker: task-list progress scripts

    A shallow embedding of the three browser scripts of the repository
    (all found in [src/docs/javascript/individual-progress.js]):

    - the page scanner ([individual-progress.js], lines 1-115),
    - the static dashboard ([progress.js], lines 118-292),
    - the dynamic dashboard ([progress.js], lines 295-529).

    The DOM is a finite tree of elements, JavaScript counters are natural
    numbers, the double-precision arithmetic of the percentage is modelled
    by correctly rounded operations on rationals (and compared with the
    kernel's binary64 numbers), and the effects of the
    dashboards (network, console, container markup) are threaded through
    a small state-and-exception monad. *)

From Stdlib Require Import List String Ascii Bool Arith ZArith QArith Qround Qpower.
From Stdlib Require Import DecimalString.
From Stdlib Require Import Lia Lqa Permutation Sorted OrderedTypeEx.
From Stdlib Require PrimFloat FloatOps Uint63.

#[local] Set Warnings "-register-all".
Import ListNotations.

Local Open Scope string_scope.
Local Open Scope list_scope.

(** ** The DOM *)

Module Dom.

(** An element: tag name (lower case, as [localName] of an HTML element),
    the [id] attribute (empty when absent), the class list, the remaining
    attributes, the [checked] state of an input, and the child elements in
    document order.  Text nodes play no role in the scripts. *)
Inductive Element : Type :=
  Elem (tagName : string) (id : string) (classList : list string)
       (attributes : list (string * string)) (checked : bool)
       (children : list Element).

Definition tagName (e : Element) : string :=
  match e with Elem t _ _ _ _ _ => t end.
Definition id (e : Element) : string :=
  match e with Elem _ i _ _ _ _ => i end.
Definition classList (e : Element) : list string :=
  match e with Elem _ _ c _ _ _ => c end.
Definition attributes (e : Element) : list (string * string) :=
  match e with Elem _ _ _ a _ _ => a end.
Definition checked (e : Element) : bool :=
  match e with Elem _ _ _ _ c _ => c end.
Definition children (e : Element) : list Element :=
  match e with Elem _ _ _ _ _ cs => cs end.

(** [classList.contains(c)] *)
Definition contains (cs : list string) (c : string) : bool :=
  existsb (String.eqb c) cs.

(** [e.getAttribute(name)]: the first attribute of that name. *)
Fixpoint lookupAttr (name : string) (l : list (string * string)) : option string :=
  match l with
  | [] => None
  | (k, v) :: l' => if String.eqb k name then Some v else lookupAttr name l'
  end.

Definition getAttribute (e : Element) (name : string) : option string :=
  lookupAttr name (attributes e).

(** The proper descendants of an element, in document (pre-)order. *)
Fixpoint descendants (e : Element) : list Element :=
  match e with
  | Elem _ _ _ _ _ cs => flat_map (fun c => c :: descendants c) cs
  end.

(** The selectors the scripts use. *)
Inductive Selector : Type :=
| SelTag (tag : string)                         (* [li], [article] *)
| SelClass (cls : string)                       (* [.md-typeset] *)
| SelTagClass (tag cls : string)                (* [li.task-list-item] *)
| SelTagAttr (tag name value : string).         (* [input[type=checkbox]] *)

Definition option_eqb (o : option string) (v : string) : bool :=
  match o with Some w => String.eqb w v | None => false end.

Definition matches (s : Selector) (e : Element) : bool :=
  match s with
  | SelTag t => String.eqb (tagName e) t
  | SelClass c => contains (classList e) c
  | SelTagClass t c => String.eqb (tagName e) t && contains (classList e) c
  | SelTagAttr t n v => String.eqb (tagName e) t && option_eqb (getAttribute e n) v
  end.

(** [e.querySelectorAll(s)] and [e.querySelector(s)] on an element search
    its proper descendants. *)
Definition querySelectorAll (s : Selector) (e : Element) : list Element :=
  filter (matches s) (descendants e).

Definition querySelector (s : Selector) (e : Element) : option Element :=
  hd_error (querySelectorAll s e).

(** A document: its root element ([html]).  Queries on the document see
    the root as well. *)
Record Document : Type := { documentElement : Element }.

Definition elements (d : Document) : list Element :=
  documentElement d :: descendants (documentElement d).

Definition docQuerySelectorAll (s : Selector) (d : Document) : list Element :=
  filter (matches s) (elements d).

Definition docQuerySelector (s : Selector) (d : Document) : option Element :=
  hd_error (docQuerySelectorAll s d).

(** [document.body]: the first [body] or [frameset] child of the root. *)
Definition body (d : Document) : option Element :=
  find (fun c => String.eqb (tagName c) "body" || String.eqb (tagName c) "frameset")
       (children (documentElement d)).

End Dom.

Import Dom.

(** ** JavaScript numbers *)

Module Number.

Local Open Scope Q_scope.

(** [floor (log2 x)] for a positive rational [x]. *)
Definition Qlog2 (x : Q) : Z :=
  let e0 := (Z.log2 (Qnum x) - Z.log2 (Zpos (Qden x)))%Z in
  if Qle_bool (2 ^ e0) x then e0 else (e0 - 1)%Z.

(** Rounding to the nearest integer, ties to the even one. *)
Definition roundTiesToEven (q : Q) : Z :=
  let f := Qfloor q in
  match Qcompare (q - inject_Z f) (1 # 2) with
  | Lt => f
  | Gt => (f + 1)%Z
  | Eq => if Z.even f then f else (f + 1)%Z
  end.

(** The spacing of the doubles around a positive [x]: a double has a
    53-bit significand. *)
Definition ulp (x : Q) : Q := 2 ^ (Qlog2 x - 52).

(** The double nearest to a non-negative rational (round to nearest, ties
    to even), in the normal range of binary64. *)
Definition double (x : Q) : Q :=
  if Qle_bool x 0 then 0
  else inject_Z (roundTiesToEven (x / ulp x)) * ulp x.

(** [a / b] and [a * b] on doubles: the exact result, rounded once. *)
Definition div (a b : Q) : Q := double (a / b).
Definition mul (a b : Q) : Q := double (a * b).

(** [Math.round]: the nearest integer, ties towards plus infinity. *)
Definition Math_round (x : Q) : Z := Qfloor (x + (1 # 2)).

(** A counter as a number: integers below 2^53 are doubles. *)
Definition ofNat (n : nat) : Q := inject_Z (Z.of_nat n).

(** The relative rounding error of a double: half a unit in the last
    place of a 53-bit significand. *)
Definition eps : Q := 1 # 9007199254740992.

End Number.

(** ** Strings *)

Module Str.

(** Decimal rendering of a counter in a template literal. *)
Definition showNat (n : nat) : string := NilEmpty.string_of_uint (Nat.to_uint n).

(** Decimal rendering of an integer in a template literal. *)
Definition showZ (z : Z) : string := NilZero.string_of_int (Z.to_int z).

(** [s.startsWith(p)] *)
Definition startsWith (s p : string) : bool := String.prefix p s.

(** [s.endsWith(suf)] *)
Definition endsWith (s suf : string) : bool :=
  let n := String.length s in
  let m := String.length suf in
  (m <=? n)%nat && String.eqb (String.substring (n - m) m s) suf.

(** [s.includes(sub)] for a non-empty [sub]. *)
Definition includes (s sub : string) : bool :=
  match String.index 0 sub s with Some _ => true | None => false end.

(** [s.split(sep)] for a one-character separator. *)
Fixpoint split (sep : ascii) (s : string) : list string :=
  match s with
  | EmptyString => [EmptyString]
  | String c s' =>
      if Ascii.eqb c sep then EmptyString :: split sep s'
      else match split sep s' with
           | [] => [String c EmptyString]
           | w :: ws => String c w :: ws
           end
  end.

(** [arr.pop()] on the result of a split: its last element. *)
Definition pop (l : list string) : string := last l EmptyString.

(** [s.replace(/c/g, d)] for single characters. *)
Fixpoint replaceAll (c d : ascii) (s : string) : string :=
  match s with
  | EmptyString => EmptyString
  | String a s' => String (if Ascii.eqb a c then d else a) (replaceAll c d s')
  end.

(** [s.replace(/suf$/, '')] for a literal suffix. *)
Definition removeSuffix (suf s : string) : string :=
  if endsWith s suf
  then String.substring 0 (String.length s - String.length suf) s
  else s.

(** [s.charAt(0)] and [s.slice(1)] *)
Definition charAt0 (s : string) : string :=
  match s with EmptyString => EmptyString | String c _ => String c EmptyString end.
Definition slice1 (s : string) : string :=
  match s with EmptyString => EmptyString | String _ s' => s' end.

(** Truthiness of a string: only the empty string is falsy. *)
Definition truthy (s : string) : bool :=
  match s with EmptyString => false | String _ _ => true end.

End Str.

(** ** Effects *)

Module Js.

Inductive Level : Type := LevelLog | LevelWarn | LevelError.

(** What a run of the scripts does that can be observed from outside the
    function results: console output, network requests, and the divisions
    it evaluates. *)
Inductive Event : Type :=
| Console (level : Level) (text : string)
| Fetch (url : string)
| Divide (dividend divisor : nat).

(** A computation that only reports events (the parse functions). *)
Definition Logged (A : Type) : Type := A * list Event.

Definition lret {A} (a : A) : Logged A := (a, []).
Definition lbind {A B} (m : Logged A) (f : A -> Logged B) : Logged B :=
  let (a, l1) := m in let (b, l2) := f a in (b, l1 ++ l2).
Definition emit (e : Event) : Logged unit := (tt, [e]).

(** A thrown JavaScript value ([Error] with its message). *)
Inductive Exn : Type := Thrown (message : string).
Definition message (e : Exn) : string := match e with Thrown m => m end.

(** Markup the scripts build with template literals, kept structured:
    the SVG progress bar is determined by the percentage it shows. *)
Inductive Svg : Type :=
| NoSvg                                               (* the empty string *)
| ProgressBar (percentage : Z)                        (* bare [svg] bar *)
| PageProgress (completed total : nat) (percentage : Z). (* scanner's card *)

(** The object every parse function returns. *)
Record Progress : Type := {
  completed : nat;
  total : nat;
  percentage : Z;
  progressBarSvg : Svg
}.

(** An entry of [filesToTrack]. *)
Record TrackedPage : Type := {
  page_id : string;
  name : string;
  path : string
}.

(** [{ ...file, ...progress }] *)
Record ProgressData : Type := {
  file : TrackedPage;
  progress : Progress
}.

(** What the dashboard container holds: paragraphs written through
    [innerHTML] and the cards appended to it. *)
Inductive Block : Type :=
| Paragraph (cls text : string)
| FileCard (data : ProgressData).

(** The search index ([search/search_index.json]), as far as it is read. *)
Record IndexDoc : Type := { location : string; title : option string }.
Record SearchIndex : Type := { docs : list IndexDoc }.

(** A response: [text()] and [json()] resolve with a value or reject
    ([None]).  [json] is [None] too when the value has no [docs] array or
    an entry of it has no string as [location]: the filter of lines
    428-440 then throws, inside the [try], before anything is stored.
    The [title] of an entry is taken to be a string or missing. *)
Record Response : Type := {
  ok : bool;
  status : nat;
  statusText : string;
  text : option string;
  json : option SearchIndex
}.

Inductive FetchOutcome : Type :=
| Rejects (error : Exn)
| Responds (response : Response).

(** The browser and script state a dashboard run goes through. *)
Record State : Type := {
  origin : string;                 (* [window.location.origin] *)
  pathname : string;               (* [window.location.pathname] *)
  href : string;                   (* [window.location.href] *)
  network : nat -> string -> FetchOutcome; (* outcome of the n-th request *)
  clock : nat;                     (* requests issued so far *)
  container : option (list Block); (* [#progress-dashboard-container] *)
  headScripts : option (list string);
                                   (* [src] of the scripts added to
                                      [document.head]; [None]: the
                                      document has no [head] *)
  events : list Event;             (* in the order they happen *)
  filesToTrack : list TrackedPage  (* the dynamic dashboard's variable *)
}.

(** A computation of a handler.  [inl e]: the exception [e] leaves the
    handler, or rejects the promise of the asynchronous function the
    handler has called, which nothing awaits or catches. *)
Definition M (A : Type) : Type := State -> (Exn + A) * State.

Definition ret {A} (a : A) : M A := fun s => (inr a, s).
Definition bind {A B} (m : M A) (f : A -> M B) : M B :=
  fun s => match m s with
           | (inl e, s') => (inl e, s')
           | (inr a, s') => f a s'
           end.
Definition throw {A} (e : Exn) : M A := fun s => (inl e, s).
Definition tryCatch {A} (body : M A) (handler : Exn -> M A) : M A :=
  fun s => match body s with
           | (inl e, s') => handler e s'
           | (inr a, s') => (inr a, s')
           end.

(** Primitive actions. *)

Definition withEvent (e : Event) (s : State) : State :=
  {| origin := origin s; pathname := pathname s; href := href s;
     network := network s; clock := clock s; container := container s;
     headScripts := headScripts s; events := events s ++ [e];
     filesToTrack := filesToTrack s |}.

Definition withEvents (l : list Event) (s : State) : State :=
  {| origin := origin s; pathname := pathname s; href := href s;
     network := network s; clock := clock s; container := container s;
     headScripts := headScripts s; events := events s ++ l;
     filesToTrack := filesToTrack s |}.

Definition withClock (n : nat) (s : State) : State :=
  {| origin := origin s; pathname := pathname s; href := href s;
     network := network s; clock := n; container := container s;
     headScripts := headScripts s; events := events s;
     filesToTrack := filesToTrack s |}.

Definition withContainer (c : option (list Block)) (s : State) : State :=
  {| origin := origin s; pathname := pathname s; href := href s;
     network := network s; clock := clock s; container := c;
     headScripts := headScripts s; events := events s;
     filesToTrack := filesToTrack s |}.

Definition withHeadScripts (l : option (list string)) (s : State) : State :=
  {| origin := origin s; pathname := pathname s; href := href s;
     network := network s; clock := clock s; container := container s;
     headScripts := l; events := events s;
     filesToTrack := filesToTrack s |}.

Definition withFilesToTrack (l : list TrackedPage) (s : State) : State :=
  {| origin := origin s; pathname := pathname s; href := href s;
     network := network s; clock := clock s; container := container s;
     headScripts := headScripts s; events := events s;
     filesToTrack := l |}.

(** [console.log], [console.warn], [console.error] *)
Definition console (level : Level) (text : string) : M unit :=
  fun s => (inr tt, withEvent (Console level text) s).

(** [await fetch(url)]: the request is issued, then it resolves with a
    response or rejects. *)
Definition fetch (url : string) : M Response :=
  fun s =>
    let s' := withClock (S (clock s)) (withEvent (Fetch url) s) in
    match network s (clock s) url with
    | Rejects e => (inl e, s')
    | Responds r => (inr r, s')
    end.

(** [await response.text()] and [await response.json()] *)
Definition responseText (r : Response) : M string :=
  match text r with
  | Some body => ret body
  | None => throw (Thrown "Failed to read the response body")
  end.

Definition responseJson (r : Response) : M SearchIndex :=
  match json r with
  | Some idx => ret idx
  | None => throw (Thrown "Unexpected search index data")
  end.

(** [container.innerHTML = ...] replaces what the container holds;
    [container.appendChild(card)] adds to it.  The container element was
    looked up before: nothing happens to a document without it. *)
Definition setInnerHTML (blocks : list Block) : M unit :=
  fun s => (inr tt, withContainer (option_map (fun _ => blocks) (container s)) s).

Definition appendChild (b : Block) : M unit :=
  fun s => (inr tt, withContainer (option_map (fun c => c ++ [b]) (container s)) s).

(** [document.head.appendChild(script)]: [document.head] is [null] on a
    document without [head], and the call throws. *)
Definition appendHeadScript (src : string) : M unit :=
  fun s =>
    match headScripts s with
    | Some scripts => (inr tt, withHeadScripts (Some (scripts ++ [src])) s)
    | None => (inl (Thrown "TypeError: document.head is null"), s)
    end.

(** Running a parse function inside a dashboard: its events happen. *)
Definition liftLogged {A} (m : Logged A) : M A :=
  fun s => (inr (fst m), withEvents (snd m) s).

Definition getState : M State := fun s => (inr s, s).

Definition setFilesToTrack (l : list TrackedPage) : M unit :=
  fun s => (inr tt, withFilesToTrack l s).

(** [for (const x of l) { acc.push(await body(x)) }] *)
Fixpoint forOfPush {A B} (l : list A) (body : A -> M B) (acc : list B) : M (list B) :=
  match l with
  | [] => ret acc
  | x :: l' => bind (body x) (fun b => forOfPush l' body (acc ++ [b]))
  end.

(** [l.forEach(x => body(x))] with an effectful body. *)
Fixpoint forEachM {A} (l : list A) (body : A -> M unit) : M unit :=
  match l with
  | [] => ret tt
  | x :: l' => bind (body x) (fun _ => forEachM l' body)
  end.

(** [l.forEach(item => ...)] updating local counters. *)
Definition forEach {A S} (l : list A) (body : A -> S -> S) (init : S) : S :=
  fold_left (fun st x => body x st) l init.

(** [a / b] on counters, as an observable step.  (With a zero divisor
    JavaScript yields NaN or Infinity, for which the model has no value.) *)
Definition divide (a b : nat) : Logged Q :=
  (Number.div (Number.ofNat a) (Number.ofNat b), [Divide a b]).

(** The expression shared by the three parse functions (lines 77-79,
    226-228 and 387-389):
    [total === 0 ? 0 : Math.round((completed / total) * 100)]. *)
Definition computePercentage (completedCheckboxes totalCheckboxes : nat) : Logged Z :=
  if (totalCheckboxes =? 0)%nat then lret 0%Z
  else lbind (divide completedCheckboxes totalCheckboxes)
         (fun q => lret (Number.Math_round (Number.mul q 100))).

(** The selectors of the scripts. *)
Definition taskListItem : Selector := SelTagClass "li" "task-list-item".
Definition checkbox : Selector := SelTagAttr "input" "type" "checkbox".

End Js.

Declare Scope logged_scope.
Delimit Scope logged_scope with L.
Notation "x <- m ;; k" := (Js.lbind m (fun x => k))
  (at level 61, m at next level, right associativity) : logged_scope.
Notation "m ;; k" := (Js.lbind m (fun _ => k))
  (at level 61, right associativity) : logged_scope.

Declare Scope js_scope.
Delimit Scope js_scope with js.
Notation "x <- m ;; k" := (Js.bind m (fun x => k))
  (at level 61, m at next level, right associativity) : js_scope.
Notation "m ;; k" := (Js.bind m (fun _ => k))
  (at level 61, right associativity) : js_scope.

Import Js.

(** ** The page scanner ([individual-progress.js]) *)

Module Scanner.

(** The body of the [forEach] callback, lines 53-72, on the pair of
    counters [(totalCheckboxes, completedCheckboxes)]. *)
Definition countItem (item : Element) (counters : nat * nat) : nat * nat :=
  let (totalCheckboxes, completedCheckboxes) := counters in
  match querySelector checkbox item with
  | Some checkboxInput =>
      if negb (String.eqb (id checkboxInput) "__toc") &&
         negb (String.eqb (id checkboxInput) "__drawer") &&
         negb (String.eqb (id checkboxInput) "__search")
      then
        let isChecked := checked checkboxInput in
        (S totalCheckboxes,
         if isChecked then S completedCheckboxes else completedCheckboxes)
      else counters
  | None => counters
  end.

(** [parseCurrentPageProgress], lines 45-104, on the current document. *)
Definition parseCurrentPageProgress (document : Document) : Logged Progress :=
  (let taskListItems := docQuerySelectorAll taskListItem document in
   let (totalCheckboxes, completedCheckboxes) :=
     forEach taskListItems countItem (0, 0)%nat in
   emit (Console LevelLog
           ("[individual-progress.js] Page progress: Total=" ++
            Str.showNat totalCheckboxes ++ ", Completed=" ++
            Str.showNat completedCheckboxes)) ;;
   percentage <- computePercentage completedCheckboxes totalCheckboxes ;;
   lret {| completed := completedCheckboxes;
           total := totalCheckboxes;
           percentage := percentage;
           progressBarSvg :=
             PageProgress completedCheckboxes totalCheckboxes percentage |})%L.

End Scanner.

(** ** The static dashboard (first [progress.js]) *)

Module StaticDashboard.

Section WithHost.

(** Host functions: the HTML parser behind [DOMParser.parseFromString]
    and the URL resolution behind [new URL(path, base).href], which
    throws a [TypeError] ([None]) when [path] cannot be parsed as a URL
    or as a reference relative to [base]. *)
Variable parseFromString : string -> Document.
Variable resolveUrl : string -> string -> option string.

(** Lines 141-145. *)
Definition filesToTrack : list TrackedPage :=
  [ {| page_id := "project-setup"; name := "Project Setup Tasks"; path := "project_setup/" |};
    {| page_id := "frontend"; name := "Frontend Development"; path := "frontend/" |};
    {| page_id := "backend"; name := "Backend Development"; path := "backend/" |} ].

(** [fetchHtmlContent], lines 152-173.  The URL is built at line 155,
    before the [try] of line 157. *)
Definition fetchHtmlContent (pagePath : string) : M string :=
  (s <- getState ;;
   match resolveUrl pagePath (href s) with
   | None => throw (Thrown "TypeError: Invalid URL")
   | Some fullUrl =>
   tryCatch
     (console LevelLog ("Attempting to fetch HTML from: " ++ fullUrl) ;;
      response <- fetch fullUrl ;;
      if negb (ok response) then
        console LevelError
          ("Fetch failed for " ++ fullUrl ++ ". Status: " ++
           Str.showNat (status response) ++ " - " ++ statusText response) ;;
        ret EmptyString
      else
        htmlContent <- responseText response ;;
        console LevelLog
          ("Successfully fetched HTML for " ++ fullUrl ++
           ". Content starts with: " ++
           String.substring 0 2000 htmlContent ++ "...") ;;
        ret htmlContent)
     (fun error =>
        console LevelError
          ("Error during fetch operation for " ++ fullUrl ++ ": " ++
           message error) ;;
        ret EmptyString)
   end)%js.

(** The body of the [forEach] callback, lines 206-222. *)
Definition countItem (item : Element) (counters : nat * nat) : nat * nat :=
  let (totalCheckboxes, completedCheckboxes) := counters in
  let checkboxInput := querySelector checkbox item in
  if contains (classList item) "task-list-item" ||
     match checkboxInput with Some _ => true | None => false end
  then
    (S totalCheckboxes,
     if option_eqb (getAttribute item "data-checked") "true"
     then S completedCheckboxes
     else match checkboxInput with
          | Some input => if checked input then S completedCheckboxes
                          else completedCheckboxes
          | None => completedCheckboxes
          end)
  else counters.

(** [doc.querySelector('.md-typeset') || doc.querySelector('article') ||
    doc.body], lines 191-193. *)
Definition contentAreaOf (doc : Document) : option Element :=
  match docQuerySelector (SelClass "md-typeset") doc with
  | Some e => Some e
  | None =>
      match docQuerySelector (SelTag "article") doc with
      | Some e => Some e
      | None => body doc
      end
  end.

Definition noProgress : Progress :=
  {| completed := 0; total := 0; percentage := 0; progressBarSvg := NoSvg |}.

(** [parseHtmlProgress], lines 182-244. *)
Definition parseHtmlProgress (htmlContent : string) : Logged Progress :=
  (if negb (Str.truthy htmlContent) then
     emit (Console LevelWarn "parseHtmlProgress received empty HTML content.") ;;
     lret noProgress
   else
     let doc := parseFromString htmlContent in
     match contentAreaOf doc with
     | None =>
         emit (Console LevelWarn
                 "Could not find a suitable content area in fetched HTML for checkbox parsing.") ;;
         lret noProgress
     | Some contentArea =>
         let allListItems := querySelectorAll (SelTag "li") contentArea in
         let (totalCheckboxes, completedCheckboxes) :=
           forEach allListItems countItem (0, 0)%nat in
         emit (Console LevelLog
                 ("Parsed progress: Total=" ++ Str.showNat totalCheckboxes ++
                  ", Completed=" ++ Str.showNat completedCheckboxes)) ;;
         percentage <- computePercentage completedCheckboxes totalCheckboxes ;;
         lret {| completed := completedCheckboxes;
                 total := totalCheckboxes;
                 percentage := percentage;
                 progressBarSvg := ProgressBar percentage |}
     end)%L.

(** The loop of lines 253-257, for a list of pages. *)
Definition collectProgress (files : list TrackedPage) : M (list ProgressData) :=
  forOfPush files
    (fun file =>
       (htmlContent <- fetchHtmlContent (path file) ;;
        progress <- liftLogged (parseHtmlProgress htmlContent) ;;
        ret {| file := file; progress := progress |})%js)
    [].

(** [renderProgressDashboard], lines 249-283. *)
Definition renderProgressDashboard : M unit :=
  (setInnerHTML [Paragraph "text-center text-gray-500" "Loading progress..."] ;;
   allProgressData <- collectProgress filesToTrack ;;
   setInnerHTML [] ;;
   if (List.length allProgressData =? 0)%nat then
     setInnerHTML [Paragraph "text-center text-gray-500"
                     "No progress data found or failed to load."]
   else
     forEachM allProgressData (fun data => appendChild (FileCard data)))%js.

(** The [DOMContentLoaded] handler, lines 118-292.  ([BASE_URL] is
    computed and never used.) *)
Definition onDOMContentLoaded : M unit :=
  (s <- getState ;;
   match container s with
   | None =>
       console LevelWarn
         "Progress dashboard container not found. Make sure an element with id 'progress-dashboard-container' exists."
   | Some _ =>
       appendHeadScript "https://cdn.tailwindcss.com" ;;
       renderProgressDashboard
   end)%js.

End WithHost.

End StaticDashboard.

(** ** The dynamic dashboard (second [progress.js]) *)

Module DynamicDashboard.

Section WithHost.

(** Host functions: the HTML parser, [String.prototype.toUpperCase] and
    [String.prototype.localeCompare] (both depend on Unicode data and on
    the locale of the browser). *)
Variable parseFromString : string -> Document.
Variable toUpperCase : string -> string.
Variable localeCompare : string -> string -> Z.

(** [getBasePath], lines 307-314. *)
Definition getBasePath (s : State) : string :=
  let path := pathname s in
  if Str.startsWith path "/progress-tracker/" then "/progress-tracker/"
  else "/".

(** [fetchHtmlContent], lines 326-346. *)
Definition fetchHtmlContent (pagePath : string) : M string :=
  (s <- getState ;;
   let SITE_BASE_PATH := getBasePath s in
   let fullUrl := (origin s ++ SITE_BASE_PATH ++ pagePath)%string in
   tryCatch
     (console LevelLog ("[progress.js] Attempting to fetch HTML for: " ++ fullUrl) ;;
      response <- fetch fullUrl ;;
      if negb (ok response) then
        console LevelError
          ("[progress.js] Fetch failed for " ++ fullUrl ++ ". Status: " ++
           Str.showNat (status response) ++ " - " ++ statusText response) ;;
        ret EmptyString
      else
        htmlContent <- responseText response ;;
        console LevelLog
          ("[progress.js] Successfully fetched HTML for " ++ fullUrl ++
           ". Content starts with: " ++
           String.substring 0 500 htmlContent ++ "...") ;;
        ret htmlContent)
     (fun error =>
        console LevelError
          ("[progress.js] Error during fetch operation for " ++ fullUrl ++
           ": " ++ message error) ;;
        ret EmptyString))%js.

(** The body of the [forEach] callback, lines 369-383. *)
Definition countItem (item : Element) (counters : nat * nat) : nat * nat :=
  let (totalCheckboxes, completedCheckboxes) := counters in
  match querySelector checkbox item with
  | Some checkboxInput =>
      let isChecked := checked checkboxInput in
      (S totalCheckboxes,
       if isChecked then S completedCheckboxes else completedCheckboxes)
  | None => counters
  end.

Definition noProgress : Progress :=
  {| completed := 0; total := 0; percentage := 0; progressBarSvg := NoSvg |}.

(** [parseHtmlProgress], lines 354-405. *)
Definition parseHtmlProgress (htmlContent : string) : Logged Progress :=
  (if negb (Str.truthy htmlContent) then
     emit (Console LevelWarn
             "[progress.js] parseHtmlProgress received empty HTML content.") ;;
     lret noProgress
   else
     let doc := parseFromString htmlContent in
     let taskListItems := docQuerySelectorAll taskListItem doc in
     let (totalCheckboxes, completedCheckboxes) :=
       forEach taskListItems countItem (0, 0)%nat in
     emit (Console LevelLog
             ("[progress.js] Parsed progress: Total=" ++
              Str.showNat totalCheckboxes ++ ", Completed=" ++
              Str.showNat completedCheckboxes)) ;;
     percentage <- computePercentage completedCheckboxes totalCheckboxes ;;
     lret {| completed := completedCheckboxes;
             total := totalCheckboxes;
             percentage := percentage;
             progressBarSvg := ProgressBar percentage |})%L.

(** The [filter] callback, lines 428-440. *)
Definition isTracked (doc : IndexDoc) : bool :=
  if String.eqb (location doc) "index/" ||
     String.eqb (location doc) "index.md" ||
     String.eqb (location doc) "index.html"
  then false
  else
    let isTopLevelPage :=
      negb (Str.includes (location doc) "/") ||
      (Str.endsWith (location doc) "/" &&
       (List.length (Str.split "/" (location doc)) <=? 2)%nat) in
    isTopLevelPage.

(** The name derived from a location, lines 446-449. *)
Definition deriveName (loc : string) : string :=
  let name := Str.removeSuffix "/"
                (Str.removeSuffix ".html" (Str.removeSuffix ".md" loc)) in
  let name := Str.pop (Str.split "/" name) in
  let name := Str.replaceAll "_" " " name in
  (toUpperCase (Str.charAt0 name) ++ Str.slice1 name)%string.

(** The [map] callback, lines 441-457. *)
Definition toTrackedPage (doc : IndexDoc) : TrackedPage :=
  let name :=
    match title doc with
    | Some t => if Str.truthy t then t else deriveName (location doc)
    | None => deriveName (location doc)
    end in
  {| page_id := Str.removeSuffix ".html"
                  (Str.removeSuffix ".md" (Str.replaceAll "/" "-" (location doc)));
     name := name;
     path := location doc |}.

(** [Array.prototype.sort(compare)]: a stable sort; an element goes
    before the first one it does not compare greater than. *)
Fixpoint insertSorted {A} (compare : A -> A -> Z) (x : A) (l : list A) : list A :=
  match l with
  | [] => [x]
  | y :: l' => if (compare x y <=? 0)%Z then x :: y :: l'
               else y :: insertSorted compare x l'
  end.

Definition sort {A} (compare : A -> A -> Z) (l : list A) : list A :=
  fold_right (insertSorted compare) [] l.

Definition errorParagraph (text : string) : Block :=
  Paragraph "text-center text-red-500" text.

Definition infoParagraph (text : string) : Block :=
  Paragraph "text-center text-gray-500" text.

(** [populateFilesToTrack], lines 411-468. *)
Definition populateFilesToTrack : M unit :=
  (s <- getState ;;
   let searchIndexUrl :=
     (origin s ++ getBasePath s ++ "search/search_index.json")%string in
   tryCatch
     (console LevelLog
        ("[progress.js] Attempting to fetch search index: " ++ searchIndexUrl) ;;
      response <- fetch searchIndexUrl ;;
      if negb (ok response) then
        console LevelError
          ("[progress.js] Failed to fetch search index. Status: " ++
           Str.showNat (status response) ++ " - " ++ statusText response ++
           ". Ensure search plugin is enabled and MkDocs is built.") ;;
        setInnerHTML
          [errorParagraph
             "Error loading progress: Could not fetch search index. Please check console for details."]
      else
        searchIndex <- responseJson response ;;
        console LevelLog "[progress.js] Search index fetched:" ;;
        let tracked := map toTrackedPage (filter isTracked (docs searchIndex)) in
        setFilesToTrack
          (sort (fun a b => localeCompare (name a) (name b)) tracked) ;;
        console LevelLog "[progress.js] Dynamically populated filesToTrack:")
     (fun error =>
        console LevelError
          ("[progress.js] Error fetching or parsing search index: " ++
           message error) ;;
        setInnerHTML
          [errorParagraph
             "Error loading progress: Failed to parse search index data. Check console."]))%js.

(** The loop of lines 488-492. *)
Definition collectProgress (files : list TrackedPage) : M (list ProgressData) :=
  forOfPush files
    (fun file =>
       (htmlContent <- fetchHtmlContent (path file) ;;
        progress <- liftLogged (parseHtmlProgress htmlContent) ;;
        ret {| file := file; progress := progress |})%js)
    [].

(** [renderConsolidatedDashboard], lines 473-518. *)
Definition renderConsolidatedDashboard : M unit :=
  (setInnerHTML [infoParagraph "Loading task progress..."] ;;
   populateFilesToTrack ;;
   s <- getState ;;
   if (List.length (filesToTrack s) =? 0)%nat then
     setInnerHTML
       [infoParagraph
          "No other tracked pages found (excluding this dashboard page). Ensure your Markdown files are in the `docs/` root and listed in `mkdocs.yml` nav."]
   else
     allProgressData <- collectProgress (filesToTrack s) ;;
     setInnerHTML [] ;;
     if (List.length allProgressData =? 0)%nat then
       setInnerHTML
         [infoParagraph
            "No progress data found or failed to load for tracked pages."]
     else
       forEachM allProgressData (fun data => appendChild (FileCard data)))%js.

(** The [DOMContentLoaded] handler, lines 295-529.  [filesToTrack]
    starts empty (line 319). *)
Definition onDOMContentLoaded : M unit :=
  (s <- getState ;;
   match container s with
   | None =>
       console LevelLog
         "Progress dashboard container not found on this page. This script is intended for index.md."
   | Some _ =>
       setFilesToTrack [] ;;
       appendHeadScript "https://cdn.tailwindcss.com" ;;
       renderConsolidatedDashboard
   end)%js.

End WithHost.

End DynamicDashboard.

(** ** What the specification speaks of *)

Module Spec.

(** A navigation-control checkbox: one of the toggles of the theme. *)
Definition isUiControl (input : Element) : bool :=
  String.eqb (id input) "__toc" || String.eqb (id input) "__drawer" ||
  String.eqb (id input) "__search".

(** A task checkbox: a checkbox input that is not a navigation control. *)
Definition isContentCheckbox (e : Element) : bool :=
  matches checkbox e && negb (isUiControl e).

(** The task checkboxes among the proper descendants of [e], in document
    order: the content checkboxes that lie inside a task list item.
    [inside] tells whether [e] lies inside a task list item already. *)
Fixpoint taskCheckboxesIn (inside : bool) (e : Element) : list Element :=
  match e with
  | Elem _ _ _ _ _ cs =>
      let inside' := inside || matches taskListItem e in
      flat_map (fun c =>
                  (if inside' && isContentCheckbox c then [c] else []) ++
                  taskCheckboxesIn inside' c) cs
  end.

(** The task checkboxes of a document.  (The root has no ancestor.) *)
Definition taskCheckboxes (d : Document) : list Element :=
  taskCheckboxesIn false (documentElement d).

(** A task list item is counted when the first checkbox input inside it
    satisfies [p] and is not a navigation control. *)
Definition firstCheckboxIs (p : Element -> bool) (item : Element) : bool :=
  match querySelector checkbox item with
  | Some input => negb (isUiControl input) && p input
  | None => false
  end.

Definition always (_ : Element) : bool := true.

(** The task list items of a document that are counted. *)
Definition countedItems (p : Element -> bool) (d : Document) : list Element :=
  filter (firstCheckboxIs p) (docQuerySelectorAll taskListItem d).

(** The rule of the dynamic dashboard: an item is counted when it holds
    a checkbox input, and completed when the first one is checked. *)
Definition hasCheckbox (item : Element) : bool :=
  match querySelector checkbox item with Some _ => true | None => false end.

Definition firstChecked (item : Element) : bool :=
  match querySelector checkbox item with
  | Some input => checked input
  | None => false
  end.

(** The rule of the static dashboard: a list item is counted when it is
    flagged as a task item or holds a checkbox input, and completed when
    its [data-checked] attribute is [true] or its first checkbox input
    is checked. *)
Definition staticCounted (item : Element) : bool :=
  contains (classList item) "task-list-item" || hasCheckbox item.

Definition staticDone (item : Element) : bool :=
  staticCounted item &&
  (option_eqb (getAttribute item "data-checked") "true" || firstChecked item).

(** No task list item of the document has a navigation control as its
    first checkbox input. *)
Definition noUiControlFirst (d : Document) : bool :=
  forallb (fun item => match querySelector checkbox item with
                       | Some input => negb (isUiControl input)
                       | None => true
                       end)
          (docQuerySelectorAll taskListItem d).

(** The TaskCount of a result, with its percentage. *)
Definition taskCount (r : Progress) : nat * nat * Z :=
  (completed r, total r, percentage r).

(** The bounds of a result: no more completed than total tasks, and a
    percentage between 0 and 100.  (Counters are natural numbers.) *)
Definition inRange (r : Progress) : Prop :=
  (completed r <= total r)%nat /\ (0 <= percentage r <= 100)%Z.

(** A run of a parse function that reports percentage 0 for total 0 and
    never divides by zero. *)
Definition zeroSafe (run : Logged Progress) : Prop :=
  (total (fst run) = 0%nat -> percentage (fst run) = 0%Z) /\
  (forall dividend, ~ In (Divide dividend 0) (snd run)).

(** Task lists are flat: no task list item lies inside another one, and
    none holds more than one checkbox input. *)
Definition flatItem (item : Element) : bool :=
  (List.length (querySelectorAll checkbox item) <=? 1)%nat &&
  (List.length (querySelectorAll taskListItem item) =? 0)%nat.

Definition flatTaskLists (d : Document) : bool :=
  forallb flatItem (docQuerySelectorAll taskListItem d).

(** The subtree of [e]: the element and its descendants. *)
Definition subtree (e : Element) : list Element := e :: descendants e.

(** The task list items among [l] are flat. *)
Definition flatIn (l : list Element) : bool :=
  forallb flatItem (filter (matches taskListItem) l).

(** The result for [c] completed of [t] counted items. *)
Definition progressOf (svg : nat -> nat -> Z -> Svg) (c t : nat) : Progress :=
  {| completed := c; total := t;
     percentage := fst (computePercentage c t);
     progressBarSvg := svg c t (fst (computePercentage c t)) |}.

(** [round(100 * completed / total)] in exact arithmetic, halves up. *)
Definition exactPercentage (completed total : nat) : Z :=
  ((200 * Z.of_nat completed + Z.of_nat total) / (2 * Z.of_nat total))%Z.

(** [100 * completed / total] lies exactly halfway between two integers. *)
Definition isTie (completed total : nat) : Prop :=
  ((200 * Z.of_nat completed + Z.of_nat total) mod (2 * Z.of_nat total) = 0)%Z.

(** A string with a slash that is not its last character. *)
Definition slashInside (loc : string) : Prop :=
  exists i, String.get i loc = Some "/"%char /\ (S i < String.length loc)%nat.



(** A page fetch that fails: the request is rejected (transport error)
    or answered with a non-success status. *)
Definition fetchFails (o : FetchOutcome) : Prop :=
  match o with
  | Rejects _ => True
  | Responds r => ok r = false
  end.

(** A comparator that orders its arguments consistently. *)
Definition consistent (compare : string -> string -> Z) : Prop :=
  (forall a b, (0 < compare a b)%Z -> (compare b a <= 0)%Z) /\
  (forall a b c, (compare a b <= 0)%Z -> (compare b c <= 0)%Z ->
                 (compare a c <= 0)%Z).

End Spec.


(** ** Example pages *)

Module Examples.

Definition element (tag : string) (cs : list Element) : Element :=
  Elem tag EmptyString [] [] false cs.

(** [<input type=checkbox id=...>], checked or not. *)
Definition checkboxInput (i : string) (isChecked : bool) : Element :=
  Elem "input" i [] [("type", "checkbox")] isChecked [].

(** [<li class=task-list-item>...</li>] *)
Definition taskItem (cs : list Element) : Element :=
  Elem "li" EmptyString ["task-list-item"] [] false cs.

Definition task (isChecked : bool) : Element :=
  taskItem [checkboxInput EmptyString isChecked].

(** A page whose body holds one list with the given items. *)
Definition page (items : list Element) : Document :=
  {| documentElement :=
       element "html" [element "head" [];
                       element "body" [element "ul" items]] |}.

(** Three task items, two of them checked. *)
Definition threeTasks : Document := page [task true; task true; task false].

(** One task item that holds two checked checkbox inputs. *)
Definition twoBoxes : Document :=
  page [taskItem [checkboxInput EmptyString true; checkboxInput EmptyString true]].

(** One task item whose checkbox input has the [id] of a navigation
    control. *)
Definition tocItem : Document := page [taskItem [checkboxInput "__toc" true]].

(** Forty task items, twenty-three of them checked. *)
Definition fortyTasks : Document :=
  page (repeat (task true) 23 ++ repeat (task false) 17).

(** A page without task items. *)
Definition noTasks : Document := page [element "li" []].

End Examples.

Module ExamplePages.

Import Examples.

(** A list item that is not flagged as a task item but holds a checked
    checkbox input. *)
Definition plainItem : Document :=
  page [element "li" [checkboxInput EmptyString true]].

(** A parser that yields the same document for every text. *)
Definition parseAs (d : Document) (html : string) : Document := d.

End ExamplePages.

(** ** Runs of the dashboards *)

Module Runs.

(** One page has been fetched between [s] and [s']: one request more,
    and nothing else of the browser changed but the event log. *)
Definition fetchedOne (s s' : State) : Prop :=
  origin s' = origin s /\ pathname s' = pathname s /\ href s' = href s /\
  network s' = network s /\ clock s' = S (clock s) /\
  container s' = container s /\ headScripts s' = headScripts s /\
  filesToTrack s' = filesToTrack s.

(** [n] pages have been fetched between [s] and [s']. *)
Definition fetchedMany (n : nat) (s s' : State) : Prop :=
  origin s' = origin s /\ pathname s' = pathname s /\ href s' = href s /\
  network s' = network s /\ clock s' = (clock s + n)%nat /\
  container s' = container s /\ headScripts s' = headScripts s /\
  filesToTrack s' = filesToTrack s.

(** The URL the dynamic dashboard requests for a page. *)
Definition dynamicUrl (s : State) (pagePath : string) : string :=
  (origin s ++ DynamicDashboard.getBasePath s ++ pagePath)%string.


(** A location with one of the three names the filter rejects (line
    430). *)
Definition namedIndex (loc : string) : Prop :=
  loc = "index/" \/ loc = "index.md" \/ loc = "index.html".

(** The URL of the search index. *)
Definition searchIndexUrl (s : State) : string :=
  dynamicUrl s "search/search_index.json".

(** What the discovery resolver stores for a search index: the tracked
    entries, as pages, sorted by name. *)
Definition discovered (toUpperCase : string -> string)
  (localeCompare : string -> string -> Z) (idx : SearchIndex) : list TrackedPage :=
  DynamicDashboard.sort (fun a b => localeCompare (name a) (name b))
    (map (DynamicDashboard.toTrackedPage toUpperCase)
         (filter DynamicDashboard.isTracked (docs idx))).

(** [a] is not after [b] in the order of the names. *)
Definition nameOrder (localeCompare : string -> string -> Z)
  (a b : TrackedPage) : Prop :=
  (localeCompare (name a) (name b) <= 0)%Z.

(** The pages of the tracked entries of an index, in index order. *)
Definition tracked (toUpperCase : string -> string) (idx : SearchIndex) :
  list TrackedPage :=
  map (DynamicDashboard.toTrackedPage toUpperCase)
      (filter DynamicDashboard.isTracked (docs idx)).

(** The requests among the events of a run. *)
Definition requests (l : list Event) : list string :=
  flat_map (fun e => match e with Fetch url => [url] | _ => [] end) l.

(** The index could not be loaded: the request is rejected, answered
    with a non-success status, or its body is not a search index. *)
Definition indexFails (o : FetchOutcome) : Prop :=
  match o with
  | Rejects _ => True
  | Responds r => ok r = false \/ json r = None
  end.

(** The paragraph shown for an empty page list (line 483). *)
Definition noPagesParagraph : Block :=
  DynamicDashboard.infoParagraph
    "No other tracked pages found (excluding this dashboard page). Ensure your Markdown files are in the `docs/` root and listed in `mkdocs.yml` nav.".

(** No TaskCount: zero completed of zero tasks. *)
Definition zeroProgress (p : Progress) : Prop :=
  completed p = 0%nat /\ total p = 0%nat.

End Runs.

Module ExampleRuns.

(** A response with the given status and page text. *)
Definition respond (isOk : bool) (code : nat) (reason : string)
  (body : option string) (index : option SearchIndex) : FetchOutcome :=
  Responds {| ok := isOk; status := code; statusText := reason;
              text := body; json := index |}.

Definition pageFound : FetchOutcome :=
  respond true 200 "OK" (Some "<html>") None.

Definition notFound : FetchOutcome :=
  respond false 404 "Not Found" (Some "Not Found") None.

(** A site whose every request is answered with 404. *)
Definition missingSite (n : nat) (url : string) : FetchOutcome := notFound.

(** A site whose second request (request 1) is answered with 404 and
    whose other pages are found. *)
Definition secondPageMissing (n : nat) (url : string) : FetchOutcome :=
  if (n =? 1)%nat then notFound else pageFound.

(** The state in which a handler starts on the site's front page. *)
Definition start (net : nat -> string -> FetchOutcome)
  (dashboard : option (list Block)) : State :=
  {| origin := "https://example.org";
     pathname := "/progress-tracker/";
     href := "https://example.org/progress-tracker/";
     network := net;
     clock := 0;
     container := dashboard;
     headScripts := Some [];
     events := [];
     filesToTrack := [] |}.

Definition threePages : list TrackedPage :=
  [ {| page_id := "a"; name := "A"; path := "a/" |};
    {| page_id := "b"; name := "B"; path := "b/" |};
    {| page_id := "c"; name := "C"; path := "c/" |} ].

(** A search index: the dashboard, two top-level pages out of name
    order, a nested page and a section anchor. *)
Definition siteIndex : SearchIndex :=
  {| docs := [ {| location := "index.html"; title := Some "Dashboard" |};
               {| location := "frontend/"; title := Some "Frontend" |};
               {| location := "backend/"; title := Some "Backend" |};
               {| location := "guide/setup/"; title := Some "Setup" |};
               {| location := "backend/#tasks"; title := Some "Tasks" |} ] |}.

(** A site that serves [siteIndex] first and finds every page. *)
Definition indexedSite (n : nat) (url : string) : FetchOutcome :=
  if (n =? 0)%nat then respond true 200 "OK" None (Some siteIndex)
  else pageFound.

(** A search index without a page to track, and a site that serves it. *)
Definition onlyDashboard : SearchIndex :=
  {| docs := [ {| location := "index.html"; title := Some "Dashboard" |};
               {| location := "guide/setup/"; title := Some "Setup" |} ] |}.

Definition dashboardOnlySite (n : nat) (url : string) : FetchOutcome :=
  respond true 200 "OK" None (Some onlyDashboard).



(** A resolution of page paths, standing for [new URL(path, base).href]
    on the addresses of the examples: a relative path is appended to a
    base that ends in a directory, and nothing resolves against
    [about:blank]. *)
Definition resolveRelative (pagePath base : string) : option string :=
  if String.eqb base "about:blank" then None else Some (base ++ pagePath)%string.

(** The state in which a handler starts on a blank page. *)
Definition startBlank (dashboard : option (list Block)) : State :=
  {| origin := "null";
     pathname := "blank";
     href := "about:blank";
     network := missingSite;
     clock := 0;
     container := dashboard;
     headScripts := Some [];
     events := [];
     filesToTrack := [] |}.

(** The state in which a handler starts on a document without [head]. *)
Definition startHeadless (net : nat -> string -> FetchOutcome)
  (dashboard : option (list Block)) : State :=
  {| origin := "https://example.org";
     pathname := "/progress-tracker/";
     href := "https://example.org/progress-tracker/";
     network := net;
     clock := 0;
     container := dashboard;
     headScripts := None;
     events := [];
     filesToTrack := [] |}.

(** The same index as [siteIndex] in the reverse order. *)
Definition shuffledIndex : SearchIndex := {| docs := rev (docs siteIndex) |}.

(** A comparator by code units, standing for [localeCompare]. *)
Definition compareCodeUnits (a b : string) : Z :=
  match String.compare a b with Lt => (-1)%Z | Eq => 0%Z | Gt => 1%Z end.

(** An upper-casing of the ASCII letters, standing for [toUpperCase]. *)
Fixpoint upperAscii (s : string) : string :=
  match s with
  | EmptyString => EmptyString
  | String c s' =>
      let n := nat_of_ascii c in
      String (if ((97 <=? n) && (n <=? 122))%nat then ascii_of_nat (n - 32) else c)
             (upperAscii s')
  end.

End ExampleRuns.

(** ** Slashes in a location *)

Module Slashes.

(** The number of slashes of a string. *)
Fixpoint count (s : string) : nat :=
  match s with
  | EmptyString => 0
  | String c s' => if Ascii.eqb c "/" then S (count s') else count s'
  end.

(** The last character is a slash. *)
Fixpoint atEnd (s : string) : bool :=
  match s with
  | EmptyString => false
  | String c EmptyString => Ascii.eqb c "/"
  | String _ s' => atEnd s'
  end.

(** Some slash is followed by another character. *)
Fixpoint internal (s : string) : bool :=
  match s with
  | EmptyString => false
  | String c s' => (Ascii.eqb c "/" && Str.truthy s') || internal s'
  end.

End Slashes.

(** ** The kernel's binary64 numbers, to compare the model with *)

Module Binary64.

Definition ofZ (z : Z) : PrimFloat.float :=
  PrimFloat.of_uint63 (Uint63.of_Z z).

(** [(c / t) * 100] on hardware doubles. *)
Definition product (c t : Z) : SpecFloat.spec_float :=
  FloatOps.Prim2SF (PrimFloat.mul (PrimFloat.div (ofZ c) (ofZ t)) (ofZ 100)).

(** The model computes the same double. *)
Definition agrees (c t : Z) : bool :=
  let y := Number.mul (Number.div (inject_Z c) (inject_Z t)) 100 in
  match product c t with
  | SpecFloat.S754_zero _ => Qeq_bool y 0
  | SpecFloat.S754_finite false m e => Qeq_bool y (inject_Z (Zpos m) * 2 ^ e)
  | _ => false
  end.

Fixpoint agreeBelow (t c : nat) : bool :=
  agrees (Z.of_nat c) (Z.of_nat t) &&
  match c with O => true | S c' => agreeBelow t c' end.

(** Agreement for every [0 <= c <= t] with [1 <= t <= n]. *)
Fixpoint agreeUpTo (n : nat) : bool :=
  match n with
  | O => true
  | S n' => agreeBelow n n && agreeUpTo n'
  end.

End Binary64.

(** ** The handler of the page scanner ([individual-progress.js]) *)

Module ScannerHandler.

(** The page the handler runs on: its document, the markup assigned to
    [progressBarContainer.innerHTML] (if any), and the console.  The
    assignment replaces the children of the container in the document. *)
Record Page : Type := {
  document : Document;
  progressBar : option Svg;
  log : list Event
}.

(** [document.getElementById(i)]: the first element with that [id]. *)
Definition getElementById (i : string) (d : Document) : option Element :=
  find (fun e => String.eqb (id e) i) (elements d).

(** [document.head]: the first [head] child of the root. *)
Definition head (d : Document) : option Element :=
  find (fun c => String.eqb (tagName c) "head") (children (documentElement d)).

Definition isHead (c : Element) : bool := String.eqb (tagName c) "head".
Definition isBody (c : Element) : bool :=
  String.eqb (tagName c) "body" || String.eqb (tagName c) "frameset".

(** [[role=main]] *)
Definition roleMain (e : Element) : bool :=
  option_eqb (getAttribute e "role") "main".

(** Where a new element is appended: to the first element of the
    document that matches a test, or to the first child of the root that
    does ([document.body], [document.head]). *)
Inductive Place : Type :=
| FirstElement (test : Element -> bool)
| RootChild (test : Element -> bool).

(** The chain of lines 22-26: the first candidate that exists. *)
Definition mainContent (d : Document) : option Place :=
  match find roleMain (elements d) with
  | Some _ => Some (FirstElement roleMain)
  | None =>
  match docQuerySelector (SelClass "md-content__inner") d with
  | Some _ => Some (FirstElement (matches (SelClass "md-content__inner")))
  | None =>
  match docQuerySelector (SelClass "md-typeset") d with
  | Some _ => Some (FirstElement (matches (SelClass "md-typeset")))
  | None =>
  match docQuerySelector (SelTag "article") d with
  | Some _ => Some (FirstElement (matches (SelTag "article")))
  | None =>
  match body d with
  | Some _ => Some (RootChild isBody)
  | None => None
  end end end end end.

(** [e.appendChild(child)] *)
Definition addChild (child : Element) (e : Element) : Element :=
  match e with
  | Elem t i c a ch cs => Elem t i c a ch (cs ++ [child])
  end.

(** The tree with [child] appended to the first element, in document
    order, that passes [test]; [None] when there is none. *)
Fixpoint appendAtFirst (test : Element -> bool) (child : Element)
  (e : Element) : option Element :=
  if test e then Some (addChild child e)
  else
    match e with
    | Elem t i c a ch cs =>
        option_map (Elem t i c a ch)
          ((fix among (l : list Element) : option (list Element) :=
              match l with
              | [] => None
              | x :: l' =>
                  match appendAtFirst test child x with
                  | Some x' => Some (x' :: l')
                  | None => option_map (cons x) (among l')
                  end
              end) cs)
    end.

(** The children with [child] appended to the first one that passes
    [test]. *)
Fixpoint appendAmong (test : Element -> bool) (child : Element)
  (l : list Element) : option (list Element) :=
  match l with
  | [] => None
  | x :: l' =>
      if test x then Some (addChild child x :: l')
      else option_map (cons x) (appendAmong test child l')
  end.

(** [place.appendChild(child)] in the document; the document is left as
    it is when the place does not exist. *)
Definition appendChildAt (place : Place) (child : Element) (d : Document) : Document :=
  match place with
  | FirstElement test =>
      match appendAtFirst test child (documentElement d) with
      | Some root => {| documentElement := root |}
      | None => d
      end
  | RootChild test =>
      match documentElement d with
      | Elem t i c a ch cs =>
          match appendAmong test child cs with
          | Some cs' => {| documentElement := Elem t i c a ch cs' |}
          | None => d
          end
      end
  end.

(** The [div] of lines 29-30 and the [script] of lines 108-109. *)
Definition fallbackContainer : Element :=
  Elem "div" "current-page-progress-bar" [] [] false [].

Definition tailwindScript : Element :=
  Elem "script" EmptyString [] [("src", "https://cdn.tailwindcss.com")] false [].

(** [e.innerHTML = markup]: the children of [e] are replaced. *)
Definition setChildren (new : list Element) (e : Element) : Element :=
  match e with
  | Elem t i c a ch _ => Elem t i c a ch new
  end.

(** The tree with the children of the first element, in document order,
    that passes [test] replaced by what [new] gives for that element;
    [None] when there is none. *)
Fixpoint replaceAtFirst (test : Element -> bool) (new : Element -> list Element)
  (e : Element) : option Element :=
  if test e then Some (setChildren (new e) e)
  else
    match e with
    | Elem t i c a ch cs =>
        option_map (Elem t i c a ch)
          ((fix among (l : list Element) : option (list Element) :=
              match l with
              | [] => None
              | x :: l' =>
                  match replaceAtFirst test new x with
                  | Some x' => Some (x' :: l')
                  | None => option_map (cons x) (among l')
                  end
              end) cs)
    end.

Definition hasId (i : string) (e : Element) : bool := String.eqb (id e) i.

(** [document.getElementById(i).innerHTML = markup], where [parse]
    gives the elements the markup stands for inside an element with a
    given tag name.  (The handler has looked the element up before; it is
    still the first one with its [id].) *)
Definition setInnerHTMLOf (i : string) (parse : string -> list Element)
  (d : Document) : Document :=
  match replaceAtFirst (hasId i) (fun e => parse (tagName e)) (documentElement d) with
  | Some root => {| documentElement := root |}
  | None => d
  end.

Section WithHost.

(** Host function: the HTML fragment parser behind the assignment to
    [innerHTML].  It gives the child elements the markup stands for (text
    nodes left out); they depend on the element that receives them,
    through its tag name. *)
Variable parseFragment : string -> Svg -> list Element.

Definition say (level : Level) (text : string) (p : Page) : Page :=
  {| document := document p; progressBar := progressBar p;
     log := log p ++ [Console level text] |}.

(** The [DOMContentLoaded] handler, lines 3-115. *)
Definition onDOMContentLoaded (page : Page) : (Exn + unit) * Page :=
  match getElementById "progress-dashboard-container" (document page) with
  | Some _ =>
      (inr tt,
       say LevelLog
         "[individual-progress.js] This is index.md. Script will not run on this page."
         page)
  | None =>
      let located :=
        match getElementById "current-page-progress-bar" (document page) with
        | Some _ => Some page
        | None =>
            match mainContent (document page) with
            | Some place =>
                Some (say LevelLog
                        "[individual-progress.js] Fallback 'current-page-progress-bar' div created and appended."
                        {| document := appendChildAt place fallbackContainer (document page);
                           progressBar := progressBar page;
                           log := log page |})
            | None => None
            end
        end in
      match located with
      | None =>
          (inr tt,
           say LevelWarn
             "[individual-progress.js] No suitable container found for progress bar. Aborting."
             page)
      | Some page1 =>
          match head (document page1) with
          | None =>
              (inl (Thrown "TypeError: document.head is null"), page1)
          | Some _ =>
              let doc2 := appendChildAt (RootChild isHead) tailwindScript
                            (document page1) in
              let progressData := Scanner.parseCurrentPageProgress doc2 in
              (inr tt,
               {| document :=
                    setInnerHTMLOf "current-page-progress-bar"
                      (fun tag => parseFragment tag (progressBarSvg (fst progressData)))
                      doc2;
                  progressBar := Some (progressBarSvg (fst progressData));
                  log := log page1 ++ snd progressData |})
          end
      end
  end.

End WithHost.

(** An element the handler adds: the [div] of the fallback or the
    [script] that loads the style library. *)
Definition isFallbackContainer (e : Element) : bool :=
  match e with
  | Elem t i [] [] false [] =>
      String.eqb t "div" && String.eqb i "current-page-progress-bar"
  | _ => false
  end.

Definition isTailwindScript (e : Element) : bool :=
  match e with
  | Elem t EmptyString [] [(k, v)] false [] =>
      String.eqb t "script" && String.eqb k "src" &&
      String.eqb v "https://cdn.tailwindcss.com"
  | _ => false
  end.

Definition isAdded (e : Element) : bool :=
  isFallbackContainer e || isTailwindScript e.

(** The tree without the elements below its root that are such a [div]
    or [script]. *)
Fixpoint erase (e : Element) : Element :=
  match e with
  | Elem t i c a ch cs =>
      Elem t i c a ch
        ((fix among (l : list Element) : list Element :=
            match l with
            | [] => []
            | x :: l' => if isAdded x then among l' else erase x :: among l'
            end) cs)
  end.

Definition eraseDocument (d : Document) : Document :=
  {| documentElement := erase (documentElement d) |}.

(** The two functions on the children of an element, by name. *)
Definition eraseAmong : list Element -> list Element :=
  fix among (l : list Element) : list Element :=
    match l with
    | [] => []
    | x :: l' => if isAdded x then among l' else erase x :: among l'
    end.

Definition appendDeep (test : Element -> bool) (child : Element) :
  list Element -> option (list Element) :=
  fix among (l : list Element) : option (list Element) :=
    match l with
    | [] => None
    | x :: l' =>
        match appendAtFirst test child x with
        | Some x' => Some (x' :: l')
        | None => option_map (cons x) (among l')
        end
    end.

Definition replaceDeep (test : Element -> bool) (new : Element -> list Element) :
  list Element -> option (list Element) :=
  fix among (l : list Element) : option (list Element) :=
    match l with
    | [] => None
    | x :: l' =>
        match replaceAtFirst test new x with
        | Some x' => Some (x' :: l')
        | None => option_map (cons x) (among l')
        end
    end.

(** The test of a place. *)
Definition placeTest (place : Place) : Element -> bool :=
  match place with FirstElement t => t | RootChild t => t end.

(** The [id]s of the elements of a document, in document order. *)
Definition ids (d : Document) : list string := map id (elements d).

(** The handler has assigned markup to the container. *)
Definition rendered (p : Page) : bool :=
  match progressBar p with Some _ => true | None => false end.

End ScannerHandler.

Module ExampleScans.

(** The elements of the markup of a parse function: the bar of lines
    91-94 (and 232-235, 393-396), and the card of lines 83-95 around it. *)
Definition svgBar (percentage : Z) : Element :=
  Elem "svg" EmptyString ["rounded-full"; "bg-gray-200"]
    [("width", "100%"); ("height", "20")] false
    [ Elem "rect" EmptyString ["rounded-full"]
        [("width", (Str.showZ percentage ++ "%")%string); ("height", "20");
         ("fill", "#4CAF50")] false [];
      Elem "text" EmptyString []
        [("x", "50%"); ("y", "15"); ("fill", "black"); ("text-anchor", "middle");
         ("font-size", "12"); ("font-weight", "bold")] false [] ].

Definition markupElements (svg : Svg) : list Element :=
  match svg with
  | NoSvg => []
  | ProgressBar percentage => [svgBar percentage]
  | PageProgress _ _ percentage =>
      [ Elem "div" EmptyString
          ["mt-8"; "p-4"; "border"; "border-gray-200"; "rounded-lg"; "bg-white";
           "shadow-sm"] [] false
          [ Elem "h3" EmptyString
              ["text-lg"; "font-semibold"; "text-gray-700"; "mb-2"] [] false [];
            Elem "div" EmptyString
              ["flex"; "items-center"; "justify-between"; "mb-2"] [] false
              [ Elem "span" EmptyString ["text-sm"; "text-gray-600"] [] false [];
                Elem "span" EmptyString
                  ["text-sm"; "font-medium"; "text-gray-800"] [] false [] ];
            svgBar percentage ] ]
  end.

(** A fragment parser, standing for the browser's on the containers of
    the examples: inside a [div] the markup gives its own elements. *)
Definition parseInDiv (tag : string) (svg : Svg) : list Element :=
  markupElements svg.

(** The handler starts on a page: nothing rendered, nothing logged. *)
Definition load (d : Document) : ScannerHandler.Page :=
  {| ScannerHandler.document := d;
     ScannerHandler.progressBar := None;
     ScannerHandler.log := [] |}.

(** A page with the dashboard container in its body. *)
Definition dashboardPage : Document :=
  {| documentElement :=
       Examples.element "html"
         [Examples.element "head" [];
          Examples.element "body"
            [Elem "div" "progress-dashboard-container" [] [] false [];
             Examples.element "ul" [Examples.task true]]] |}.

(** A page that has the container of the progress bar, with an element
    in it. *)
Definition pageWithBar : Document :=
  {| documentElement :=
       Examples.element "html"
         [Examples.element "head" [];
          Examples.element "body"
            [Examples.element "ul" [Examples.task true; Examples.task false];
             Elem "div" "current-page-progress-bar" [] [] false
               [Elem "span" "old-bar" [] [] false []]]] |}.

(** A document without [head] and [body]. *)
Definition bareDocument : Document :=
  {| documentElement := Examples.element "html" [] |}.

End ExampleScans.

(** ** What a batch of fetches returns *)

Module Batch.

(** The text [fetchHtmlContent] returns for an outcome of its request:
    the body of a successful response, the empty string otherwise. *)
Definition bodyOf (o : FetchOutcome) : string :=
  match o with
  | Rejects _ => EmptyString
  | Responds r =>
      if ok r then match text r with Some b => b | None => EmptyString end
      else EmptyString
  end.

(** The entries of a batch that starts with request [n] of the network
    [net]: each page with the progress [parse] finds in the text its own
    request returned. *)
Fixpoint entriesFrom (parse : string -> Progress) (url : TrackedPage -> string)
  (net : nat -> string -> FetchOutcome) (n : nat) (files : list TrackedPage) :
  list ProgressData :=
  match files with
  | [] => []
  | f :: files' =>
      {| file := f; progress := parse (bodyOf (net n (url f))) |}
      :: entriesFrom parse url net (S n) files'
  end.

(** The [src] of the script both dashboards add. *)
Definition tailwind : string := "https://cdn.tailwindcss.com".

(** The state in which [renderConsolidatedDashboard] calls
    [populateFilesToTrack]: no tracked page yet, the script added, the
    loading paragraph shown. *)
Definition started (s : State) : State :=
  withContainer
    (option_map (fun _ => [DynamicDashboard.infoParagraph "Loading task progress..."])
                (container s))
    (withHeadScripts (option_map (fun scripts => scripts ++ [tailwind]) (headScripts s))
       (withFilesToTrack [] s)).

(** The parse functions of the two dashboards, as functions of the
    fetched text. *)
Definition dynamicParse (parseFromString : string -> Document) (html : string) : Progress :=
  fst (DynamicDashboard.parseHtmlProgress parseFromString html).

Definition staticParse (parseFromString : string -> Document) (html : string) : Progress :=
  fst (StaticDashboard.parseHtmlProgress parseFromString html).

(** The paragraphs the dynamic dashboard never ends on. *)
Definition neverShown : list Block :=
  [ DynamicDashboard.errorParagraph
      "Error loading progress: Could not fetch search index. Please check console for details.";
    DynamicDashboard.errorParagraph
      "Error loading progress: Failed to parse search index data. Check console.";
    DynamicDashboard.infoParagraph
      "No progress data found or failed to load for tracked pages.";
    DynamicDashboard.infoParagraph "Loading task progress..." ].

End Batch.

(** * Properties *)

(** ** Numbers *)

Module NumberFacts.

Import Number.
Local Open Scope Q_scope.

Lemma two_pow_pos (e : Z) : 0 < 2 ^ e.
Proof. apply Qpower_0_lt. reflexivity. Qed.

Lemma two_pow_Z (n : Z) : (0 <= n)%Z -> inject_Z (2 ^ n) == 2 ^ n.
Proof. intro H. now rewrite Zpower_Qpower. Qed.

(** [Qlog2 x] is an exponent below [x] ... *)
Lemma Qlog2_le (x : Q) : 0 < x -> 2 ^ Qlog2 x <= x.
Proof.
  intro Hx. unfold Qlog2.
  destruct (Qle_bool (2 ^ (Z.log2 (Qnum x) - Z.log2 (Z.pos (Qden x)))) x) eqn:E.
  - now apply Qle_bool_iff.
  - destruct x as [n d]. unfold Qlt in Hx. simpl in Hx. simpl Qnum. simpl Qden. clear E.
    assert (Hn : (0 < n)%Z) by lia.
    destruct (Z.log2_spec n Hn) as [Hn1 _].
    destruct (Z.log2_spec (Z.pos d) (Pos2Z.is_pos d)) as [_ Hd2].
    assert (Ha : (0 <= Z.log2 n)%Z) by apply Z.log2_nonneg.
    assert (Hb : (0 <= Z.log2 (Z.pos d))%Z) by apply Z.log2_nonneg.
    replace (Z.log2 n - Z.log2 (Z.pos d) - 1)%Z
      with (Z.log2 n + - (Z.log2 (Z.pos d) + 1))%Z by lia.
    rewrite Qpower_plus by (intro H; discriminate H).
    rewrite Qpower_opp.
    rewrite <- (two_pow_Z (Z.log2 n)) by lia.
    rewrite <- (two_pow_Z (Z.log2 (Z.pos d) + 1)) by lia.
    rewrite Z.add_1_r.
    set (a := (2 ^ Z.log2 n)%Z) in *.
    set (b := (2 ^ Z.succ (Z.log2 (Z.pos d)))%Z) in *.
    assert (Hbpos : (0 < b)%Z) by lia.
    apply Qle_shift_div_r.
    + unfold Qlt; simpl; lia.
    + unfold Qle, Qmult. simpl. nia.
Qed.

(** ... and it is the largest such exponent: [x] lies in the binade
    [[2 ^ Qlog2 x, 2 ^ (Qlog2 x + 1))]. *)
Lemma Qlog2_lt (x : Q) : 0 < x -> x < 2 ^ (Qlog2 x + 1).
Proof.
  intro Hx. unfold Qlog2.
  destruct (Qle_bool (2 ^ (Z.log2 (Qnum x) - Z.log2 (Z.pos (Qden x)))) x) eqn:E.
  - destruct x as [n d]. unfold Qlt in Hx. simpl in Hx. simpl Qnum. simpl Qden. clear E.
    assert (Hn : (0 < n)%Z) by lia.
    destruct (Z.log2_spec n Hn) as [_ Hn2].
    destruct (Z.log2_spec (Z.pos d) (Pos2Z.is_pos d)) as [Hd1 _].
    assert (Ha : (0 <= Z.log2 n)%Z) by apply Z.log2_nonneg.
    assert (Hb : (0 <= Z.log2 (Z.pos d))%Z) by apply Z.log2_nonneg.
    replace (Z.log2 n - Z.log2 (Z.pos d) + 1)%Z
      with ((Z.log2 n + 1) + - Z.log2 (Z.pos d))%Z by lia.
    rewrite Qpower_plus by (intro H; discriminate H).
    rewrite Qpower_opp.
    rewrite <- (two_pow_Z (Z.log2 n + 1)) by lia.
    rewrite <- (two_pow_Z (Z.log2 (Z.pos d))) by lia.
    rewrite Z.add_1_r.
    set (a := (2 ^ Z.succ (Z.log2 n))%Z) in *.
    set (b := (2 ^ Z.log2 (Z.pos d))%Z) in *.
    assert (Hbpos : (0 < b)%Z) by (unfold b; apply Z.pow_pos_nonneg; lia).
    apply Qlt_shift_div_l.
    + unfold Qlt; simpl; lia.
    + unfold Qlt, Qmult. simpl. nia.
  - replace (Z.log2 (Qnum x) - Z.log2 (Z.pos (Qden x)) - 1 + 1)%Z
      with (Z.log2 (Qnum x) - Z.log2 (Z.pos (Qden x)))%Z by lia.
    apply Qnot_le_lt. intro H. apply Qle_bool_iff in H. congruence.
Qed.

Lemma roundTiesToEven_near (q : Q) :
  inject_Z (roundTiesToEven q) - q <= 1 # 2 /\
  q - inject_Z (roundTiesToEven q) <= 1 # 2.
Proof.
  unfold roundTiesToEven.
  pose proof (Qfloor_le q) as Hlo.
  pose proof (Qlt_floor q) as Hhi.
  rewrite inject_Z_plus in Hhi. change (inject_Z 1) with 1 in Hhi.
  destruct (Qcompare (q - inject_Z (Qfloor q)) (1 # 2)) eqn:E.
  - apply Qeq_alt in E.
    destruct (Z.even (Qfloor q));
      [| rewrite inject_Z_plus; change (inject_Z 1) with 1 ]; split; lra.
  - apply Qlt_alt in E. split; lra.
  - apply Qgt_alt in E.
    rewrite inject_Z_plus; change (inject_Z 1) with 1. split; lra.
Qed.

Lemma ulp_le (x : Q) : 0 < x -> ulp x <= 2 * eps * x /\ 0 < ulp x.
Proof.
  intro Hx. unfold ulp. split; [| apply two_pow_pos].
  replace (Qlog2 x - 52)%Z with (Qlog2 x + -52)%Z by lia.
  rewrite Qpower_plus by (intro H; discriminate H).
  pose proof (Qlog2_le x Hx) as H.
  assert (E : 2 ^ (-52) == 2 * eps) by reflexivity.
  rewrite E. pose proof (two_pow_pos (Qlog2 x)). unfold eps in *. nra.
Qed.

Lemma double_near (x : Q) :
  0 <= x -> x * (1 - eps) <= double x /\ double x <= x * (1 + eps).
Proof.
  intro Hx. unfold double.
  destruct (Qle_bool x 0) eqn:E.
  - apply Qle_bool_iff in E. assert (x == 0) as -> by lra. split; lra.
  - assert (Hpos : 0 < x).
    { apply Qnot_le_lt. intro H. apply Qle_bool_iff in H. congruence. }
    destruct (ulp_le x Hpos) as [Hu Hu0].
    set (u := ulp x) in *.
    destruct (roundTiesToEven_near (x / u)) as [H1 H2].
    set (m := inject_Z (roundTiesToEven (x / u))) in *.
    assert (Hq : x == (x / u) * u) by (field; lra).
    set (q := x / u) in *.
    unfold eps in *. split; nra.
Qed.

(** The double computed for [(completed / total) * 100] is within
    [300 * eps] of the exact quotient. *)
Lemma quotient_near (c t : nat) :
  (0 < t)%nat -> (c <= t)%nat ->
  let X := 100 * ofNat c / ofNat t in
  let y := mul (div (ofNat c) (ofNat t)) 100 in
  0 <= y /\ X - 300 * eps <= y /\ y <= X + 300 * eps.
Proof.
  intros Ht Hc X y.
  assert (HT : 0 < ofNat t).
  { unfold ofNat. change 0 with (inject_Z 0). rewrite <- Zlt_Qlt. lia. }
  assert (HC : 0 <= ofNat c).
  { unfold ofNat. change 0 with (inject_Z 0). rewrite <- Zle_Qle. lia. }
  assert (HCT : ofNat c <= ofNat t).
  { unfold ofNat. rewrite <- Zle_Qle. lia. }
  set (x1 := ofNat c / ofNat t).
  assert (Hx1 : x1 * ofNat t == ofNat c) by (unfold x1; field; lra).
  assert (Hx10 : 0 <= x1) by nra.
  assert (Hx11 : x1 <= 1) by nra.
  assert (HX : X == 100 * x1) by (unfold X, x1; field; lra).
  destruct (double_near x1 Hx10) as [L1 U1].
  change (double x1) with (div (ofNat c) (ofNat t)) in L1, U1.
  set (y1 := div (ofNat c) (ofNat t)) in *.
  assert (He0 : 0 <= eps) by (unfold eps; lra).
  assert (He1 : eps <= 1) by (unfold eps; lra).
  set (a := x1 * eps) in *.
  assert (Ha0 : 0 <= a) by (unfold a; nra).
  assert (Ha1 : a <= eps) by (unfold a; nra).
  assert (L1' : x1 - a <= y1) by (unfold a; ring_simplify in L1; lra).
  assert (U1' : y1 <= x1 + a) by (unfold a; ring_simplify in U1; lra).
  assert (Ha2 : a <= x1) by (unfold a; nra).
  assert (Hy1 : 0 <= y1) by lra.
  assert (Hy1' : 0 <= y1 * 100) by lra.
  destruct (double_near (y1 * 100) Hy1') as [L2 U2].
  change (double (y1 * 100)) with y in L2, U2.
  set (b := y1 * eps) in *.
  assert (Hb0 : 0 <= b) by (unfold b; nra).
  assert (Hb1 : b <= 2 * eps) by (unfold b; nra).
  assert (Hb2 : b <= y1) by (unfold b; nra).
  assert (L2' : 100 * y1 - 100 * b <= y) by (unfold b; ring_simplify in L2; lra).
  assert (U2' : y <= 100 * y1 + 100 * b) by (unfold b; ring_simplify in U2; lra).
  repeat split; lra.
Qed.

Lemma Qfloor_eq (z : Q) (k : Z) :
  inject_Z k <= z -> z < inject_Z k + 1 -> Qfloor z = k.
Proof.
  intros H1 H2.
  pose proof (Qfloor_le z) as Hlo.
  pose proof (Qlt_floor z) as Hhi.
  rewrite inject_Z_plus in Hhi. change (inject_Z 1) with 1 in Hhi.
  assert (A : inject_Z (Qfloor z) < inject_Z (k + 1)).
  { rewrite inject_Z_plus. change (inject_Z 1) with 1. lra. }
  assert (B : inject_Z k < inject_Z (Qfloor z + 1)).
  { rewrite inject_Z_plus. change (inject_Z 1) with 1. lra. }
  rewrite <- Zlt_Qlt in A, B. lia.
Qed.

Lemma computePercentage_zero (c : nat) : fst (computePercentage c 0) = 0%Z.
Proof. reflexivity. Qed.

Lemma computePercentage_pos (c t : nat) :
  (0 < t)%nat ->
  fst (computePercentage c t) =
  Math_round (mul (div (ofNat c) (ofNat t)) 100).
Proof.
  intro H. unfold computePercentage.
  destruct (Nat.eqb_spec t 0); [lia | reflexivity].
Qed.

(** The percentage of a count is between 0 and 100. *)
Lemma computePercentage_range (c t : nat) :
  (c <= t)%nat -> (0 <= fst (computePercentage c t) <= 100)%Z.
Proof.
  intro Hc. destruct (Nat.eq_dec t 0) as [-> | Ht].
  - rewrite computePercentage_zero. lia.
  - rewrite computePercentage_pos by lia.
    destruct (quotient_near c t ltac:(lia) Hc) as (H0 & _ & HU).
    cbv zeta in HU.
    set (y := mul (div (ofNat c) (ofNat t)) 100) in *.
    assert (HX : 100 * ofNat c / ofNat t <= 100).
    { assert (HT : 0 < ofNat t).
      { unfold ofNat. change 0 with (inject_Z 0). rewrite <- Zlt_Qlt. lia. }
      assert (HCT : ofNat c <= ofNat t).
      { unfold ofNat. rewrite <- Zle_Qle. lia. }
      apply Qle_shift_div_r; lra. }
    unfold Math_round.
    pose proof (Qfloor_le (y + (1 # 2))) as Hlo.
    pose proof (Qfloor_resp_le 0 (y + (1 # 2)) ltac:(lra)) as Hge.
    change (Qfloor 0) with 0%Z in Hge.
    assert (A : inject_Z (Qfloor (y + (1 # 2))) < inject_Z 101).
    { unfold eps in *. change (inject_Z 101) with 101. lra. }
    rewrite <- Zlt_Qlt in A. lia.
Qed.

(** Away from ties, and for counts below 2^43, the percentage is the
    exact quotient rounded half up. *)
Lemma computePercentage_exact (c t : nat) :
  (0 < t)%nat -> (Z.of_nat t < 2 ^ 43)%Z -> (c <= t)%nat ->
  ~ Spec.isTie c t ->
  fst (computePercentage c t) = Spec.exactPercentage c t.
Proof.
  intros Ht Hbig Hc Htie.
  rewrite computePercentage_pos by lia.
  destruct (quotient_near c t Ht Hc) as (_ & HL & HU).
  cbv zeta in HL, HU.
  set (y := mul (div (ofNat c) (ofNat t)) 100) in *.
  unfold Spec.isTie in Htie. unfold Spec.exactPercentage.
  set (n := (200 * Z.of_nat c + Z.of_nat t)%Z) in *.
  set (d := (2 * Z.of_nat t)%Z) in *.
  assert (Hd : (0 < d)%Z) by (unfold d; lia).
  pose proof (Z.div_mod n d ltac:(lia)) as Hdm.
  pose proof (Z.mod_pos_bound n d Hd) as Hr.
  set (k := (n / d)%Z) in *. set (r := (n mod d)%Z) in *.
  assert (HT : 0 < ofNat t).
  { unfold ofNat. change 0 with (inject_Z 0). rewrite <- Zlt_Qlt. lia. }
  assert (HTb : ofNat t <= 8796093022208).
  { unfold ofNat. change 8796093022208 with (inject_Z (2 ^ 43)).
    rewrite <- Zle_Qle. lia. }
  (* the exact quotient, times 2t *)
  assert (E : 200 * ofNat c + ofNat t == 2 * ofNat t * inject_Z k + inject_Z r).
  { unfold ofNat.
    change 200 with (inject_Z 200). change 2 with (inject_Z 2).
    rewrite <- !inject_Z_mult, <- !inject_Z_plus.
    apply inject_Z_injective. unfold n, d in Hdm. lia. }
  assert (R1 : 1 <= inject_Z r).
  { change 1 with (inject_Z 1). rewrite <- Zle_Qle. lia. }
  assert (R2 : inject_Z r <= 2 * ofNat t - 1).
  { unfold ofNat. change 2 with (inject_Z 2). change 1 with (inject_Z 1).
    rewrite <- inject_Z_mult. unfold Qminus. rewrite <- inject_Z_opp, <- inject_Z_plus.
    rewrite <- Zle_Qle. unfold d in Hr. lia. }
  set (X := 100 * ofNat c / ofNat t) in *.
  assert (HX : X * ofNat t == 100 * ofNat c) by (unfold X; field; lra).
  unfold Math_round. apply Qfloor_eq; unfold eps in *.
  - (* k <= y + 1/2, as k + 1/(2t) <= X + 1/2 *)
    assert (G : (inject_Z k - (y + (1 # 2))) * (2 * ofNat t) <= 0) by nra.
    nra.
  - assert (G : 0 <= (inject_Z k + 1 - (y + (1 # 2))) * (2 * ofNat t) - (1#4)) by nra.
    nra.
Qed.

(** The model of the double arithmetic agrees with the kernel's binary64
    numbers on [(c / t) * 100] for all counts up to 100 tasks. *)
Lemma double_model_agrees_with_binary64 : Binary64.agreeUpTo 100 = true.
Proof. vm_compute. reflexivity. Qed.

End NumberFacts.

(** ** The DOM *)

Module DomFacts.

(** Induction on an element, with the hypothesis for all its children. *)
Lemma Element_rect' (P : Element -> Prop)
  (step : forall t i c a ch cs, Forall P cs -> P (Elem t i c a ch cs)) :
  forall e, P e.
Proof.
  fix IH 1. intros [t i c a ch cs]. apply step.
  induction cs as [| x cs IHcs]; constructor; [apply IH | exact IHcs].
Qed.

Lemma filter_flat_map {A B} (f : B -> bool) (g : A -> list B) (l : list A) :
  filter f (flat_map g l) = flat_map (fun x => filter f (g x)) l.
Proof.
  induction l as [| x l IH]; simpl; [reflexivity |].
  now rewrite filter_app, IH.
Qed.

Lemma filter_andb {A} (f g : A -> bool) (l : list A) :
  filter (fun x => f x && g x) l = filter g (filter f l).
Proof.
  induction l as [| x l IH]; simpl; [reflexivity |].
  destruct (f x); simpl; [destruct (g x) |]; now rewrite IH.
Qed.

Lemma descendants_children (e : Element) :
  descendants e = flat_map (fun c => c :: descendants c) (children e).
Proof. now destruct e. Qed.

(** Counting with [forEach]: the counters grow by the number of items
    that pass the two tests of the callback. *)
Lemma forEach_count {A} (counted done : A -> bool) (body : A -> nat * nat -> nat * nat)
  (Hbody : forall x t c,
      body x (t, c) =
      (if counted x then S t else t, if done x then S c else c))
  (l : list A) (t c : nat) :
  forEach l body (t, c) =
  (t + List.length (filter counted l), c + List.length (filter done l))%nat.
Proof.
  unfold forEach. revert t c.
  induction l as [| x l IH]; intros t c; simpl.
  - f_equal; lia.
  - rewrite Hbody, IH.
    destruct (counted x), (done x); simpl; f_equal; lia.
Qed.

Lemma filter_length_le_impl {A} (f g : A -> bool) (l : list A) :
  (forall x, f x = true -> g x = true) ->
  (List.length (filter f l) <= List.length (filter g l))%nat.
Proof.
  intro H. induction l as [| x l IH]; simpl; [lia |].
  destruct (f x) eqn:E.
  - rewrite (H x E). simpl. lia.
  - destruct (g x); simpl; lia.
Qed.

End DomFacts.

(** ** The counting rules *)

Module CountFacts.

Import DomFacts Spec.

Lemma scanner_countItem (x : Element) (t c : nat) :
  Scanner.countItem x (t, c) =
  (if firstCheckboxIs always x then S t else t,
   if firstCheckboxIs checked x then S c else c).
Proof.
  unfold Scanner.countItem, firstCheckboxIs, always, isUiControl.
  destruct (querySelector checkbox x) as [input |]; [| reflexivity].
  destruct (String.eqb (id input) "__toc"), (String.eqb (id input) "__drawer"),
    (String.eqb (id input) "__search"); reflexivity.
Qed.

(** The counters of the scanner on a list of items. *)
Lemma scanner_forEach (l : list Element) :
  forEach l Scanner.countItem (0, 0)%nat =
  (List.length (filter (firstCheckboxIs always) l),
   List.length (filter (firstCheckboxIs checked) l)).
Proof.
  now rewrite (forEach_count _ _ _ scanner_countItem).
Qed.

Lemma dynamic_countItem (x : Element) (t c : nat) :
  DynamicDashboard.countItem x (t, c) =
  (if hasCheckbox x then S t else t, if firstChecked x then S c else c).
Proof.
  unfold DynamicDashboard.countItem, hasCheckbox, firstChecked.
  destruct (querySelector checkbox x) as [input |]; reflexivity.
Qed.

Lemma dynamic_forEach (l : list Element) :
  forEach l DynamicDashboard.countItem (0, 0)%nat =
  (List.length (filter hasCheckbox l), List.length (filter firstChecked l)).
Proof.
  now rewrite (forEach_count _ _ _ dynamic_countItem).
Qed.

Lemma static_countItem (x : Element) (t c : nat) :
  StaticDashboard.countItem x (t, c) =
  (if staticCounted x then S t else t, if staticDone x then S c else c).
Proof.
  unfold StaticDashboard.countItem, staticDone, staticCounted, hasCheckbox, firstChecked.
  destruct (querySelector checkbox x) as [input |];
    destruct (contains (classList x) "task-list-item");
    destruct (option_eqb (getAttribute x "data-checked") "true"); simpl;
    try reflexivity; now destruct (checked input).
Qed.

Lemma static_forEach (l : list Element) :
  forEach l StaticDashboard.countItem (0, 0)%nat =
  (List.length (filter staticCounted l), List.length (filter staticDone l)).
Proof.
  now rewrite (forEach_count _ _ _ static_countItem).
Qed.

End CountFacts.

(** ** Task items and task checkboxes *)

Module TaskFacts.

Import DomFacts Spec.

(** Inside a task list item, the task checkboxes are the content
    checkboxes among the descendants. *)
Lemma taskCheckboxesIn_inside (e : Element) :
  taskCheckboxesIn true e = filter isContentCheckbox (descendants e).
Proof.
  induction e as [t i c a ch cs IH] using Element_rect'.
  simpl. induction IH as [| x cs Hx _ IHcs]; simpl; [reflexivity |].
  rewrite filter_app, IHcs, Hx.
  now destruct (isContentCheckbox x).
Qed.

Lemma flatIn_app (l1 l2 : list Element) :
  flatIn (l1 ++ l2) = flatIn l1 && flatIn l2.
Proof. unfold flatIn. now rewrite filter_app, forallb_app. Qed.

(** A flat task list item is counted once when its only checkbox is
    a task checkbox, and not at all otherwise. *)
Lemma flat_item_count (p : Element -> bool) (e : Element) :
  (List.length (querySelectorAll checkbox e) <= 1)%nat ->
  List.length (filter p (filter isContentCheckbox (descendants e))) =
  if firstCheckboxIs p e then 1%nat else 0%nat.
Proof.
  unfold firstCheckboxIs, querySelector, querySelectorAll, isContentCheckbox.
  rewrite filter_andb.
  destruct (filter (matches checkbox) (descendants e)) as [| x [| y l]]; simpl;
    intro H; try lia.
  destruct (isUiControl x); simpl; [reflexivity |].
  now destruct (p x).
Qed.

Lemma filter_head {A} (f : A -> bool) (x : A) (l : list A) :
  filter f (x :: l) = if f x then x :: filter f l else filter f l.
Proof. reflexivity. Qed.

Lemma taskCheckboxesIn_children (inside : bool) (e : Element) :
  taskCheckboxesIn inside e =
  flat_map (fun c =>
              (if (inside || matches taskListItem e) && isContentCheckbox c
               then [c] else []) ++
              taskCheckboxesIn (inside || matches taskListItem e) c)
           (children e).
Proof. now destruct e. Qed.

(** In a subtree with flat task lists, the counted task list items are
    as many as the task checkboxes. *)
Lemma flat_subtree_count (p : Element -> bool) (e : Element) :
  flatIn (subtree e) = true ->
  List.length (filter (firstCheckboxIs p) (filter (matches taskListItem) (subtree e))) =
  List.length (filter p (taskCheckboxesIn false e)).
Proof.
  induction e as [t i c a ch cs IH] using Element_rect'.
  remember (Elem t i c a ch cs) as e eqn:He.
  assert (Hcs : children e = cs) by now subst e.
  clear He. unfold subtree, flatIn. intro Hflat.
  rewrite filter_head in Hflat |- *.
  destruct (matches taskListItem e) eqn:Htask.
  - (* a task list item: nothing nested, at most one checkbox *)
    simpl forallb in Hflat. apply andb_prop in Hflat as [Hitem _].
    unfold flatItem in Hitem. apply andb_prop in Hitem as [H1 H0].
    apply Nat.leb_le in H1. apply Nat.eqb_eq in H0.
    apply length_zero_iff_nil in H0. unfold querySelectorAll in H0.
    rewrite H0, filter_head. simpl filter.
    replace (taskCheckboxesIn false e) with (taskCheckboxesIn true e)
      by (rewrite !taskCheckboxesIn_children, Htask; reflexivity).
    rewrite taskCheckboxesIn_inside, (flat_item_count p e H1).
    now destruct (firstCheckboxIs p e).
  - (* not a task list item: the children's subtrees add up *)
    rewrite taskCheckboxesIn_children, descendants_children, Hcs, Htask.
    rewrite descendants_children, Hcs in Hflat.
    simpl orb. simpl andb. cbv iota.
    clear Htask Hcs.
    induction IH as [| x cs Hx _ IHcs]; [reflexivity |].
    simpl flat_map in *.
    change (x :: descendants x ++ flat_map (fun c => c :: descendants c) cs)
      with (subtree x ++ flat_map (fun c => c :: descendants c) cs) in *.
    rewrite filter_app, forallb_app in Hflat.
    apply andb_prop in Hflat as [Hfx Hfcs].
    rewrite !filter_app, !length_app.
    rewrite (Hx Hfx), (IHcs Hfcs). reflexivity.
Qed.

Lemma flat_document_count (p : Element -> bool) (d : Document) :
  flatTaskLists d = true ->
  List.length (countedItems p d) = List.length (filter p (taskCheckboxes d)).
Proof. intro H. now apply flat_subtree_count. Qed.

Lemma filter_always (l : list Element) : filter always l = l.
Proof.
  induction l as [| x l IH]; [reflexivity |]. simpl. now rewrite IH.
Qed.

End TaskFacts.

(** ** What the parse functions return *)

Module ParseFacts.

Import DomFacts Spec CountFacts.

Lemma scanner_result (d : Document) :
  Scanner.parseCurrentPageProgress d =
  (progressOf PageProgress
     (List.length (countedItems checked d))
     (List.length (countedItems always d)),
   Console LevelLog
     ("[individual-progress.js] Page progress: Total=" ++
      Str.showNat (List.length (countedItems always d)) ++ ", Completed=" ++
      Str.showNat (List.length (countedItems checked d)))
   :: snd (computePercentage (List.length (countedItems checked d))
                             (List.length (countedItems always d)))).
Proof.
  unfold Scanner.parseCurrentPageProgress. rewrite scanner_forEach.
  unfold countedItems, progressOf, lbind, emit, lret.
  destruct (computePercentage _ _) as [p l]. simpl. now rewrite app_nil_r.
Qed.

Lemma dynamic_result (parse : string -> Document) (html : string) :
  Str.truthy html = true ->
  DynamicDashboard.parseHtmlProgress parse html =
  (let items := docQuerySelectorAll taskListItem (parse html) in
   progressOf (fun _ _ p => ProgressBar p)
     (List.length (filter firstChecked items))
     (List.length (filter hasCheckbox items)),
   let items := docQuerySelectorAll taskListItem (parse html) in
   Console LevelLog
     ("[progress.js] Parsed progress: Total=" ++
      Str.showNat (List.length (filter hasCheckbox items)) ++ ", Completed=" ++
      Str.showNat (List.length (filter firstChecked items)))
   :: snd (computePercentage (List.length (filter firstChecked items))
                             (List.length (filter hasCheckbox items)))).
Proof.
  intro H. unfold DynamicDashboard.parseHtmlProgress. rewrite H. simpl negb. cbv iota.
  rewrite dynamic_forEach.
  unfold progressOf, lbind, emit, lret.
  destruct (computePercentage _ _) as [p l]. simpl. now rewrite app_nil_r.
Qed.

Lemma dynamic_result_empty (parse : string -> Document) (html : string) :
  Str.truthy html = false ->
  DynamicDashboard.parseHtmlProgress parse html =
  (DynamicDashboard.noProgress,
   [Console LevelWarn "[progress.js] parseHtmlProgress received empty HTML content."]).
Proof.
  intro H. unfold DynamicDashboard.parseHtmlProgress. now rewrite H.
Qed.

Lemma static_result (parse : string -> Document) (html : string) (area : Element) :
  Str.truthy html = true ->
  StaticDashboard.contentAreaOf (parse html) = Some area ->
  StaticDashboard.parseHtmlProgress parse html =
  (let items := querySelectorAll (SelTag "li") area in
   progressOf (fun _ _ p => ProgressBar p)
     (List.length (filter staticDone items))
     (List.length (filter staticCounted items)),
   let items := querySelectorAll (SelTag "li") area in
   Console LevelLog
     ("Parsed progress: Total=" ++
      Str.showNat (List.length (filter staticCounted items)) ++ ", Completed=" ++
      Str.showNat (List.length (filter staticDone items)))
   :: snd (computePercentage (List.length (filter staticDone items))
                             (List.length (filter staticCounted items)))).
Proof.
  intros H Ha. unfold StaticDashboard.parseHtmlProgress. rewrite H, Ha.
  simpl negb. cbv iota. rewrite static_forEach.
  unfold progressOf, lbind, emit, lret.
  destruct (computePercentage _ _) as [p l]. simpl. now rewrite app_nil_r.
Qed.

(** Each counting rule counts no more completed than total items. *)
Lemma scanner_le (l : list Element) :
  (List.length (filter (firstCheckboxIs checked) l) <=
   List.length (filter (firstCheckboxIs always) l))%nat.
Proof.
  apply filter_length_le_impl. intro x. unfold firstCheckboxIs, always.
  destruct (querySelector checkbox x); [| discriminate].
  intro H. apply andb_prop in H as [-> _]. reflexivity.
Qed.

Lemma dynamic_le (l : list Element) :
  (List.length (filter firstChecked l) <= List.length (filter hasCheckbox l))%nat.
Proof.
  apply filter_length_le_impl. intro x. unfold firstChecked, hasCheckbox.
  now destruct (querySelector checkbox x).
Qed.

Lemma static_le (l : list Element) :
  (List.length (filter staticDone l) <= List.length (filter staticCounted l))%nat.
Proof.
  apply filter_length_le_impl. intro x. unfold staticDone.
  intro H. now apply andb_prop in H as [-> _].
Qed.

Lemma computePercentage_events (c t : nat) :
  snd (computePercentage c t) = if (t =? 0)%nat then [] else [Divide c t].
Proof.
  unfold computePercentage. now destruct (t =? 0)%nat.
Qed.

End ParseFacts.

(** ** The page scanner *)

Module ScannerProofs.

Import DomFacts Spec CountFacts TaskFacts ParseFacts NumberFacts.

(** C1, as stated, fails, in its counts and in its percentage.  A task
    list item is counted once, however many checkbox inputs it holds: on
    a page with one task item holding two checked checkboxes the scanner
    reports one task of one, not two of two.  And the percentage is
    computed in double precision: with 23 of 40 tasks checked,
    [(23 / 40) * 100] is the double just below 57.5 and the scanner
    reports 57, where [round(100 * 23 / 40)] is 58 (whichever way halves
    are rounded to the nearest integer, 57.5 does not give 57). *)
Lemma scanner_claim_fails :
  (let r := fst (Scanner.parseCurrentPageProgress Examples.twoBoxes) in
   ~ (completed r = List.length (filter checked (taskCheckboxes Examples.twoBoxes)) /\
      total r = List.length (taskCheckboxes Examples.twoBoxes))) /\
  (let r := fst (Scanner.parseCurrentPageProgress Examples.fortyTasks) in
   completed r = List.length (filter checked (taskCheckboxes Examples.fortyTasks)) /\
   total r = List.length (taskCheckboxes Examples.fortyTasks) /\
   completed r = 23%nat /\ total r = 40%nat /\
   percentage r = 57%Z /\ exactPercentage 23 40 = 58%Z).
Proof.
  split.
  - vm_compute. intros [H _]. discriminate H.
  - vm_compute. repeat split.
Qed.

(** C1 (amended): the scanner counts task list items.  [total] is the
    number of task list items whose first checkbox input is not a
    navigation control, [completed] the number of those whose first
    checkbox input is checked; on a document with flat task lists these
    are the numbers of task checkboxes and of checked task checkboxes.
    The percentage is 0 when [total] is 0, and otherwise (for fewer than
    2^43 tasks) it is [100 * completed / total] rounded half up, unless
    that quotient lies exactly halfway between two integers. *)
Theorem scanner_counts_task_items (document : Document) :
  let r := fst (Scanner.parseCurrentPageProgress document) in
  total r = List.length (countedItems always document) /\
  completed r = List.length (countedItems checked document) /\
  (flatTaskLists document = true ->
   total r = List.length (taskCheckboxes document) /\
   completed r = List.length (filter checked (taskCheckboxes document))) /\
  (total r = 0%nat -> percentage r = 0%Z) /\
  ((0 < total r)%nat -> (Z.of_nat (total r) < 2 ^ 43)%Z ->
   ~ isTie (completed r) (total r) ->
   percentage r = exactPercentage (completed r) (total r)).
Proof.
  rewrite scanner_result. unfold progressOf. cbn [fst completed total percentage].
  repeat split.
  - rewrite (flat_document_count always) by assumption.
    now rewrite filter_always.
  - now apply flat_document_count.
  - intros ->. apply computePercentage_zero.
  - intros Hpos Hbig Htie.
    apply computePercentage_exact; try assumption.
    apply scanner_le.
Qed.

Lemma scanner_counts_task_items_witness :
  let r := fst (Scanner.parseCurrentPageProgress Examples.threeTasks) in
  total r = 3%nat /\ completed r = 2%nat /\ percentage r = 67%Z /\
  List.length (taskCheckboxes Examples.threeTasks) = 3%nat.
Proof.
  destruct (scanner_counts_task_items Examples.threeTasks)
    as (Ht & Hc & Hflat & _ & Hpct).
  destruct (Hflat eq_refl) as [Ht' Hc'].
  assert (Hp := Hpct ltac:(vm_compute; lia) ltac:(vm_compute; reflexivity)
                     ltac:(vm_compute; discriminate)).
  cbv zeta. rewrite Hp, <- Ht'. vm_compute. repeat split.
Defined.

End ScannerProofs.

(** ** The three parse functions *)

Module ParseProofs.

Import DomFacts Spec CountFacts TaskFacts ParseFacts NumberFacts.

Lemma progressOf_inRange svg (c t : nat) :
  (c <= t)%nat -> inRange (progressOf svg c t).
Proof.
  intro H. split; [exact H |]. now apply computePercentage_range.
Qed.

Lemma noProgress_inRange :
  inRange StaticDashboard.noProgress /\ inRange DynamicDashboard.noProgress.
Proof. repeat split; simpl; lia. Qed.

Lemma static_cases (parse : string -> Document) (html : string) :
  StaticDashboard.parseHtmlProgress parse html =
    (StaticDashboard.noProgress,
     [Console LevelWarn "parseHtmlProgress received empty HTML content."]) \/
  StaticDashboard.parseHtmlProgress parse html =
    (StaticDashboard.noProgress,
     [Console LevelWarn
        "Could not find a suitable content area in fetched HTML for checkbox parsing."]) \/
  exists area,
    Str.truthy html = true /\
    StaticDashboard.contentAreaOf (parse html) = Some area.
Proof.
  destruct (Str.truthy html) eqn:E.
  - destruct (StaticDashboard.contentAreaOf (parse html)) as [area |] eqn:Ea.
    + right; right. now exists area.
    + right; left. unfold StaticDashboard.parseHtmlProgress. now rewrite E, Ea.
  - left. unfold StaticDashboard.parseHtmlProgress. now rewrite E.
Qed.

(** C9: each of the three parse functions returns a result with
    [0 <= completed <= total] and [0 <= percentage <= 100], whatever the
    document, the fetched text and the parser. *)
Theorem parse_results_in_range
  (document : Document) (parseFromString : string -> Document)
  (htmlContent : string) :
  inRange (fst (Scanner.parseCurrentPageProgress document)) /\
  inRange (fst (StaticDashboard.parseHtmlProgress parseFromString htmlContent)) /\
  inRange (fst (DynamicDashboard.parseHtmlProgress parseFromString htmlContent)).
Proof.
  split; [| split].
  - rewrite scanner_result. apply progressOf_inRange, scanner_le.
  - destruct (static_cases parseFromString htmlContent)
      as [-> | [-> | (area & Ht & Ha)]]; try apply noProgress_inRange.
    rewrite (static_result _ _ area Ht Ha).
    apply progressOf_inRange, static_le.
  - destruct (Str.truthy htmlContent) eqn:Ht.
    + rewrite dynamic_result by assumption.
      apply progressOf_inRange, dynamic_le.
    + rewrite dynamic_result_empty by assumption. apply noProgress_inRange.
Qed.

Lemma progressOf_zeroSafe svg (c t : nat) (e : Event) :
  (forall a, e <> Divide a 0) ->
  zeroSafe (progressOf svg c t, e :: snd (computePercentage c t)).
Proof.
  intro He. split; cbn [fst snd total percentage progressOf].
  - intros ->. apply computePercentage_zero.
  - intros a [H | H]; [now apply (He a) |].
    rewrite computePercentage_events in H.
    destruct (Nat.eqb_spec t 0) as [-> | Hne]; [exact H |].
    destruct H as [H | []]. injection H as _ H. now apply Hne.
Qed.

Lemma warning_zeroSafe (r : Progress) (text : string) :
  percentage r = 0%Z -> zeroSafe (r, [Console LevelWarn text]).
Proof.
  intro H. split; [now intros _ |].
  intros a [E | []]. discriminate E.
Qed.

(** C7: in each of the three percentage computations a total of 0 gives
    percentage 0, and no division by zero is evaluated. *)
Theorem percentage_zero_without_division
  (document : Document) (parseFromString : string -> Document)
  (htmlContent : string) :
  zeroSafe (Scanner.parseCurrentPageProgress document) /\
  zeroSafe (StaticDashboard.parseHtmlProgress parseFromString htmlContent) /\
  zeroSafe (DynamicDashboard.parseHtmlProgress parseFromString htmlContent).
Proof.
  split; [| split].
  - rewrite scanner_result. now apply progressOf_zeroSafe.
  - destruct (static_cases parseFromString htmlContent)
      as [-> | [-> | (area & Ht & Ha)]]; try now apply warning_zeroSafe.
    rewrite (static_result _ _ area Ht Ha). now apply progressOf_zeroSafe.
  - destruct (Str.truthy htmlContent) eqn:Ht.
    + rewrite dynamic_result by assumption. now apply progressOf_zeroSafe.
    + rewrite dynamic_result_empty by assumption. now apply warning_zeroSafe.
Qed.

Lemma percentage_zero_without_division_witness :
  let run := Scanner.parseCurrentPageProgress Examples.noTasks in
  total (fst run) = 0%nat /\ percentage (fst run) = 0%Z /\
  ~ In (Divide 0 0) (snd run).
Proof.
  destruct (percentage_zero_without_division
              Examples.noTasks (fun _ => Examples.noTasks) EmptyString)
    as [[Hz Hd] _].
  split; [reflexivity |]. split; [apply Hz; reflexivity | apply Hd].
Defined.

End ParseProofs.

(** ** The aggregators' counting rules and the scanner's *)

Module RuleProofs.

Import DomFacts Spec CountFacts TaskFacts ParseFacts NumberFacts.

Lemma without_controls (items : list Element) :
  forallb (fun item => match querySelector checkbox item with
                       | Some input => negb (isUiControl input)
                       | None => true
                       end) items = true ->
  filter (firstCheckboxIs always) items = filter hasCheckbox items /\
  filter (firstCheckboxIs checked) items = filter firstChecked items.
Proof.
  intro H. rewrite forallb_forall in H.
  split; apply filter_ext_in; intros x Hx; specialize (H x Hx);
    unfold firstCheckboxIs, hasCheckbox, firstChecked, always;
    destruct (querySelector checkbox x); try reflexivity; now rewrite H.
Qed.

(** C4, as stated, fails: the dynamic aggregator has no exclusion of
    navigation controls.  A task item whose checkbox carries the [id] of
    the table-of-contents toggle is counted by the aggregator (1 of 1)
    and skipped by the scanner (0 of 0). *)
Lemma aggregator_counts_navigation_controls :
  ~ (taskCount (fst (DynamicDashboard.parseHtmlProgress
                       (ExamplePages.parseAs Examples.tocItem) "<html>")) =
     taskCount (fst (Scanner.parseCurrentPageProgress Examples.tocItem))).
Proof. vm_compute. discriminate. Qed.

(** The static aggregator also counts list items that are not flagged as
    task items when they hold a checkbox input. *)
Lemma static_aggregator_counts_plain_items :
  taskCount (fst (StaticDashboard.parseHtmlProgress
                    (ExamplePages.parseAs ExamplePages.plainItem) "<html>")) =
    (1%nat, 1%nat, 100%Z) /\
  taskCount (fst (Scanner.parseCurrentPageProgress ExamplePages.plainItem)) =
    (0%nat, 0%nat, 0%Z).
Proof. vm_compute. split; reflexivity. Qed.

(** C4 (amended): on a fetched page that is not empty, the dynamic
    aggregator counts every task list item that holds a checkbox input,
    completed when the first one is checked; its TaskCount equals the
    scanner's on every document in which no task item has a navigation
    control as its first checkbox input.  The static aggregator applies a
    rule of its own: among the list items of the content area it counts
    those flagged as task items or holding a checkbox input, completed
    when [data-checked] is [true] or the first checkbox input is checked. *)
Theorem aggregator_rules
  (parseFromString : string -> Document) (htmlContent : string) :
  Str.truthy htmlContent = true ->
  let doc := parseFromString htmlContent in
  let items := docQuerySelectorAll taskListItem doc in
  let dynamic := fst (DynamicDashboard.parseHtmlProgress parseFromString htmlContent) in
  let static := fst (StaticDashboard.parseHtmlProgress parseFromString htmlContent) in
  (total dynamic = List.length (filter hasCheckbox items) /\
   completed dynamic = List.length (filter firstChecked items)) /\
  (noUiControlFirst doc = true ->
   taskCount dynamic = taskCount (fst (Scanner.parseCurrentPageProgress doc))) /\
  (forall contentArea,
     StaticDashboard.contentAreaOf doc = Some contentArea ->
     let listItems := querySelectorAll (SelTag "li") contentArea in
     total static = List.length (filter staticCounted listItems) /\
     completed static = List.length (filter staticDone listItems)).
Proof.
  intros Ht doc items dynamic static. subst dynamic static.
  rewrite dynamic_result by assumption. fold doc. fold items.
  split; [split; reflexivity |]. split.
  - intro Hui. rewrite scanner_result.
    destruct (without_controls items Hui) as [Ha Hc].
    unfold countedItems. fold items. rewrite Ha, Hc. reflexivity.
  - intros area Ha.
    rewrite (static_result parseFromString htmlContent area Ht Ha).
    split; reflexivity.
Qed.

Lemma aggregator_rules_witness :
  taskCount (fst (DynamicDashboard.parseHtmlProgress
                    (ExamplePages.parseAs Examples.threeTasks) "<html>")) =
  taskCount (fst (Scanner.parseCurrentPageProgress Examples.threeTasks)) /\
  taskCount (fst (Scanner.parseCurrentPageProgress Examples.threeTasks)) =
  (2%nat, 3%nat, 67%Z).
Proof.
  destruct (aggregator_rules (ExamplePages.parseAs Examples.threeTasks) "<html>" eq_refl)
    as (_ & H & _).
  split; [exact (H eq_refl) | vm_compute; reflexivity].
Defined.

End RuleProofs.

(** ** Fetching and collecting *)

Module AggregatorProofs.

Import Spec Runs ParseFacts.

Lemma fetchedMany_zero (s : State) : fetchedMany 0 s s.
Proof. unfold fetchedMany. rewrite Nat.add_0_r. repeat split. Qed.

Lemma fetchedMany_step (n : nat) (s s1 s2 : State) :
  fetchedOne s s1 -> fetchedMany n s1 s2 -> fetchedMany (S n) s s2.
Proof.
  unfold fetchedOne, fetchedMany.
  intros (A1 & A2 & A3 & A4 & A5 & A6 & A7 & A8)
         (B1 & B2 & B3 & B4 & B5 & B6 & B7 & B8).
  repeat split; try congruence. rewrite B5, A5. lia.
Qed.

Ltac run_fetch s url :=
  destruct (network s (clock s) url) as [e | r] eqn:Enet;
  [ | cbn; destruct (ok r) eqn:Eok;
      [ unfold responseText; destruct (text r) as [body |] eqn:Etext | ] ];
  cbn; eexists; eexists; (split; [reflexivity |]);
  (split; [repeat split |]).

(** [fetchHtmlContent] never throws; it issues one request, and returns
    the empty string when the fetch fails. *)
Lemma dynamic_fetchHtmlContent_run (pagePath : string) (s : State) :
  exists html s',
    DynamicDashboard.fetchHtmlContent pagePath s = (inr html, s') /\
    fetchedOne s s' /\
    (fetchFails (network s (clock s) (dynamicUrl s pagePath)) ->
     html = EmptyString).
Proof.
  unfold DynamicDashboard.fetchHtmlContent, bind, getState, tryCatch, console, fetch.
  fold (dynamicUrl s pagePath). cbn [clock network withEvent].
  run_fetch s (dynamicUrl s pagePath); cbn; intro H; try reflexivity; congruence.
Qed.

Section Collect.

(** A loop body that fetches one page and never throws. *)
Variable body : TrackedPage -> M ProgressData.
Variable url : State -> TrackedPage -> string.

Hypothesis url_stable :
  forall s s' f, fetchedOne s s' -> url s' f = url s f.

Hypothesis body_run :
  forall f s, exists p s',
    body f s = (inr {| file := f; progress := p |}, s') /\
    fetchedOne s s' /\
    (fetchFails (network s (clock s) (url s f)) -> zeroProgress p).

Lemma forOfPush_collect (files : list TrackedPage) :
  forall acc s, exists out s',
    forOfPush files body acc s = (inr (acc ++ out), s') /\
    map file out = files /\
    fetchedMany (List.length files) s s' /\
    (forall i f,
        nth_error files i = Some f ->
        fetchFails (network s (clock s + i) (url s f)) ->
        exists d, nth_error out i = Some d /\ file d = f /\
                  zeroProgress (progress d)).
Proof.
  induction files as [| f files IH]; intros acc s.
  - exists [], s. cbn. rewrite app_nil_r. repeat split.
    + apply fetchedMany_zero.
    + intros [| i] f H; discriminate H.
  - destruct (body_run f s) as (p & s1 & Hrun & Hone & Hfail).
    destruct (IH (acc ++ [{| file := f; progress := p |}]) s1)
      as (out & s' & Hloop & Hmap & Hmany & Hzero).
    exists ({| file := f; progress := p |} :: out), s'.
    cbn [forOfPush]. unfold bind at 1. rewrite Hrun, Hloop.
    rewrite <- app_assoc. split; [reflexivity |].
    split; [cbn; now rewrite Hmap |].
    split; [now apply fetchedMany_step with s1 |].
    intros [| i] g Hg Hf; cbn in Hg.
    + injection Hg as <-. rewrite Nat.add_0_r in Hf.
      exists {| file := f; progress := p |}. repeat split; now apply Hfail.
    + apply (Hzero i g Hg).
      rewrite (url_stable s s1) by assumption.
      destruct Hone as (_ & _ & _ & Hnet & Hclock & _).
      rewrite Hnet, Hclock.
      now replace (S (clock s) + i)%nat with (clock s + S i)%nat by lia.
Qed.

End Collect.

Lemma dynamicUrl_stable (s s' : State) (f : TrackedPage) :
  fetchedOne s s' -> dynamicUrl s' (path f) = dynamicUrl s (path f).
Proof.
  intros (Ho & Hp & _). unfold dynamicUrl, DynamicDashboard.getBasePath.
  now rewrite Ho, Hp.
Qed.

Lemma fetchedOne_events (s s' : State) (l : list Event) :
  fetchedOne s s' -> fetchedOne s (withEvents l s').
Proof. intro H. exact H. Qed.

Lemma dynamic_body_run (parseFromString : string -> Document)
  (f : TrackedPage) (s : State) :
  exists p s',
    (htmlContent <- DynamicDashboard.fetchHtmlContent (path f) ;;
     progress <- liftLogged
                   (DynamicDashboard.parseHtmlProgress parseFromString htmlContent) ;;
     ret {| file := f; progress := progress |})%js s =
    (inr {| file := f; progress := p |}, s') /\
    fetchedOne s s' /\
    (fetchFails (network s (clock s) (dynamicUrl s (path f))) -> zeroProgress p).
Proof.
  destruct (dynamic_fetchHtmlContent_run (path f) s) as (html & s1 & Hrun & Hone & Hfail).
  unfold bind at 1. rewrite Hrun. cbn.
  eexists; eexists. split; [reflexivity |]. split.
  - now apply fetchedOne_events.
  - intro H. rewrite (Hfail H). split; reflexivity.
Qed.

End AggregatorProofs.

(** ** The handlers *)

Module HandlerProofs.

Import Spec Runs ParseFacts AggregatorProofs.

(** C8: when the dashboard container is absent, both dashboard scripts
    return normally, having done nothing but emit one console message:
    no request, no script element, no markup. *)
Theorem dashboards_abort_without_container
  (parseFromString : string -> Document)
  (resolveUrl : string -> string -> option string)
  (toUpperCase : string -> string)
  (localeCompare : string -> string -> Z) (s : State) :
  container s = None ->
  StaticDashboard.onDOMContentLoaded parseFromString resolveUrl s =
    (inr tt,
     withEvent
       (Console LevelWarn
          "Progress dashboard container not found. Make sure an element with id 'progress-dashboard-container' exists.")
       s) /\
  DynamicDashboard.onDOMContentLoaded parseFromString toUpperCase localeCompare s =
    (inr tt,
     withEvent
       (Console LevelLog
          "Progress dashboard container not found on this page. This script is intended for index.md.")
       s).
Proof.
  intro H.
  unfold StaticDashboard.onDOMContentLoaded, DynamicDashboard.onDOMContentLoaded,
    bind, getState.
  rewrite H. split; reflexivity.
Qed.

Lemma dashboards_abort_without_container_witness :
  let s := ExampleRuns.start ExampleRuns.indexedSite None in
  let run := DynamicDashboard.onDOMContentLoaded
               (ExamplePages.parseAs Examples.threeTasks)
               ExampleRuns.upperAscii ExampleRuns.compareCodeUnits s in
  fst run = inr tt /\
  container (snd run) = None /\ headScripts (snd run) = Some [] /\
  requests (events (snd run)) = [] /\ List.length (events (snd run)) = 1%nat.
Proof.
  destruct (dashboards_abort_without_container
              (ExamplePages.parseAs Examples.threeTasks) ExampleRuns.resolveRelative
              ExampleRuns.upperAscii ExampleRuns.compareCodeUnits
              (ExampleRuns.start ExampleRuns.indexedSite None) eq_refl)
    as [_ H].
  cbv zeta. rewrite H. repeat split.
Defined.

(** When the index cannot be loaded, [populateFilesToTrack] writes its
    error paragraph and leaves [filesToTrack] as it was. *)
Lemma populate_failure
  (toUpperCase : string -> string) (localeCompare : string -> string -> Z)
  (s : State) :
  indexFails (network s (clock s) (searchIndexUrl s)) ->
  exists s' text,
    DynamicDashboard.populateFilesToTrack toUpperCase localeCompare s = (inr tt, s') /\
    filesToTrack s' = filesToTrack s /\
    container s' =
      option_map (fun _ => [DynamicDashboard.errorParagraph text]) (container s) /\
    headScripts s' = headScripts s /\
    (exists l, events s' = events s ++ l /\ requests l = [searchIndexUrl s]).
Proof.
  unfold DynamicDashboard.populateFilesToTrack, bind, getState, tryCatch, console,
    fetch, setInnerHTML.
  fold (dynamicUrl s "search/search_index.json"). fold (searchIndexUrl s).
  cbn [clock network withEvent].
  destruct (network s (clock s) (searchIndexUrl s)) as [e | r] eqn:Enet; cbn.
  - intros _. eexists; eexists. split; [reflexivity |]. cbn.
    repeat split. eexists. rewrite <- !app_assoc. split; reflexivity.
  - intros [Hok | Hjson].
    + rewrite Hok. cbn. eexists; eexists. split; [reflexivity |]. cbn.
      repeat split. eexists. rewrite <- !app_assoc. split; reflexivity.
    + destruct (ok r); cbn.
      * unfold responseJson. rewrite Hjson. cbn.
        eexists; eexists. split; [reflexivity |]. cbn.
        repeat split. eexists. rewrite <- !app_assoc. split; reflexivity.
      * eexists; eexists. split; [reflexivity |]. cbn.
        repeat split. eexists. rewrite <- !app_assoc. split; reflexivity.
Qed.

(** When the index cannot be loaded, no page is requested, and the
    dashboard ends up showing the paragraph for an empty page list: it
    replaces the error paragraph written just before. *)
Lemma index_failure_run
  (parseFromString : string -> Document)
  (toUpperCase : string -> string) (localeCompare : string -> string -> Z)
  (s : State) (content : list Block) (scripts : list string) :
  container s = Some content ->
  headScripts s = Some scripts ->
  indexFails (network s (clock s) (searchIndexUrl s)) ->
  exists s',
    DynamicDashboard.onDOMContentLoaded parseFromString toUpperCase localeCompare s =
      (inr tt, s') /\
    container s' = Some [noPagesParagraph] /\
    (exists l, events s' = events s ++ l /\ requests l = [searchIndexUrl s]).
Proof.
  intros Hc Hhead Hfail.
  unfold DynamicDashboard.onDOMContentLoaded, bind at 1, getState.
  rewrite Hc.
  unfold bind at 1, setFilesToTrack. unfold bind at 1, appendHeadScript.
  cbn [headScripts withFilesToTrack]. rewrite Hhead.
  unfold DynamicDashboard.renderConsolidatedDashboard.
  unfold bind at 1, setInnerHTML at 1.
  set (s1 := withContainer _ _).
  assert (Hf1 : indexFails (network s1 (clock s1) (searchIndexUrl s1))) by exact Hfail.
  destruct (populate_failure toUpperCase localeCompare s1 Hf1)
    as (s2 & text & Hrun & Hfiles & Hcont & _ & l & Hev & Hreq).
  unfold bind at 1. rewrite Hrun. unfold bind at 1, getState.
  rewrite Hfiles. cbn [filesToTrack s1 withContainer withHeadScripts withFilesToTrack
                       List.length Nat.eqb].
  unfold setInnerHTML. eexists. split; [reflexivity |].
  cbn [container withContainer events]. rewrite Hcont. split.
  - subst s1. cbn. rewrite Hc. reflexivity.
  - exists l. split; [exact Hev | exact Hreq].
Qed.

(** C3 (the code at a failing input): the index request is answered
    with 404.  The only request is the one for the index, and the
    dashboard shows the gray paragraph for an empty page list, not the
    red error paragraph [populateFilesToTrack] had written. *)
Theorem index_not_found_run :
  let s := ExampleRuns.start ExampleRuns.missingSite (Some []) in
  let run := DynamicDashboard.onDOMContentLoaded
               (ExamplePages.parseAs Examples.threeTasks)
               ExampleRuns.upperAscii ExampleRuns.compareCodeUnits s in
  fst run = inr tt /\
  requests (events (snd run)) =
    ["https://example.org/progress-tracker/search/search_index.json"] /\
  container (snd run) = Some [noPagesParagraph] /\
  container (snd run) <>
    Some [DynamicDashboard.errorParagraph
            "Error loading progress: Could not fetch search index. Please check console for details."].
Proof.
  vm_compute. repeat split. discriminate.
Qed.

End HandlerProofs.

(** ** Locations *)

Module StringFacts.

Import Slashes.

Lemma includes_slash (s : string) :
  Str.includes s "/" = (0 <? count s)%nat.
Proof.
  unfold Str.includes.
  induction s as [| c s IH]; [reflexivity |].
  cbn [String.index count]. unfold String.prefix.
  destruct (ascii_dec "/" c) as [<- | Hne].
  - cbn. now destruct s.
  - destruct (Ascii.eqb_spec c "/") as [-> | _]; [congruence |].
    destruct (String.index 0 "/" s); destruct (0 <? count s)%nat;
      congruence || reflexivity.
Qed.

Lemma split_length (s : string) :
  List.length (Str.split "/" s) = S (count s).
Proof.
  induction s as [| c s IH]; [reflexivity |].
  cbn [Str.split count]. destruct (Ascii.eqb c "/").
  - cbn. now rewrite IH.
  - destruct (Str.split "/" s); [discriminate IH | exact IH].
Qed.

Lemma substring_all (s : string) : String.substring 0 (String.length s) s = s.
Proof. induction s as [| c s IH]; cbn; [reflexivity | now rewrite IH]. Qed.

Lemma endsWith_slash (s : string) : Str.endsWith s "/" = atEnd s.
Proof.
  unfold Str.endsWith. cbn [String.length].
  induction s as [| c s IH]; [reflexivity |].
  destruct s as [| c' s'].
  - cbn. destruct (Ascii.eqb_spec c "/") as [-> | Hne]; [reflexivity |].
    destruct (String.eqb_spec (String c EmptyString) "/") as [E | _];
      [injection E as E; contradiction | reflexivity].
  - change (atEnd (String c (String c' s'))) with (atEnd (String c' s')).
    rewrite <- IH.
    cbn [String.length Nat.leb Nat.sub]. rewrite !Nat.sub_0_r.
    cbn [String.substring]. reflexivity.
Qed.

Lemma atEnd_cons (c : ascii) (s : string) :
  atEnd (String c s) = if Str.truthy s then atEnd s else Ascii.eqb c "/".
Proof. now destruct s. Qed.

Lemma truthy_false (s : string) : Str.truthy s = false -> s = EmptyString.
Proof. now destruct s. Qed.

Lemma atEnd_count (s : string) : atEnd s = true -> (1 <= count s)%nat.
Proof.
  induction s as [| c s IH]; [discriminate |].
  rewrite atEnd_cons. cbn [count].
  destruct (Str.truthy s) eqn:T.
  - intro H. specialize (IH H). destruct (Ascii.eqb c "/"); lia.
  - intros ->. lia.
Qed.

(** A location is a top-level page for the script exactly when it has
    no internal slash. *)
Lemma internal_count (s : string) :
  internal s = false <->
  (count s = 0 \/ (count s = 1 /\ atEnd s = true))%nat.
Proof.
  induction s as [| c s IH]; [cbn; intuition |].
  rewrite atEnd_cons. cbn [internal count].
  destruct (Str.truthy s) eqn:T.
  - destruct (Ascii.eqb c "/"); cbn [andb orb].
    + split; [discriminate |].
      intros [H | [H1 H2]]; [discriminate |].
      apply atEnd_count in H2. lia.
    + exact IH.
  - apply truthy_false in T. subst s. cbn.
    destruct (Ascii.eqb c "/"); cbn; intuition congruence.
Qed.

Lemma internal_nested (s : string) :
  internal s = true <-> Spec.slashInside s.
Proof.
  unfold Spec.slashInside.
  induction s as [| c s IH].
  - cbn. split; [discriminate | intros (i & H & _); discriminate H].
  - cbn [internal]. rewrite orb_true_iff, andb_true_iff, IH. split.
    + intros [[Hc Hs] | (i & Hi & Hlen)].
      * apply Ascii.eqb_eq in Hc. subst c. exists 0%nat. split; [reflexivity |].
        destruct s; [discriminate | cbn; lia].
      * exists (S i). split; [exact Hi | cbn; lia].
    + intros ([| i] & Hi & Hlen).
      * left. cbn in Hi. injection Hi as ->. split; [reflexivity |].
        destruct s; [cbn in Hlen; lia | reflexivity].
      * right. exists i. split; [exact Hi | cbn in Hlen; lia].
Qed.

(** The filter of the discovery resolver keeps an entry exactly when its
    location is none of the three names and has no slash before its last
    character. *)
Lemma isTracked_spec (d : IndexDoc) :
  DynamicDashboard.isTracked d = true <->
  ~ Runs.namedIndex (location d) /\
  ~ Spec.slashInside (location d).
Proof.
  unfold DynamicDashboard.isTracked, Runs.namedIndex.
  rewrite <- internal_nested.
  rewrite includes_slash, endsWith_slash, split_length.
  destruct (String.eqb_spec (location d) "index/") as [E1 | N1];
    [cbn; split; [discriminate | intros [H _]; exfalso; apply H; auto] |].
  destruct (String.eqb_spec (location d) "index.md") as [E2 | N2];
    [cbn; split; [discriminate | intros [H _]; exfalso; apply H; auto] |].
  destruct (String.eqb_spec (location d) "index.html") as [E3 | N3];
    [cbn; split; [discriminate | intros [H _]; exfalso; apply H; auto] |].
  cbn [orb].
  pose proof (internal_count (location d)) as Hi.
  destruct (internal (location d)).
  - split; [| intros [_ H]; now elim H].
    intro H. exfalso.
    assert (Hn : ~ (count (location d) = 0 \/
                    count (location d) = 1 /\ atEnd (location d) = true)%nat)
      by (intro K; apply Hi in K; discriminate K).
    apply Hn. apply orb_prop in H as [H | H].
    + left. apply negb_true_iff, Nat.ltb_ge in H. lia.
    + apply andb_prop in H as [Ha Hl]. apply Nat.leb_le in Hl.
      pose proof (atEnd_count _ Ha). right. split; [lia | exact Ha].
  - split; [intros _; intuition congruence |]. intros _.
    destruct (proj1 Hi eq_refl) as [H | [H1 H2]].
    + rewrite H. reflexivity.
    + rewrite H1, H2. reflexivity.
Qed.




End StringFacts.

(** ** Sorting *)

Module SortFacts.

Section WithCompare.

Context {A : Type} (compare : A -> A -> Z).


Lemma insertSorted_perm (x : A) (l : list A) :
  Permutation (DynamicDashboard.insertSorted compare x l) (x :: l).
Proof.
  induction l as [| y l IH]; cbn; [reflexivity |].
  destruct (compare x y <=? 0)%Z; [reflexivity |].
  rewrite IH. apply perm_swap.
Qed.

Lemma sort_perm (l : list A) : Permutation (DynamicDashboard.sort compare l) l.
Proof.
  induction l as [| x l IH]; cbn; [reflexivity |].
  fold (DynamicDashboard.sort compare l).
  rewrite insertSorted_perm. now constructor.
Qed.

Hypothesis total : forall a b, (0 < compare a b)%Z -> (compare b a <= 0)%Z.
Hypothesis trans :
  forall a b c, (compare a b <= 0)%Z -> (compare b c <= 0)%Z -> (compare a c <= 0)%Z.

Lemma insertSorted_sorted (x : A) (l : list A) :
  StronglySorted (fun a b => (compare a b <= 0)%Z) l ->
  StronglySorted (fun a b => (compare a b <= 0)%Z) (DynamicDashboard.insertSorted compare x l).
Proof.
  induction 1 as [| y l Hl IH Hy]; cbn.
  - repeat constructor.
  - destruct (Z.leb_spec (compare x y) 0) as [Hle | Hgt].
    + constructor; [now constructor |].
      constructor; [exact Hle |].
      rewrite Forall_forall in Hy |- *. intros z Hz.
      apply trans with y; [exact Hle | now apply Hy].
    + constructor; [exact IH |].
      rewrite Forall_forall in Hy |- *. intros z Hz.
      apply (Permutation_in _ (insertSorted_perm x l)) in Hz.
      destruct Hz as [<- | Hz]; [now apply total | now apply Hy].
Qed.

Lemma sort_sorted (l : list A) :
  StronglySorted (fun a b => (compare a b <= 0)%Z) (DynamicDashboard.sort compare l).
Proof.
  induction l as [| x l IH]; cbn; [constructor |].
  now apply insertSorted_sorted.
Qed.

End WithCompare.

(** The comparator by code units is consistent. *)
Lemma compareCodeUnits_consistent : Spec.consistent ExampleRuns.compareCodeUnits.
Proof.
  pose proof String_as_OT.cmp_antisym as Hanti.
  pose proof String_as_OT.cmp_eq as Heq.
  pose proof String_as_OT.cmp_lt as Hlt.
  unfold String_as_OT.cmp in Hanti, Heq, Hlt.
  unfold Spec.consistent, ExampleRuns.compareCodeUnits. split.
  - intros a b. rewrite (Hanti b a).
    destruct (String.compare a b); cbn; lia.
  - intros a b c Hab Hbc.
    destruct (String.compare a b) eqn:Eab; try lia;
      destruct (String.compare b c) eqn:Ebc; try lia.
    + apply Heq in Eab, Ebc. subst.
      now rewrite (proj2 (Heq c c) eq_refl).
    + apply Heq in Eab. subst. now rewrite Ebc.
    + apply Heq in Ebc. subst. now rewrite Eab.
    + apply Hlt in Eab, Ebc.
      pose proof (String_as_OT.lt_trans _ _ _ Eab Ebc) as H.
      apply Hlt in H. now rewrite H.
Qed.

End SortFacts.

(** ** The discovery resolver *)

Module DiscoveryProofs.

Import Spec Runs ParseFacts AggregatorProofs StringFacts SortFacts.

Section WithHost.

Variable parseFromString : string -> Document.
Variable toUpperCase : string -> string.
Variable localeCompare : string -> string -> Z.


(** When the index is served, [populateFilesToTrack] stores the sorted
    list of the tracked pages and leaves the container alone. *)
Lemma populate_success (s : State) (r : Response) (idx : SearchIndex) :
  network s (clock s) (searchIndexUrl s) = Responds r ->
  ok r = true -> json r = Some idx ->
  exists s',
    DynamicDashboard.populateFilesToTrack toUpperCase localeCompare s = (inr tt, s') /\
    filesToTrack s' = discovered toUpperCase localeCompare idx /\
    container s' = container s /\
    origin s' = origin s /\ pathname s' = pathname s /\ href s' = href s /\
    network s' = network s /\ clock s' = S (clock s) /\
    headScripts s' = headScripts s.
Proof.
  intros Hnet Hok Hjson.
  unfold DynamicDashboard.populateFilesToTrack, bind, getState, tryCatch, console,
    fetch, setFilesToTrack.
  fold (dynamicUrl s "search/search_index.json"). fold (searchIndexUrl s).
  cbn [clock network withEvent]. rewrite Hnet. cbn. rewrite Hok. cbn.
  unfold responseJson. rewrite Hjson. cbn.
  eexists. split; [reflexivity |]. cbn. repeat split.
Qed.


Lemma forEachM_appendChild (l : list ProgressData) :
  forall s, exists s',
    forEachM l (fun data => appendChild (FileCard data)) s = (inr tt, s') /\
    container s' = option_map (fun c => c ++ map FileCard l) (container s) /\
    filesToTrack s' = filesToTrack s.
Proof.
  induction l as [| d l IH]; intro s.
  - exists s. cbn. repeat split.
    destruct (container s); cbn; [now rewrite app_nil_r | reflexivity].
  - cbn [forEachM]. unfold bind at 1, appendChild at 1.
    destruct (IH (withContainer (option_map (fun c => c ++ [FileCard d]) (container s)) s))
      as (s' & Hrun & Hc & Hf).
    exists s'. split; [exact Hrun |]. split; [| exact Hf].
    rewrite Hc. cbn. destruct (container s); cbn; [| reflexivity].
    now rewrite <- app_assoc.
Qed.

(** The run of the dynamic dashboard when the index is served and some
    page is tracked: one card per discovered page, in the stored order. *)
Lemma dashboard_run (s : State) (content : list Block) (scripts : list string)
  (r : Response) (idx : SearchIndex) :
  container s = Some content ->
  headScripts s = Some scripts ->
  network s (clock s) (searchIndexUrl s) = Responds r ->
  ok r = true -> json r = Some idx ->
  filter DynamicDashboard.isTracked (docs idx) <> [] ->
  exists s' out,
    DynamicDashboard.onDOMContentLoaded parseFromString toUpperCase localeCompare s =
      (inr tt, s') /\
    map file out = discovered toUpperCase localeCompare idx /\
    filesToTrack s' = discovered toUpperCase localeCompare idx /\
    container s' = Some (map FileCard out).
Proof.
  intros Hc Hhead Hnet Hok Hjson Hsome.
  unfold DynamicDashboard.onDOMContentLoaded, bind at 1, getState.
  rewrite Hc.
  unfold bind at 1, setFilesToTrack. unfold bind at 1, appendHeadScript.
  cbn [headScripts withFilesToTrack]. rewrite Hhead.
  unfold DynamicDashboard.renderConsolidatedDashboard.
  unfold bind at 1, setInnerHTML at 1.
  set (s1 := withContainer _ _).
  assert (Hn1 : network s1 (clock s1) (searchIndexUrl s1) = Responds r) by exact Hnet.
  destruct (populate_success s1 r idx Hn1 Hok Hjson)
    as (s2 & Hrun & Hfiles & Hcont & _).
  unfold bind at 1. rewrite Hrun. unfold bind at 1, getState.
  rewrite Hfiles.
  set (files := discovered toUpperCase localeCompare idx) in *.
  assert (Hlen : List.length files <> 0%nat).
  { unfold files, discovered.
    rewrite (Permutation_length (sort_perm _ _)), length_map.
    intro H. apply length_zero_iff_nil in H. contradiction. }
  destruct (Nat.eqb_spec (List.length files) 0) as [E | _]; [contradiction |].
  destruct (forOfPush_collect _ (fun s f => dynamicUrl s (path f))
              dynamicUrl_stable (dynamic_body_run parseFromString) files [] s2)
    as (out & s3 & Hloop & Hmap & Hmany & _).
  assert (Hloop' : DynamicDashboard.collectProgress parseFromString files s2 =
                   (inr out, s3)) by exact Hloop.
  unfold bind at 1. rewrite Hloop'. unfold bind at 1, setInnerHTML at 1.
  assert (Hout : List.length out <> 0%nat).
  { intro H. apply Hlen. rewrite <- Hmap, length_map. exact H. }
  destruct (Nat.eqb_spec (List.length out) 0) as [E | _]; [contradiction |].
  destruct (forEachM_appendChild out
              (withContainer (option_map (fun _ => []) (container s3)) s3))
    as (s4 & Hcards & Hc4 & Hf4).
  exists s4, out. split; [exact Hcards |]. split; [exact Hmap |]. split.
  - rewrite Hf4. cbn. destruct Hmany as (_ & _ & _ & _ & _ & _ & _ & ->).
    exact Hfiles.
  - rewrite Hc4. cbn. destruct Hmany as (_ & _ & _ & _ & _ & -> & _).
    rewrite Hcont. subst s1. cbn. rewrite Hc. reflexivity.
Qed.

End WithHost.




(** C10: when the search index is served, the discovery resolver stores
    the tracked pages sorted by display name (for a [localeCompare] that
    orders consistently), whatever their order in the index; and when
    some page is tracked, the dashboard shows one card per page in that
    order.  (On a document without head the handler throws where it adds
    its script, before it shows anything.) *)
Theorem discovery_sorts_by_name
  (parseFromString : string -> Document)
  (toUpperCase : string -> string) (localeCompare : string -> string -> Z)
  (s : State) (content : list Block) (r : Response) (idx : SearchIndex) :
  consistent localeCompare ->
  container s = Some content ->
  network s (clock s) (searchIndexUrl s) = Responds r ->
  ok r = true -> json r = Some idx ->
  (exists s',
      DynamicDashboard.populateFilesToTrack toUpperCase localeCompare s = (inr tt, s') /\
      StronglySorted (nameOrder localeCompare) (filesToTrack s')) /\
  (filter DynamicDashboard.isTracked (docs idx) <> [] ->
   match headScripts s with
   | None =>
       exists e s',
         DynamicDashboard.onDOMContentLoaded parseFromString toUpperCase localeCompare s =
           (inl e, s') /\
         container s' = container s
   | Some _ =>
       exists s' out,
         DynamicDashboard.onDOMContentLoaded parseFromString toUpperCase localeCompare s =
           (inr tt, s') /\
         container s' = Some (map FileCard out) /\
         StronglySorted (nameOrder localeCompare) (map file out) /\
         Permutation (map file out)
           (map (DynamicDashboard.toTrackedPage toUpperCase)
                (filter DynamicDashboard.isTracked (docs idx)))
   end).
Proof.
  intros [Htotal Htrans] Hc Hnet Hok Hjson.
  assert (Hsorted : StronglySorted (nameOrder localeCompare)
                      (discovered toUpperCase localeCompare idx)).
  { unfold discovered.
    apply (sort_sorted (fun a b : TrackedPage => localeCompare (name a) (name b))).
    - intros a b. apply Htotal.
    - intros a b c. apply Htrans. }
  split.
  - destruct (populate_success toUpperCase localeCompare s r idx Hnet Hok Hjson)
      as (s' & Hrun & Hfiles & _).
    exists s'. split; [exact Hrun | now rewrite Hfiles].
  - intros Hsome.
    destruct (headScripts s) as [scripts |] eqn:Ehead.
    + destruct (dashboard_run parseFromString toUpperCase localeCompare
                  s content scripts r idx Hc Ehead Hnet Hok Hjson Hsome)
        as (s' & out & Hrun & Hmap & _ & Hcards).
      exists s', out. split; [exact Hrun |]. split; [exact Hcards |].
      rewrite Hmap. split; [exact Hsorted | apply sort_perm].
    + unfold DynamicDashboard.onDOMContentLoaded, bind at 1, getState. rewrite Hc.
      unfold bind at 1, setFilesToTrack. unfold bind at 1, appendHeadScript.
      cbn [headScripts withFilesToTrack]. rewrite Ehead.
      eexists; eexists. split; [reflexivity | exact Hc].
Qed.

Lemma discovery_sorts_by_name_witness :
  exists s' out,
    DynamicDashboard.onDOMContentLoaded
      (ExamplePages.parseAs Examples.threeTasks)
      ExampleRuns.upperAscii ExampleRuns.compareCodeUnits
      (ExampleRuns.start ExampleRuns.indexedSite (Some [])) = (inr tt, s') /\
    container s' = Some (map FileCard out) /\
    map (fun d => name (file d)) out = ["Backend"; "Frontend"].
Proof.
  destruct (discovery_sorts_by_name
              (ExamplePages.parseAs Examples.threeTasks)
              ExampleRuns.upperAscii ExampleRuns.compareCodeUnits
              (ExampleRuns.start ExampleRuns.indexedSite (Some [])) []
              _ ExampleRuns.siteIndex
              compareCodeUnits_consistent eq_refl eq_refl eq_refl eq_refl)
    as [_ H].
  destruct (H ltac:(vm_compute; discriminate))
    as (s' & out & Hrun & Hcards & _).
  exists s', out. split; [exact Hrun |]. split; [exact Hcards |].
  vm_compute in Hrun. injection Hrun as <-.
  vm_compute in Hcards. injection Hcards as Hcards.
  destruct out as [| d1 [| d2 [| d3 out]]]; try discriminate Hcards.
  injection Hcards as <- <-. reflexivity.
Defined.

End DiscoveryProofs.

(** * Further properties *)

(** ** The elements the scanner's handler adds *)

Module EraseFacts.

Import DomFacts Spec ParseFacts ScannerHandler.

Lemma erase_unfold (e : Element) :
  erase e =
  Elem (tagName e) (id e) (classList e) (attributes e) (checked e)
       (eraseAmong (children e)).
Proof. now destruct e. Qed.

Lemma isAdded_leaf (x : Element) : isAdded x = true -> descendants x = [].
Proof.
  unfold isAdded, isFallbackContainer, isTailwindScript.
  destruct x as [t i c a ch cs].
  destruct cs; [reflexivity |].
  destruct i, c, a as [| [k v] [| ? ?]], ch; discriminate.
Qed.

Lemma isAdded_tag (x : Element) :
  isAdded x = true -> tagName x = "div" \/ tagName x = "script".
Proof.
  unfold isAdded, isFallbackContainer, isTailwindScript.
  destruct x as [t i c a ch cs]. cbn [tagName].
  intro H. apply orb_prop in H as [H | H].
  - left. destruct c, a, ch, cs; try discriminate H.
    apply andb_prop in H as [H _]. now apply String.eqb_eq.
  - right. destruct i, c, a as [| [k v] [| ? ?]], ch, cs; try discriminate H.
    apply andb_prop in H as [H _]. apply andb_prop in H as [H _].
    now apply String.eqb_eq.
Qed.

Lemma isAdded_not_task (x : Element) :
  isAdded x = true -> matches taskListItem x = false.
Proof.
  intro H. unfold matches, taskListItem.
  destruct (isAdded_tag x H) as [-> | ->]; reflexivity.
Qed.

Lemma isAdded_not_checkbox (x : Element) :
  isAdded x = true -> matches checkbox x = false.
Proof.
  intro H. unfold matches, checkbox.
  destruct (isAdded_tag x H) as [-> | ->]; reflexivity.
Qed.

Lemma matches_erase (s : Selector) (e : Element) :
  matches s (erase e) = matches s e.
Proof. now destruct e, s. Qed.

Lemma id_erase (e : Element) : id (erase e) = id e.
Proof. now destruct e. Qed.

Lemma checked_erase (e : Element) : checked (erase e) = checked e.
Proof. now destruct e. Qed.

(** Erasing commutes with listing the descendants: the erased elements
    have no descendants of their own. *)
Lemma descendants_erase (e : Element) :
  descendants (erase e) =
  map erase (filter (fun x => negb (isAdded x)) (descendants e)).
Proof.
  induction e as [t i c a ch cs IH] using Element_rect'.
  rewrite erase_unfold, !descendants_children. cbn [children].
  induction IH as [| x cs Hx _ IHcs]; [reflexivity |].
  cbn [eraseAmong flat_map]. fold eraseAmong.
  rewrite filter_app. cbn [filter app].
  destruct (isAdded x) eqn:Ex; cbn [negb].
  - rewrite (isAdded_leaf x Ex). cbn [filter app]. exact IHcs.
  - cbn [flat_map app map]. rewrite map_app, <- IHcs, Hx. reflexivity.
Qed.

Lemma filter_map_commute {A} (f : A -> A) (p : A -> bool) (l : list A) :
  (forall x, p (f x) = p x) ->
  filter p (map f l) = map f (filter p l).
Proof.
  intro H. induction l as [| x l IH]; [reflexivity |].
  cbn. rewrite H. destruct (p x); cbn; now rewrite IH.
Qed.

Lemma filter_kept {A} (p q : A -> bool) (l : list A) :
  (forall x, q x = true -> p x = false) ->
  filter p (filter (fun x => negb (q x)) l) = filter p l.
Proof.
  intro H. induction l as [| x l IH]; [reflexivity |].
  cbn. destruct (q x) eqn:Eq; cbn.
  - now rewrite (H x Eq).
  - destruct (p x); now rewrite IH.
Qed.

(** The elements a selector for task items or checkboxes finds below an
    erased element are the erased ones it finds below the element. *)
Lemma querySelectorAll_erase (s : Selector) (e : Element) :
  (forall x, isAdded x = true -> matches s x = false) ->
  querySelectorAll s (erase e) = map erase (querySelectorAll s e).
Proof.
  intro H. unfold querySelectorAll.
  rewrite descendants_erase, filter_map_commute by apply matches_erase.
  now rewrite filter_kept.
Qed.

Lemma firstCheckboxIs_erase (p : Element -> bool) (e : Element) :
  (forall x, p (erase x) = p x) ->
  firstCheckboxIs p (erase e) = firstCheckboxIs p e.
Proof.
  intro Hp. unfold firstCheckboxIs, querySelector.
  rewrite (querySelectorAll_erase checkbox e isAdded_not_checkbox).
  destruct (querySelectorAll checkbox e) as [| x l]; [reflexivity |].
  cbn. unfold isUiControl. now rewrite id_erase, Hp.
Qed.

Lemma countedItems_erase (p : Element -> bool) (d : Document) :
  (forall x, p (erase x) = p x) ->
  List.length (countedItems p (eraseDocument d)) = List.length (countedItems p d).
Proof.
  intro Hp. unfold countedItems, docQuerySelectorAll, elements, eraseDocument.
  cbn [documentElement].
  set (root := documentElement d).
  assert (E : filter (matches taskListItem) (erase root :: descendants (erase root)) =
              map erase (filter (matches taskListItem) (root :: descendants root))).
  { cbn [filter]. rewrite matches_erase.
    fold (querySelectorAll taskListItem (erase root)).
    rewrite (querySelectorAll_erase taskListItem root isAdded_not_task).
    unfold querySelectorAll. now destruct (matches taskListItem root). }
  rewrite E.
  rewrite filter_map_commute by (intro x; now apply firstCheckboxIs_erase).
  apply length_map.
Qed.

(** The scanner does not see the elements the handler adds. *)
Lemma parse_erase (d : Document) :
  Scanner.parseCurrentPageProgress (eraseDocument d) =
  Scanner.parseCurrentPageProgress d.
Proof.
  rewrite !scanner_result.
  rewrite (countedItems_erase always) by reflexivity.
  rewrite (countedItems_erase checked) by apply checked_erase.
  reflexivity.
Qed.

End EraseFacts.

Module AppendFacts.

Import DomFacts Spec ParseFacts ScannerHandler EraseFacts.

Lemma appendAtFirst_unfold (test : Element -> bool) (child e : Element) :
  appendAtFirst test child e =
  if test e then Some (addChild child e)
  else option_map
         (Elem (tagName e) (id e) (classList e) (attributes e) (checked e))
         (appendDeep test child (children e)).
Proof. now destruct e. Qed.

Lemma eraseAmong_app (l1 l2 : list Element) :
  eraseAmong (l1 ++ l2) = eraseAmong l1 ++ eraseAmong l2.
Proof.
  induction l1 as [| x l1 IH]; [reflexivity |].
  cbn [app eraseAmong]. fold eraseAmong. rewrite IH.
  now destruct (isAdded x).
Qed.

Lemma erase_addChild (child e : Element) :
  isAdded child = true -> erase (addChild child e) = erase e.
Proof.
  intro H. destruct e as [t i c a ch cs]. cbn [addChild].
  rewrite !erase_unfold. cbn [tagName id classList attributes checked children].
  rewrite eraseAmong_app. cbn [eraseAmong]. rewrite H. now rewrite app_nil_r.
Qed.

Lemma has_children_not_added (x : Element) :
  children x <> [] -> isAdded x = false.
Proof.
  intro H. destruct (isAdded x) eqn:E; [| reflexivity].
  apply isAdded_leaf in E. rewrite descendants_children in E.
  destruct (children x); [contradiction | discriminate].
Qed.

Section Append.

Variable test : Element -> bool.
Variable child : Element.
Hypothesis child_added : isAdded child = true.
Hypothesis place_kept : forall x, test x = true -> isAdded x = false.

(** Appending an added element below [e] is not seen after erasing. *)
Lemma erase_appendAtFirst (e : Element) :
  forall e', appendAtFirst test child e = Some e' ->
             erase e' = erase e /\ isAdded e = false /\ isAdded e' = false.
Proof.
  induction e as [t i c a ch cs IH] using Element_rect'.
  intros e'. rewrite appendAtFirst_unfold.
  cbn [tagName id classList attributes checked children].
  destruct (test (Elem t i c a ch cs)) eqn:Et.
  - intro H. injection H as <-.
    split; [now apply (erase_addChild child (Elem t i c a ch cs)) |].
    split; [now apply place_kept |].
    apply has_children_not_added. cbn. now destruct cs.
  - destruct (appendDeep test child cs) as [cs' |] eqn:Ed; [| discriminate].
    cbn [option_map]. intro H. injection H as <-.
    assert (G : eraseAmong cs' = eraseAmong cs /\ cs <> [] /\ cs' <> []).
    { clear Et. revert cs' Ed.
      induction IH as [| x cs Hx _ IHcs]; intros cs' Ed; [discriminate Ed |].
      cbn [appendDeep] in Ed. fold (appendDeep test child) in Ed.
      destruct (appendAtFirst test child x) as [x' |] eqn:Ex.
      - injection Ed as <-. destruct (Hx x' eq_refl) as (He & Hn & Hn').
        cbn [eraseAmong]. fold eraseAmong. rewrite Hn, Hn', He.
        repeat split; discriminate.
      - destruct (appendDeep test child cs) as [cs1 |] eqn:E1; [| discriminate Ed].
        cbn [option_map] in Ed. injection Ed as <-.
        destruct (IHcs cs1 eq_refl) as (He & _).
        cbn [eraseAmong]. fold eraseAmong. rewrite He.
        repeat split; discriminate. }
    destruct G as (Ge & Gn & Gn').
    rewrite !erase_unfold.
    cbn [tagName id classList attributes checked children]. rewrite Ge.
    split; [reflexivity |].
    split; apply has_children_not_added; assumption.
Qed.

Lemma erase_appendAmong (l : list Element) :
  forall l', appendAmong test child l = Some l' ->
             eraseAmong l' = eraseAmong l.
Proof.
  induction l as [| x l IH]; intros l' H; [discriminate H |].
  cbn [appendAmong] in H. destruct (test x) eqn:Et.
  - injection H as <-. cbn [eraseAmong]. fold eraseAmong.
    rewrite (place_kept x Et), (erase_addChild child x) by assumption.
    rewrite has_children_not_added; [reflexivity |].
    destruct x as [t i c a ch cs]. cbn. now destruct cs.
  - destruct (appendAmong test child l) as [l1 |]; [| discriminate H].
    cbn [option_map] in H. injection H as <-.
    cbn [eraseAmong]. fold eraseAmong. now rewrite (IH l1 eq_refl).
Qed.

End Append.

(** Appending an added element anywhere leaves the erased document as
    it was. *)
Lemma eraseDocument_appendChildAt (place : Place) (child : Element) (d : Document) :
  isAdded child = true ->
  (forall x, placeTest place x = true -> isAdded x = false) ->
  eraseDocument (appendChildAt place child d) = eraseDocument d.
Proof.
  intros Hc Hp. destruct place as [test | test]; cbn [placeTest] in Hp;
    unfold appendChildAt.
  - destruct (appendAtFirst test child (documentElement d)) as [root |] eqn:E;
      [| reflexivity].
    unfold eraseDocument. cbn [documentElement].
    now destruct (erase_appendAtFirst test child Hc Hp _ _ E) as [-> _].
  - destruct d as [[t i c a ch cs]]. cbn [documentElement].
    destruct (appendAmong test child cs) as [cs' |] eqn:E; [| reflexivity].
    unfold eraseDocument. cbn [documentElement]. rewrite !erase_unfold.
    cbn [tagName id classList attributes checked children].
    now rewrite (erase_appendAmong test child Hc Hp _ _ E).
Qed.

(** None of the places the handler appends to is an added element. *)
Lemma mainContent_kept (d : Document) (place : Place) :
  mainContent d = Some place ->
  forall x, placeTest place x = true -> isAdded x = false.
Proof.
  unfold mainContent. intros H x Hx.
  destruct (isAdded x) eqn:Ea; [| reflexivity]. exfalso.
  assert (Hcases : x = Elem (tagName x) (id x) [] (attributes x) false [] /\
                   (tagName x = "div" /\ attributes x = [] \/
                    tagName x = "script" /\
                    attributes x = [("src", "https://cdn.tailwindcss.com")])).
  { unfold isAdded, isFallbackContainer, isTailwindScript in Ea.
    destruct x as [t i c a ch cs]. cbn [tagName id attributes].
    apply orb_prop in Ea as [Ea | Ea].
    - destruct c, a, ch, cs; try discriminate Ea.
      apply andb_prop in Ea as [Ea _]. apply String.eqb_eq in Ea. auto.
    - destruct i, c, a as [| [k v] [| ? ?]], ch, cs; try discriminate Ea.
      apply andb_prop in Ea as [Ea Ev]. apply andb_prop in Ea as [Et Ek].
      apply String.eqb_eq in Et, Ek, Ev. subst. auto. }
  destruct Hcases as [Hx0 Hx1]. rewrite Hx0 in Hx.
  repeat match type of H with
         | match ?o with Some _ => _ | None => _ end = _ => destruct o
         end;
    try discriminate H; injection H as <-; cbn [placeTest] in Hx;
    unfold roleMain, matches, isBody, getAttribute in Hx;
    cbn [tagName classList attributes contains existsb] in Hx;
    destruct Hx1 as [[Ht Ha] | [Ht Ha]]; rewrite ?Ht, ?Ha in Hx; discriminate Hx.
Qed.

Lemma isHead_kept (x : Element) : isHead x = true -> isAdded x = false.
Proof.
  unfold isHead. intro H. apply String.eqb_eq in H.
  destruct (isAdded x) eqn:E; [| reflexivity].
  destruct (isAdded_tag x E) as [Ht | Ht]; rewrite Ht in H; discriminate H.
Qed.

(** [document.head] after erasing. *)
Lemma head_erase (d : Document) :
  head (eraseDocument d) = option_map erase (head d).
Proof.
  unfold head, eraseDocument. cbn [documentElement].
  rewrite erase_unfold. cbn [children].
  induction (children (documentElement d)) as [| x l IH]; [reflexivity |].
  cbn [eraseAmong find]. fold eraseAmong.
  destruct (isAdded x) eqn:Ea.
  - destruct (String.eqb (tagName x) "head") eqn:Eh; [| exact IH].
    rewrite (isHead_kept x Eh) in Ea. discriminate Ea.
  - cbn [find]. destruct x as [t i c a ch cs]. cbn [erase tagName].
    destruct (String.eqb t "head"); [reflexivity | exact IH].
Qed.

Lemma head_exists_erase (d1 d2 : Document) :
  eraseDocument d1 = eraseDocument d2 ->
  (head d1 = None <-> head d2 = None).
Proof.
  intro H. pose proof (head_erase d1) as H1. pose proof (head_erase d2) as H2.
  rewrite H in H1. rewrite H1 in H2.
  destruct (head d1), (head d2); cbn in H2; try discriminate H2;
    split; intro; congruence.
Qed.

End AppendFacts.

Module IdFacts.

Import DomFacts Spec ParseFacts ScannerHandler EraseFacts AppendFacts.

Lemma subtree_unfold (e : Element) :
  subtree e = e :: flat_map subtree (children e).
Proof. unfold subtree at 1. now rewrite descendants_children. Qed.

Lemma id_addChild (child e : Element) : id (addChild child e) = id e.
Proof. now destruct e. Qed.

Lemma children_addChild (child e : Element) :
  children (addChild child e) = children e ++ [child].
Proof. now destruct e. Qed.

Lemma id_in_subtree (e : Element) : In (id e) (map id (subtree e)).
Proof. now left. Qed.

Section Append.

Variable test : Element -> bool.
Variable child : Element.

(** Appending keeps every [id] of the tree and adds that of the child. *)
Lemma appendAtFirst_ids (e : Element) :
  forall e', appendAtFirst test child e = Some e' ->
             incl (map id (subtree e)) (map id (subtree e')) /\
             In (id child) (map id (subtree e')).
Proof.
  induction e as [t i c a ch cs IH] using Element_rect'.
  intros e'. rewrite appendAtFirst_unfold.
  cbn [tagName id classList attributes checked children].
  destruct (test (Elem t i c a ch cs)) eqn:Et.
  - intro H. injection H as <-.
    change (Elem t i c a ch (cs ++ [child]))
      with (addChild child (Elem t i c a ch cs)).
    rewrite (subtree_unfold (addChild _ _)), children_addChild.
    rewrite (subtree_unfold (Elem t i c a ch cs)). cbn [children].
    rewrite flat_map_app. cbn [map flat_map]. rewrite id_addChild, !map_app.
    pose proof (id_in_subtree child) as Hchild. split.
    + intros j Hj. cbn [In] in *. rewrite !in_app_iff. tauto.
    + cbn [In]. rewrite !in_app_iff. tauto.
  - destruct (appendDeep test child cs) as [cs' |] eqn:Ed; [| discriminate].
    cbn [option_map]. intro H. injection H as <-.
    rewrite !subtree_unfold. cbn [children map id].
    assert (G : incl (map id (flat_map subtree cs)) (map id (flat_map subtree cs')) /\
                In (id child) (map id (flat_map subtree cs'))).
    { clear Et. revert cs' Ed.
      induction IH as [| x cs Hx _ IHcs]; intros cs' Ed; [discriminate Ed |].
      cbn [appendDeep] in Ed. fold (appendDeep test child) in Ed.
      destruct (appendAtFirst test child x) as [x' |] eqn:Ex.
      - injection Ed as <-. destruct (Hx x' eq_refl) as (Hi & Hc).
        cbn [flat_map]. rewrite !map_app. split.
        + intros j Hj. apply in_app_or in Hj as [Hj | Hj]; apply in_or_app;
            [left; now apply Hi | now right].
        + apply in_or_app. now left.
      - destruct (appendDeep test child cs) as [cs1 |] eqn:E1; [| discriminate Ed].
        cbn [option_map] in Ed. injection Ed as <-.
        destruct (IHcs cs1 eq_refl) as (Hi & Hc).
        cbn [flat_map]. rewrite !map_app. split.
        + intros j Hj. apply in_app_or in Hj as [Hj | Hj]; apply in_or_app;
            [now left | right; now apply Hi].
        + apply in_or_app. now right. }
    destruct G as [Gi Gc]. split.
    + intros j [Hj | Hj]; [now left | right; now apply Gi].
    + now right.
Qed.

Lemma appendAmong_ids (l : list Element) :
  forall l', appendAmong test child l = Some l' ->
             incl (map id (flat_map subtree l)) (map id (flat_map subtree l')) /\
             In (id child) (map id (flat_map subtree l')).
Proof.
  induction l as [| x l IH]; intros l' H; [discriminate H |].
  cbn [appendAmong] in H. destruct (test x) eqn:Et.
  - injection H as <-. cbn [flat_map].
    rewrite (subtree_unfold (addChild _ _)), children_addChild.
    rewrite (subtree_unfold x), flat_map_app. cbn [map app flat_map].
    rewrite id_addChild, !map_app.
    pose proof (id_in_subtree child) as Hchild. split.
    + intros j Hj. cbn [In] in *. rewrite !in_app_iff in *. tauto.
    + cbn [In]. rewrite !in_app_iff. tauto.
  - destruct (appendAmong test child l) as [l1 |]; [| discriminate H].
    cbn [option_map] in H. injection H as <-.
    destruct (IH l1 eq_refl) as (Hi & Hc).
    cbn [flat_map]. rewrite !map_app. split.
    + intros j Hj. apply in_app_or in Hj as [Hj | Hj]; apply in_or_app;
        [now left | right; now apply Hi].
    + apply in_or_app. now right.
Qed.

(** Appending fails only when no element passes the test. *)
Lemma appendAtFirst_none (e : Element) :
  appendAtFirst test child e = None ->
  forall x, In x (subtree e) -> test x = false.
Proof.
  induction e as [t i c a ch cs IH] using Element_rect'.
  rewrite appendAtFirst_unfold.
  cbn [tagName id classList attributes checked children].
  destruct (test (Elem t i c a ch cs)) eqn:Et; [discriminate |].
  destruct (appendDeep test child cs) as [cs' |] eqn:Ed; [discriminate |].
  intros _ x. rewrite subtree_unfold. cbn [children].
  intros [<- | Hx]; [exact Et |].
  clear Et. induction IH as [| y cs Hy _ IHcs]; [contradiction |].
  cbn [appendDeep] in Ed. fold (appendDeep test child) in Ed.
  destruct (appendAtFirst test child y) as [y' |] eqn:Ey; [discriminate Ed |].
  destruct (appendDeep test child cs) as [cs1 |] eqn:E1; [discriminate Ed |].
  cbn [flat_map] in Hx. apply in_app_or in Hx as [Hx | Hx].
  - now apply Hy.
  - now apply IHcs.
Qed.

Lemma appendAmong_none (l : list Element) :
  appendAmong test child l = None -> find test l = None.
Proof.
  induction l as [| x l IH]; [reflexivity |].
  cbn [appendAmong find]. destruct (test x); [discriminate |].
  destruct (appendAmong test child l); [discriminate | auto].
Qed.

End Append.

Lemma elements_subtree (d : Document) : elements d = subtree (documentElement d).
Proof. reflexivity. Qed.

Lemma elements_children (d : Document) :
  elements d = documentElement d :: flat_map subtree (children (documentElement d)).
Proof. rewrite elements_subtree. apply subtree_unfold. Qed.

(** A place that exists receives the child: every [id] of the document
    is kept and that of the child is added. *)
Lemma appendChildAt_ids (place : Place) (child : Element) (d : Document) :
  incl (ids d) (ids (appendChildAt place child d)) /\
  (match place with
   | FirstElement test => find test (elements d) <> None
   | RootChild test => find test (children (documentElement d)) <> None
   end ->
   In (id child) (ids (appendChildAt place child d))).
Proof.
  unfold ids. destruct place as [test | test]; unfold appendChildAt.
  - destruct (appendAtFirst test child (documentElement d)) as [root |] eqn:E.
    + destruct (appendAtFirst_ids test child _ _ E) as [Hi Hc].
      split; [exact Hi | intros _; exact Hc].
    + split; [apply incl_refl |]. intro H. exfalso. apply H.
      destruct (find test (elements d)) as [x |] eqn:Ef; [| reflexivity].
      apply find_some in Ef as [Hin Ht].
      now rewrite (appendAtFirst_none test child _ E x Hin) in Ht.
  - rewrite (elements_children d).
    destruct d as [[t i c a ch cs]]. cbn [documentElement children].
    destruct (appendAmong test child cs) as [cs' |] eqn:E.
    + destruct (appendAmong_ids test child _ _ E) as [Hi Hc].
      rewrite elements_children. cbn [documentElement children map id]. split.
      * intros j [Hj | Hj]; [now left | right; now apply Hi].
      * intros _. now right.
    + split; [rewrite elements_children; apply incl_refl |].
      intro H. exfalso. apply H. now apply (appendAmong_none test child).
Qed.

Lemma hd_error_find {A} (f : A -> bool) (l : list A) (x : A) :
  hd_error (filter f l) = Some x -> find f l <> None.
Proof.
  intros E K.
  assert (Hin : In x (filter f l))
    by (destruct (filter f l); [discriminate E | injection E as ->; now left]).
  apply filter_In in Hin as [Hin Hf].
  apply (find_none _ _ K) in Hin. congruence.
Qed.

Lemma getElementById_ids (i : string) (d : Document) :
  getElementById i d <> None <-> In i (ids d).
Proof.
  unfold getElementById, ids. split.
  - destruct (find _ (elements d)) as [x |] eqn:E; [| now intros []].
    intros _. apply find_some in E as [Hin Hx]. apply String.eqb_eq in Hx.
    subst i. now apply in_map.
  - intros H K. apply in_map_iff in H as (x & Hx & Hin).
    apply (find_none _ _ K) in Hin. rewrite Hx, String.eqb_refl in Hin.
    discriminate Hin.
Qed.

End IdFacts.

(** ** Replacing the children of the container *)

Module ReplaceFacts.

Import DomFacts Spec ParseFacts ScannerHandler EraseFacts AppendFacts IdFacts.

Lemma find_app {A} (f : A -> bool) (l1 l2 : list A) :
  find f (l1 ++ l2) =
  match find f l1 with Some x => Some x | None => find f l2 end.
Proof.
  induction l1 as [| x l1 IH]; [reflexivity |].
  cbn. now destruct (f x).
Qed.

Lemma find_all_false {A} (f : A -> bool) (l : list A) :
  (forall x, In x l -> f x = false) -> find f l = None.
Proof.
  induction l as [| x l IH]; intro H; [reflexivity |].
  cbn. rewrite (H x) by now left. apply IH. intros y Hy. apply H. now right.
Qed.

Lemma replaceAtFirst_unfold (test : Element -> bool) (new : Element -> list Element)
  (e : Element) :
  replaceAtFirst test new e =
  if test e then Some (setChildren (new e) e)
  else option_map
         (Elem (tagName e) (id e) (classList e) (attributes e) (checked e))
         (replaceDeep test new (children e)).
Proof. now destruct e. Qed.

Lemma id_setChildren (new : list Element) (e : Element) :
  id (setChildren new e) = id e.
Proof. now destruct e. Qed.

Lemma children_setChildren (new : list Element) (e : Element) :
  children (setChildren new e) = new.
Proof. now destruct e. Qed.

Lemma descendants_flat (e : Element) :
  descendants e = flat_map subtree (children e).
Proof. apply descendants_children. Qed.

Lemma tagName_setChildren (new : list Element) (e : Element) :
  tagName (setChildren new e) = tagName e.
Proof. now destruct e. Qed.

Lemma tagName_addChild (child e : Element) : tagName (addChild child e) = tagName e.
Proof. now destruct e. Qed.

Lemma descendants_addChild (child e : Element) :
  children child = [] ->
  descendants (addChild child e) = descendants e ++ [child].
Proof.
  intro H. rewrite !descendants_flat, children_addChild, flat_map_app.
  cbn [flat_map]. rewrite subtree_unfold, H. reflexivity.
Qed.

Section WithId.

Variable i : string.

Lemma hasId_same (x y : Element) : id x = id y -> hasId i x = hasId i y.
Proof. unfold hasId. now intros ->. Qed.

Section Replace.

Variable new : Element -> list Element.

(** Replacing the children of the first element with the [id]: that
    element is still the first with its [id] and holds the new children;
    an [id] of the tree is kept unless it was below that element. *)
Lemma replaceAtFirst_find (e : Element) :
  match find (hasId i) (subtree e) with
  | Some x =>
      exists e',
        replaceAtFirst (hasId i) new e = Some e' /\
        find (hasId i) (subtree e') = Some (setChildren (new x) x) /\
        (forall j, In j (map id (subtree e)) ->
                   In j (map id (subtree e')) \/ In j (map id (descendants x)))
  | None => replaceAtFirst (hasId i) new e = None
  end.
Proof.
  induction e as [t i0 c a ch cs IH] using Element_rect'.
  rewrite subtree_unfold, replaceAtFirst_unfold.
  cbn [find children tagName id classList attributes checked].
  destruct (hasId i (Elem t i0 c a ch cs)) eqn:Eq.
  - exists (setChildren (new (Elem t i0 c a ch cs)) (Elem t i0 c a ch cs)).
    split; [reflexivity |].
    rewrite subtree_unfold, children_setChildren. cbn [find map].
    rewrite (hasId_same _ (Elem t i0 c a ch cs)), Eq by reflexivity.
    split; [reflexivity |].
    intros j [Hj | Hj]; [left; now left |].
    right. now rewrite descendants_flat.
  - assert (G : match find (hasId i) (flat_map subtree cs) with
                | Some x =>
                    exists cs',
                      replaceDeep (hasId i) new cs = Some cs' /\
                      find (hasId i) (flat_map subtree cs') =
                        Some (setChildren (new x) x) /\
                      (forall j, In j (map id (flat_map subtree cs)) ->
                                 In j (map id (flat_map subtree cs')) \/
                                 In j (map id (descendants x)))
                | None => replaceDeep (hasId i) new cs = None
                end).
    { clear Eq. induction IH as [| x1 rest Hx _ IHrest].
      - reflexivity.
      - cbn [flat_map replaceDeep]. fold (replaceDeep (hasId i) new).
        rewrite find_app. revert Hx.
        destruct (find (hasId i) (subtree x1)) as [x |] eqn:E1.
        + intros (x1' & Hrep & Hfind & Hids). rewrite Hrep.
          exists (x1' :: rest). split; [reflexivity |].
          cbn [flat_map]. rewrite find_app, Hfind. split; [reflexivity |].
          rewrite !map_app.
          intros j Hj. apply in_app_or in Hj as [Hj | Hj].
          * destruct (Hids j Hj) as [H | H]; [left | now right].
            apply in_or_app. now left.
          * left. apply in_or_app. now right.
        + intros Hrep. rewrite Hrep. revert IHrest.
          destruct (find (hasId i) (flat_map subtree rest)) as [x |] eqn:E2.
          * intros (rest' & Hdeep & Hfind & Hids). rewrite Hdeep.
            exists (x1 :: rest'). split; [reflexivity |].
            cbn [flat_map]. rewrite find_app, E1, Hfind. split; [reflexivity |].
            rewrite !map_app.
            intros j Hj. apply in_app_or in Hj as [Hj | Hj].
            -- left. apply in_or_app. now left.
            -- destruct (Hids j Hj) as [H | H]; [left | now right].
               apply in_or_app. now right.
          * intros Hdeep. now rewrite Hdeep. }
    revert G. destruct (find (hasId i) (flat_map subtree cs)) as [x |] eqn:E.
    + intros (cs' & Hdeep & Hfind & Hids). rewrite Hdeep.
      exists (Elem t i0 c a ch cs'). split; [reflexivity |].
      rewrite subtree_unfold. cbn [find children map id].
      rewrite (hasId_same _ (Elem t i0 c a ch cs)), Eq by reflexivity.
      split; [exact Hfind |].
      intros j [Hj | Hj]; [left; now left |].
      destruct (Hids j Hj) as [H | H]; [left; now right | now right].
    + intros Hdeep. now rewrite Hdeep.
Qed.

End Replace.

Section Append.

Variable test : Element -> bool.
Variable child : Element.
Hypothesis child_leaf : children child = [].

(** After appending a leaf to one of the children [cs], no [id] is new
    but that of the leaf. *)
Lemma appendAmong_ids_back (cs : list Element) :
  forall cs', appendAmong test child cs = Some cs' ->
              incl (map id (flat_map subtree cs'))
                   (id child :: map id (flat_map subtree cs)).
Proof.
  induction cs as [| x cs IH]; intros cs' H; [discriminate H |].
  cbn [appendAmong] in H. destruct (test x).
  - injection H as <-. cbn [flat_map].
    rewrite (subtree_unfold (addChild _ _)), <- descendants_flat.
    rewrite descendants_addChild by exact child_leaf.
    rewrite (subtree_unfold x), <- descendants_flat.
    cbn [map app]. rewrite id_addChild, !map_app. cbn [map].
    intros j Hj. cbn [In] in *. rewrite !in_app_iff in *. cbn [In] in *.
    tauto.
  - destruct (appendAmong test child cs) as [cs1 |]; [| discriminate H].
    cbn [option_map] in H. injection H as <-.
    cbn [flat_map]. rewrite !map_app. intros j Hj.
    apply in_app_or in Hj as [Hj | Hj].
    + right. apply in_or_app. now left.
    + destruct (IH cs1 eq_refl j Hj) as [<- | H]; [now left |].
      right. apply in_or_app. now right.
Qed.

Hypothesis child_other : hasId i child = false.

(** The first element with the [id] after a leaf with another [id] has
    been appended to one of the children [cs]. *)
Lemma appendAmong_find (cs : list Element) :
  forall cs', appendAmong test child cs = Some cs' ->
  match find (hasId i) (flat_map subtree cs) with
  | Some x =>
      exists x', find (hasId i) (flat_map subtree cs') = Some x' /\
                 tagName x' = tagName x /\
                 incl (map id (descendants x'))
                      (id child :: map id (descendants x))
  | None => find (hasId i) (flat_map subtree cs') = None
  end.
Proof.
  induction cs as [| x cs IH]; intros cs' H; [discriminate H |].
  cbn [appendAmong] in H. destruct (test x).
  - injection H as <-. cbn [flat_map]. rewrite !find_app.
    rewrite (subtree_unfold (addChild _ _)), <- descendants_flat.
    rewrite descendants_addChild by exact child_leaf.
    rewrite (subtree_unfold x), <- descendants_flat.
    cbn [find]. rewrite (hasId_same (addChild child x) x) by apply id_addChild.
    destruct (hasId i x).
    + exists (addChild child x). split; [reflexivity |].
      split; [apply tagName_addChild |].
      rewrite descendants_addChild by exact child_leaf.
      rewrite map_app. cbn [map]. intros j Hj.
      apply in_app_or in Hj as [Hj | [<- | []]]; [now right | now left].
    + rewrite find_app. cbn [find]. rewrite child_other.
      destruct (find (hasId i) (descendants x)) as [y |].
      * exists y. split; [reflexivity |]. split; [reflexivity | now apply incl_tl].
      * destruct (find (hasId i) (flat_map subtree cs)) as [y |]; [| reflexivity].
        exists y. split; [reflexivity |]. split; [reflexivity | now apply incl_tl].
  - destruct (appendAmong test child cs) as [cs1 |]; [| discriminate H].
    cbn [option_map] in H. injection H as <-.
    cbn [flat_map]. rewrite !find_app.
    destruct (find (hasId i) (subtree x)) as [y |].
    + exists y. split; [reflexivity |]. split; [reflexivity | now apply incl_tl].
    + exact (IH cs1 eq_refl).
Qed.

End Append.

(** The first element with the [id] after a leaf with another [id] has
    been appended to a child of the root. *)
Lemma appendRootChild_find (test : Element -> bool) (child : Element) (d : Document) :
  children child = [] -> hasId i child = false ->
  match find (hasId i) (elements d) with
  | Some x =>
      exists x',
        find (hasId i) (elements (appendChildAt (RootChild test) child d)) = Some x' /\
        tagName x' = tagName x /\
        incl (map id (descendants x')) (id child :: map id (descendants x))
  | None => find (hasId i) (elements (appendChildAt (RootChild test) child d)) = None
  end.
Proof.
  intros Hleaf Hother. unfold appendChildAt.
  destruct d as [[t i0 c a ch cs]]. cbn [documentElement].
  destruct (appendAmong test child cs) as [cs' |] eqn:E.
  - rewrite !elements_children. cbn [documentElement children find].
    rewrite (hasId_same (Elem t i0 c a ch cs') (Elem t i0 c a ch cs)) by reflexivity.
    destruct (hasId i (Elem t i0 c a ch cs)).
    + eexists. split; [reflexivity |]. split; [reflexivity |].
      rewrite !descendants_flat. cbn [children].
      now apply (appendAmong_ids_back test child Hleaf).
    + now apply (appendAmong_find test child Hleaf Hother).
  - destruct (find (hasId i) (elements _)) as [x |]; [| reflexivity].
    exists x. split; [reflexivity |]. split; [reflexivity | now apply incl_tl].
Qed.

Section Fallback.

Variable test : Element -> bool.
Variable child : Element.
Hypothesis child_found : hasId i child = true.

(** In a tree without the [id], a child with the [id] is the first
    element with it once it has been appended. *)
Lemma appendAtFirst_found (e : Element) :
  forall e', appendAtFirst test child e = Some e' ->
             (forall x, In x (subtree e) -> hasId i x = false) ->
             find (hasId i) (subtree e') = Some child.
Proof.
  induction e as [t i0 c a ch cs IH] using Element_rect'.
  intros e'. rewrite appendAtFirst_unfold.
  cbn [tagName id classList attributes checked children].
  destruct (test (Elem t i0 c a ch cs)).
  - intros H Hall. injection H as <-.
    change (Elem t i0 c a ch (cs ++ [child]))
      with (addChild child (Elem t i0 c a ch cs)).
    rewrite subtree_unfold, children_addChild, flat_map_app. cbn [find flat_map].
    rewrite (hasId_same (addChild child (Elem t i0 c a ch cs)) (Elem t i0 c a ch cs))
      by apply id_addChild.
    rewrite (Hall (Elem t i0 c a ch cs)) by now left.
    rewrite app_nil_r, find_app.
    rewrite find_all_false.
    + rewrite subtree_unfold. cbn [find]. now rewrite child_found.
    + intros x Hx. apply Hall. rewrite subtree_unfold. now right.
  - destruct (appendDeep test child cs) as [cs' |] eqn:Ed; [| discriminate].
    cbn [option_map]. intros H Hall. injection H as <-.
    rewrite subtree_unfold. cbn [find children].
    rewrite (hasId_same (Elem t i0 c a ch cs') (Elem t i0 c a ch cs)) by reflexivity.
    rewrite (Hall (Elem t i0 c a ch cs)) by now left.
    assert (Hcs : forall x, In x (flat_map subtree cs) -> hasId i x = false).
    { intros x Hx. apply Hall. rewrite subtree_unfold. now right. }
    clear Hall. revert cs' Ed Hcs.
    induction IH as [| x1 rest Hx _ IHrest]; intros cs' Ed Hcs; [discriminate Ed |].
    cbn [appendDeep] in Ed. fold (appendDeep test child) in Ed.
    cbn [flat_map] in Hcs.
    destruct (appendAtFirst test child x1) as [x1' |] eqn:E1.
    + injection Ed as <-. cbn [flat_map]. rewrite find_app.
      rewrite (Hx x1' eq_refl); [reflexivity |].
      intros x Hin. apply Hcs. apply in_or_app. now left.
    + destruct (appendDeep test child rest) as [rest' |] eqn:E2; [| discriminate Ed].
      cbn [option_map] in Ed. injection Ed as <-.
      cbn [flat_map]. rewrite find_app, find_all_false.
      * apply (IHrest rest' eq_refl). intros x Hin. apply Hcs.
        apply in_or_app. now right.
      * intros x Hin. apply Hcs. apply in_or_app. now left.
Qed.

Lemma appendAmong_found (cs : list Element) :
  forall cs', appendAmong test child cs = Some cs' ->
              (forall x, In x (flat_map subtree cs) -> hasId i x = false) ->
              find (hasId i) (flat_map subtree cs') = Some child.
Proof.
  induction cs as [| x cs IH]; intros cs' H Hall; [discriminate H |].
  cbn [appendAmong] in H. cbn [flat_map] in Hall. destruct (test x).
  - injection H as <-. cbn [flat_map]. rewrite find_app.
    rewrite subtree_unfold, children_addChild, flat_map_app. cbn [find flat_map].
    rewrite (hasId_same (addChild child x) x) by apply id_addChild.
    rewrite (Hall x) by (apply in_or_app; left; rewrite subtree_unfold; now left).
    rewrite app_nil_r, find_app, find_all_false.
    + rewrite subtree_unfold. cbn [find]. now rewrite child_found.
    + intros y Hy. apply Hall. apply in_or_app. left.
      rewrite subtree_unfold. now right.
  - destruct (appendAmong test child cs) as [cs1 |]; [| discriminate H].
    cbn [option_map] in H. injection H as <-.
    cbn [flat_map]. rewrite find_app, find_all_false.
    + apply (IH cs1 eq_refl). intros y Hy. apply Hall. apply in_or_app. now right.
    + intros y Hy. apply Hall. apply in_or_app. now left.
Qed.

End Fallback.

(** A place that exists, in a document without the [id]: the appended
    child is the element with the [id]. *)
Lemma appendChildAt_found (place : Place) (child : Element) (d : Document) :
  hasId i child = true ->
  find (hasId i) (elements d) = None ->
  match place with
  | FirstElement t => find t (elements d) <> None
  | RootChild t => find t (children (documentElement d)) <> None
  end ->
  find (hasId i) (elements (appendChildAt place child d)) = Some child.
Proof.
  intros Hchild Hnone Hplace.
  assert (Hall : forall x, In x (elements d) -> hasId i x = false)
    by (intros x Hx; exact (find_none _ _ Hnone x Hx)).
  destruct place as [t | t]; unfold appendChildAt.
  - destruct (appendAtFirst t child (documentElement d)) as [root |] eqn:E.
    + exact (appendAtFirst_found t child Hchild _ _ E Hall).
    + exfalso. apply Hplace.
      apply find_all_false. intros x Hx.
      exact (appendAtFirst_none t child _ E x Hx).
  - rewrite (elements_children d) in Hall.
    destruct d as [[t0 i0 c a ch cs]]. cbn [documentElement children] in *.
    destruct (appendAmong t child cs) as [cs' |] eqn:E.
    + rewrite elements_children. cbn [documentElement children find].
      rewrite (hasId_same (Elem t0 i0 c a ch cs') (Elem t0 i0 c a ch cs)) by reflexivity.
      rewrite (Hall (Elem t0 i0 c a ch cs)) by now left.
      apply (appendAmong_found t child Hchild _ _ E). intros x Hx. apply Hall. now right.
    + exfalso. apply Hplace. now apply (appendAmong_none t child).
Qed.

(** [innerHTML] on the element with the [id], in a document. *)
Lemma setInnerHTMLOf_find (parse : string -> list Element) (d : Document) (x : Element) :
  find (hasId i) (elements d) = Some x ->
  find (hasId i) (elements (setInnerHTMLOf i parse d)) =
    Some (setChildren (parse (tagName x)) x) /\
  (forall j, In j (ids d) ->
             In j (ids (setInnerHTMLOf i parse d)) \/ In j (map id (descendants x))).
Proof.
  intro Hx. unfold setInnerHTMLOf, ids.
  pose proof (replaceAtFirst_find (fun e => parse (tagName e)) (documentElement d)) as H.
  rewrite <- elements_subtree, Hx in H.
  destruct H as (root & -> & Hfind & Hids).
  rewrite !elements_subtree. cbn [documentElement]. auto.
Qed.

End WithId.

End ReplaceFacts.

(** ** The handler of the page scanner *)

Module ScannerHandlerProofs.

Import DomFacts Spec ParseFacts ScannerHandler EraseFacts AppendFacts IdFacts ReplaceFacts.

Lemma isAdded_fallbackContainer : isAdded fallbackContainer = true.
Proof. reflexivity. Qed.

Lemma isAdded_tailwindScript : isAdded tailwindScript = true.
Proof. reflexivity. Qed.

(** Appending an element of the handler does not change what the
    scanner returns. *)
Lemma parse_appendChildAt (place : Place) (child : Element) (d : Document) :
  isAdded child = true ->
  (forall x, placeTest place x = true -> isAdded x = false) ->
  Scanner.parseCurrentPageProgress (appendChildAt place child d) =
  Scanner.parseCurrentPageProgress d.
Proof.
  intros Hc Hp.
  rewrite <- (parse_erase (appendChildAt place child d)), <- (parse_erase d).
  now rewrite eraseDocument_appendChildAt.
Qed.

Lemma head_appendChildAt (place : Place) (child : Element) (d : Document) :
  isAdded child = true ->
  (forall x, placeTest place x = true -> isAdded x = false) ->
  (head (appendChildAt place child d) = None <-> head d = None).
Proof.
  intros Hc Hp. apply head_exists_erase.
  now apply eraseDocument_appendChildAt.
Qed.

(** The place [mainContent] names exists in the document. *)
Lemma mainContent_exists (d : Document) (place : Place) :
  mainContent d = Some place ->
  match place with
  | FirstElement test => find test (elements d) <> None
  | RootChild test => find test (children (documentElement d)) <> None
  end.
Proof.
  unfold mainContent, docQuerySelector, docQuerySelectorAll, body.
  repeat match goal with
         | |- context [match ?o with Some _ => _ | None => _ end] =>
             destruct o eqn:?
         end; intro H; try discriminate H; injection H as <-;
    try congruence.
  all: try (eapply hd_error_find; eassumption).
  unfold isBody. congruence.
Qed.

Local Opaque appendChildAt setInnerHTMLOf.

Ltac split_handler page :=
  unfold onDOMContentLoaded;
  destruct (getElementById "progress-dashboard-container" (document page)) eqn:Edash;
  [ | destruct (getElementById "current-page-progress-bar" (document page)) eqn:Ebar;
      [ | destruct (mainContent (document page)) as [place |] eqn:Emain ] ];
  cbn [document progressBar log say fst snd].

Ltac split_head :=
  match goal with
  | |- context [match head ?d with Some _ => _ | None => _ end] =>
      destruct (head d) eqn:Ehead
  end;
  cbn [document progressBar log say fst snd].

Ltac run_handler page := split_handler page; try split_head.

(** X1: whenever the handler renders a progress bar, it shows the counts
    of the page as it was loaded: the container and the script element
    the handler adds before scanning do not change the result. *)
Theorem scanner_handler_shows_page_counts
  (parseFragment : string -> Svg -> list Element) (page : Page) (svg : Svg) :
  progressBar page = None ->
  progressBar (snd (onDOMContentLoaded parseFragment page)) = Some svg ->
  fst (onDOMContentLoaded parseFragment page) = inr tt /\
  svg = progressBarSvg (fst (Scanner.parseCurrentPageProgress (document page))).
Proof.
  intros Hnone. run_handler page; rewrite ?Hnone; try discriminate;
    intro H; injection H as <-; (split; [reflexivity |]).
  - now rewrite parse_appendChildAt
      by (try reflexivity; intros x Hx; now apply isHead_kept).
  - rewrite parse_appendChildAt
      by (try reflexivity; intros x Hx; now apply isHead_kept).
    now rewrite parse_appendChildAt
      by (try reflexivity; now apply (mainContent_kept (document page))).
Qed.

Lemma scanner_handler_shows_page_counts_witness :
  progressBar (snd (onDOMContentLoaded ExampleScans.parseInDiv
                      (ExampleScans.load Examples.threeTasks))) =
    Some (PageProgress 2 3 67) /\
  fst (onDOMContentLoaded ExampleScans.parseInDiv
         (ExampleScans.load Examples.threeTasks)) = inr tt.
Proof.
  assert (H : progressBar (snd (onDOMContentLoaded ExampleScans.parseInDiv
                                  (ExampleScans.load Examples.threeTasks))) =
              Some (PageProgress 2 3 67)) by (vm_compute; reflexivity).
  split; [exact H |].
  exact (proj1 (scanner_handler_shows_page_counts ExampleScans.parseInDiv
                  (ExampleScans.load Examples.threeTasks) _ eq_refl H)).
Defined.

(** X2: the handler renders exactly when the page has no dashboard
    container, has the progress-bar container or some place for the
    fallback (an element with role main, class md-content__inner, class
    md-typeset, an article, or the body), and has a head. *)
Theorem scanner_handler_renders_iff
  (parseFragment : string -> Svg -> list Element) (page : Page) :
  progressBar page = None ->
  (rendered (snd (onDOMContentLoaded parseFragment page)) = true <->
   getElementById "progress-dashboard-container" (document page) = None /\
   (getElementById "current-page-progress-bar" (document page) <> None \/
    mainContent (document page) <> None) /\
   head (document page) <> None).
Proof.
  intros Hnone. unfold rendered. split_handler page; rewrite ?Hnone.
  - split; [discriminate | intros [H _]; discriminate H].
  - destruct (head (document page)) eqn:Ehead;
      cbn [document progressBar log say fst snd]; rewrite ?Hnone.
    + split; [intros _ | reflexivity].
      repeat split; (discriminate || (left; discriminate)).
    + split; [discriminate | intros (_ & _ & H)]. now elim H.
  - pose proof (head_appendChildAt place fallbackContainer (document page)
                  eq_refl (mainContent_kept (document page) place Emain)) as Hh.
    destruct (head (appendChildAt place fallbackContainer (document page))) eqn:Ehead;
      cbn [document progressBar log say fst snd]; rewrite ?Hnone.
    + split; [intros _ | reflexivity].
      repeat split; try (right; discriminate).
      intro K. apply Hh in K. discriminate K.
    + split; [discriminate | intros (_ & _ & H)]. exfalso. apply H. now apply Hh.
  - split; [discriminate | intros (_ & [H | H] & _)]; now elim H.
Qed.

Lemma scanner_handler_renders_iff_witness :
  rendered (snd (onDOMContentLoaded ExampleScans.parseInDiv
                   (ExampleScans.load Examples.threeTasks))) = true /\
  rendered (snd (onDOMContentLoaded ExampleScans.parseInDiv
                   (ExampleScans.load ExampleScans.dashboardPage))) = false.
Proof.
  split.
  - apply (scanner_handler_renders_iff ExampleScans.parseInDiv
             (ExampleScans.load Examples.threeTasks) eq_refl).
    vm_compute. repeat split; try discriminate. right. discriminate.
  - destruct (rendered (snd (onDOMContentLoaded ExampleScans.parseInDiv
                               (ExampleScans.load ExampleScans.dashboardPage)))) eqn:E;
      [| reflexivity].
    apply (scanner_handler_renders_iff ExampleScans.parseInDiv
             (ExampleScans.load ExampleScans.dashboardPage) eq_refl) in E.
    destruct E as [E _]. vm_compute in E. discriminate E.
Defined.

(** X3: after the handler has rendered, the first element with the [id]
    of the progress-bar container is the container the page had, or a
    [div] if it had none, and holds what the markup for the counts of the
    page as it was loaded stands for, and nothing else: what an existing
    container held is gone.  Every [id] of the loaded page is still in
    the document, unless it belonged to an element inside the container. *)
Theorem scanner_handler_leaves_container
  (parseFragment : string -> Svg -> list Element) (page : Page) :
  progressBar page = None ->
  rendered (snd (onDOMContentLoaded parseFragment page)) = true ->
  (exists bar,
      getElementById "current-page-progress-bar"
        (document (snd (onDOMContentLoaded parseFragment page))) = Some bar /\
      children bar =
        parseFragment (tagName bar)
          (progressBarSvg (fst (Scanner.parseCurrentPageProgress (document page)))) /\
      tagName bar =
        match getElementById "current-page-progress-bar" (document page) with
        | Some old => tagName old
        | None => "div"
        end) /\
  (forall j,
      j <> EmptyString ->
      In j (ids (document page)) ->
      In j (ids (document (snd (onDOMContentLoaded parseFragment page)))) \/
      exists old,
        getElementById "current-page-progress-bar" (document page) = Some old /\
        In j (map id (descendants old))).
Proof.
  intros Hnone. unfold rendered. run_handler page; rewrite ?Hnone;
    try discriminate; intros _.
  - (* the page has the container *)
    set (doc2 := appendChildAt (RootChild isHead) tailwindScript (document page)).
    assert (Hparse : Scanner.parseCurrentPageProgress doc2 =
                     Scanner.parseCurrentPageProgress (document page))
      by (apply parse_appendChildAt;
          [reflexivity | intros x Hx; now apply isHead_kept]).
    pose proof (appendRootChild_find "current-page-progress-bar" isHead
                  tailwindScript (document page) eq_refl eq_refl) as Hscript.
    change (find (hasId "current-page-progress-bar") (elements (document page)))
      with (getElementById "current-page-progress-bar" (document page)) in Hscript.
    rewrite Ebar in Hscript. destruct Hscript as (bar2 & Hfind2 & Htag & Hdesc).
    fold doc2 in Hfind2.
    destruct (setInnerHTMLOf_find "current-page-progress-bar"
                (fun tag => parseFragment tag
                              (progressBarSvg (fst (Scanner.parseCurrentPageProgress doc2))))
                doc2 bar2 Hfind2) as (Hfind3 & Hids).
    split.
    + eexists. split; [exact Hfind3 |].
      rewrite children_setChildren, tagName_setChildren, Hparse.
      split; [reflexivity | exact Htag].
    + intros j Hj0 Hj.
      destruct (appendChildAt_ids (RootChild isHead) tailwindScript (document page))
        as [Hi _].
      destruct (Hids j (Hi j Hj)) as [H | H]; [now left |].
      destruct (Hdesc j H) as [E | H']; [now elim Hj0 |].
      right. eexists. split; [reflexivity | exact H'].
  - (* the container is created *)
    set (doc1 := appendChildAt place fallbackContainer (document page)).
    set (doc2 := appendChildAt (RootChild isHead) tailwindScript doc1).
    assert (Hparse : Scanner.parseCurrentPageProgress doc2 =
                     Scanner.parseCurrentPageProgress (document page)).
    { unfold doc2, doc1. rewrite parse_appendChildAt
        by (try reflexivity; intros x Hx; now apply isHead_kept).
      apply parse_appendChildAt;
        [reflexivity | now apply (mainContent_kept (document page))]. }
    assert (Hfind1 : find (hasId "current-page-progress-bar") (elements doc1) =
                     Some fallbackContainer).
    { apply appendChildAt_found; [reflexivity | exact Ebar |].
      now apply mainContent_exists. }
    pose proof (appendRootChild_find "current-page-progress-bar" isHead
                  tailwindScript doc1 eq_refl eq_refl) as Hscript.
    rewrite Hfind1 in Hscript. destruct Hscript as (bar2 & Hfind2 & Htag & Hdesc).
    fold doc2 in Hfind2.
    destruct (setInnerHTMLOf_find "current-page-progress-bar"
                (fun tag => parseFragment tag
                              (progressBarSvg (fst (Scanner.parseCurrentPageProgress doc2))))
                doc2 bar2 Hfind2) as (Hfind3 & Hids).
    split.
    + eexists. split; [exact Hfind3 |].
      rewrite children_setChildren, tagName_setChildren, Hparse.
      split; [reflexivity | exact Htag].
    + intros j Hj0 Hj. left.
      destruct (appendChildAt_ids place fallbackContainer (document page)) as [Hi1 _].
      destruct (appendChildAt_ids (RootChild isHead) tailwindScript doc1) as [Hi2 _].
      destruct (Hids j (Hi2 j (Hi1 j Hj))) as [H | H]; [exact H |].
      destruct (Hdesc j H) as [E | []]. now elim Hj0.
Qed.

Lemma scanner_handler_leaves_container_witness :
  let page' := snd (onDOMContentLoaded ExampleScans.parseInDiv
                      (ExampleScans.load ExampleScans.pageWithBar)) in
  (exists bar,
      getElementById "current-page-progress-bar" (document page') = Some bar /\
      children bar = ExampleScans.markupElements (PageProgress 1 2 50)) /\
  getElementById "old-bar" (document page') = None /\
  getElementById "old-bar" ExampleScans.pageWithBar <> None.
Proof.
  cbv zeta. split; [| split; [vm_compute; reflexivity | vm_compute; discriminate]].
  destruct (scanner_handler_leaves_container ExampleScans.parseInDiv
              (ExampleScans.load ExampleScans.pageWithBar) eq_refl eq_refl)
    as [(bar & Hbar & Hchildren & _) _].
  exists bar. split; [exact Hbar |]. rewrite Hchildren.
  vm_compute. reflexivity.
Defined.

(** X4: the handler throws only on a document without a head; on the
    dashboard page, and where it finds no place for the bar, it leaves
    the document as it was and logs one message. *)
Theorem scanner_handler_quiet
  (parseFragment : string -> Svg -> list Element) (page : Page) :
  (forall e, fst (onDOMContentLoaded parseFragment page) = inl e ->
             head (document page) = None) /\
  (getElementById "progress-dashboard-container" (document page) <> None \/
   (getElementById "current-page-progress-bar" (document page) = None /\
    mainContent (document page) = None) ->
   fst (onDOMContentLoaded parseFragment page) = inr tt /\
   document (snd (onDOMContentLoaded parseFragment page)) = document page /\
   progressBar (snd (onDOMContentLoaded parseFragment page)) = progressBar page /\
   exists text level,
     log (snd (onDOMContentLoaded parseFragment page)) =
     log page ++ [Console level text]).
Proof.
  split.
  - intros e. split_handler page; try discriminate.
    + destruct (head (document page)) eqn:Ehead; [discriminate | reflexivity].
    + pose proof (head_appendChildAt place fallbackContainer (document page)
                    eq_refl (mainContent_kept (document page) place Emain)) as Hh.
      destruct (head (appendChildAt place fallbackContainer (document page)));
        [discriminate | intros _; now apply Hh].
  - split_handler page; intros [H | [H1 H2]]; try congruence;
      try (now elim H);
      repeat split; eexists; eexists; reflexivity.
Qed.

Lemma scanner_handler_quiet_witness :
  let run := onDOMContentLoaded ExampleScans.parseInDiv
               (ExampleScans.load ExampleScans.dashboardPage) in
  fst run = inr tt /\ document (snd run) = ExampleScans.dashboardPage /\
  progressBar (snd run) = None.
Proof.
  destruct (scanner_handler_quiet ExampleScans.parseInDiv
              (ExampleScans.load ExampleScans.dashboardPage))
    as [_ H].
  destruct (H ltac:(left; vm_compute; discriminate)) as (H1 & H2 & H3 & _).
  repeat split; assumption.
Defined.

End ScannerHandlerProofs.

(** ** Batches of fetches *)

Module BatchProofs.

Import Spec Runs Batch ParseFacts AggregatorProofs.

Lemma requests_app (l1 l2 : list Event) :
  requests (l1 ++ l2) = requests l1 ++ requests l2.
Proof. unfold requests. apply flat_map_app. Qed.

Ltac finish_fetch :=
  cbn; eexists; eexists; (split; [reflexivity |]);
  (split; [repeat split |]);
  (split; [cbn; rewrite <- ?app_assoc; reflexivity | reflexivity]).

(** The run of [fetchHtmlContent] of the dynamic dashboard. *)
Lemma dynamic_fetch_run (pagePath : string) (s : State) :
  exists s' evs,
    DynamicDashboard.fetchHtmlContent pagePath s =
      (inr (bodyOf (network s (clock s) (dynamicUrl s pagePath))), s') /\
    fetchedOne s s' /\
    events s' = events s ++ evs /\
    requests evs = [dynamicUrl s pagePath].
Proof.
  unfold DynamicDashboard.fetchHtmlContent, bind, getState, tryCatch, console, fetch.
  fold (dynamicUrl s pagePath). cbn [clock network withEvent].
  unfold bodyOf.
  destruct (network s (clock s) (dynamicUrl s pagePath)) as [e | r] eqn:Enet;
    [ | cbn; destruct (ok r) eqn:Eok;
        [ unfold responseText; destruct (text r) as [body |] eqn:Etext | ] ];
    finish_fetch.
Qed.

(** The run of [fetchHtmlContent] of the static dashboard, when the
    page path resolves and when it does not. *)
Lemma static_fetch_run
  (resolveUrl : string -> string -> option string) (pagePath url : string)
  (s : State) :
  resolveUrl pagePath (href s) = Some url ->
  exists s' evs,
    StaticDashboard.fetchHtmlContent resolveUrl pagePath s =
      (inr (bodyOf (network s (clock s) url)), s') /\
    fetchedOne s s' /\
    events s' = events s ++ evs /\
    requests evs = [url].
Proof.
  intro Hurl.
  unfold StaticDashboard.fetchHtmlContent, bind at 1, getState. rewrite Hurl.
  unfold bind, tryCatch, console, fetch.
  cbn [clock network withEvent href].
  unfold bodyOf.
  destruct (network s (clock s) url) as [e | r] eqn:Enet;
    [ | cbn; destruct (ok r) eqn:Eok;
        [ unfold responseText; destruct (text r) as [body |] eqn:Etext | ] ];
    finish_fetch.
Qed.

Lemma static_fetch_throws
  (resolveUrl : string -> string -> option string) (pagePath : string) (s : State) :
  resolveUrl pagePath (href s) = None ->
  StaticDashboard.fetchHtmlContent resolveUrl pagePath s =
    (inl (Thrown "TypeError: Invalid URL"), s).
Proof.
  intro Hurl.
  unfold StaticDashboard.fetchHtmlContent, bind at 1, getState. now rewrite Hurl.
Qed.

Lemma entriesFrom_ext (parse : string -> Progress)
  (u1 u2 : TrackedPage -> string) (net : nat -> string -> FetchOutcome)
  (n : nat) (files : list TrackedPage) :
  (forall f, u1 f = u2 f) ->
  entriesFrom parse u1 net n files = entriesFrom parse u2 net n files.
Proof.
  intro H. revert n. induction files as [| f files IH]; intro n; [reflexivity |].
  cbn. now rewrite H, IH.
Qed.

Section Entries.

(** A loop body that fetches one page and parses what came back; it
    throws only where the address of the page cannot be formed. *)
Variable body : TrackedPage -> M ProgressData.
Variable parse : string -> Progress.
Variable url : State -> TrackedPage -> string.
Variable resolves : State -> TrackedPage -> Prop.

Hypothesis url_stable :
  forall s s' f, fetchedOne s s' -> url s' f = url s f.

Hypothesis resolves_stable :
  forall s s' f, fetchedOne s s' -> resolves s f -> resolves s' f.

Hypothesis body_run :
  forall f s, resolves s f -> exists s' evs,
    body f s =
      (inr {| file := f;
              progress := parse (bodyOf (network s (clock s) (url s f))) |}, s') /\
    fetchedOne s s' /\
    events s' = events s ++ evs /\
    requests evs = [url s f].

Lemma forOfPush_entries (files : list TrackedPage) :
  forall acc s,
    (forall f, In f files -> resolves s f) ->
    exists s' evs,
      forOfPush files body acc s =
        (inr (acc ++ entriesFrom parse (url s) (network s) (clock s) files), s') /\
      fetchedMany (List.length files) s s' /\
      events s' = events s ++ evs /\
      requests evs = map (url s) files.
Proof.
  induction files as [| f files IH]; intros acc s Hres.
  - exists s, []. cbn. rewrite !app_nil_r. repeat split.
    apply fetchedMany_zero.
  - destruct (body_run f s (Hres f (or_introl eq_refl)))
      as (s1 & evs1 & Hrun & Hone & Hev1 & Hreq1).
    destruct (IH (acc ++ [{| file := f;
                             progress := parse (bodyOf (network s (clock s) (url s f))) |}]) s1)
      as (s' & evs & Hloop & Hmany & Hev & Hreq).
    { intros g Hg. apply (resolves_stable s s1 g Hone). apply Hres. now right. }
    exists s', (evs1 ++ evs).
    cbn [forOfPush]. unfold bind at 1. rewrite Hrun, Hloop.
    rewrite <- app_assoc.
    assert (Hurl : forall g, url s1 g = url s g)
      by (intro g; now apply url_stable).
    rewrite (entriesFrom_ext parse (url s1) (url s)) by exact Hurl.
    rewrite (map_ext _ _ Hurl) in Hreq.
    split.
    { destruct Hone as (_ & _ & _ & -> & -> & _). reflexivity. }
    split; [now apply fetchedMany_step with s1 |].
    split; [rewrite Hev, Hev1; now rewrite app_assoc |].
    rewrite requests_app, Hreq1, Hreq. reflexivity.
Qed.

(** The loop stops at the first page whose body throws: the pages
    before it have been fetched, the others are never requested. *)
Variable fails : State -> TrackedPage -> Prop.

Hypothesis fails_stable :
  forall s s' f, fetchedOne s s' -> fails s f -> fails s' f.

Hypothesis body_throws :
  forall f s, fails s f -> exists e, body f s = (inl e, s).

Lemma forOfPush_aborts (before after : list TrackedPage) (f : TrackedPage) :
  forall acc s,
    (forall g, In g before -> resolves s g) -> fails s f ->
    exists e s' evs,
      forOfPush (before ++ f :: after) body acc s = (inl e, s') /\
      fetchedMany (List.length before) s s' /\
      events s' = events s ++ evs /\
      requests evs = map (url s) before.
Proof.
  induction before as [| g before IH]; intros acc s Hres Hfail.
  - destruct (body_throws f s Hfail) as (e & Hrun).
    exists e, s, []. cbn [app forOfPush]. unfold bind at 1. rewrite Hrun.
    rewrite app_nil_r. repeat split. apply fetchedMany_zero.
  - destruct (body_run g s (Hres g (or_introl eq_refl)))
      as (s1 & evs1 & Hrun & Hone & Hev1 & Hreq1).
    destruct (IH (acc ++ [{| file := g;
                             progress := parse (bodyOf (network s (clock s) (url s g))) |}]) s1)
      as (e & s' & evs & Hloop & Hmany & Hev & Hreq).
    { intros h Hh. apply (resolves_stable s s1 h Hone). apply Hres. now right. }
    { now apply (fails_stable s s1 f Hone). }
    exists e, s', (evs1 ++ evs).
    cbn [app forOfPush]. unfold bind at 1. rewrite Hrun, Hloop.
    assert (Hurl : forall h, url s1 h = url s h)
      by (intro h; now apply url_stable).
    rewrite (map_ext _ _ Hurl) in Hreq.
    split; [reflexivity |].
    split; [now apply fetchedMany_step with s1 |].
    split; [rewrite Hev, Hev1; now rewrite app_assoc |].
    rewrite requests_app, Hreq1, Hreq. reflexivity.
Qed.

End Entries.

Lemma requests_computePercentage (c t : nat) :
  requests (snd (computePercentage c t)) = [].
Proof. rewrite computePercentage_events. now destruct (t =? 0)%nat. Qed.

(** The parse functions issue no request. *)
Lemma requests_dynamic_parse (parseFromString : string -> Document) (html : string) :
  requests (snd (DynamicDashboard.parseHtmlProgress parseFromString html)) = [].
Proof.
  destruct (Str.truthy html) eqn:Ht.
  - rewrite dynamic_result by assumption. cbn [snd requests flat_map app].
    apply requests_computePercentage.
  - now rewrite dynamic_result_empty.
Qed.

Lemma requests_static_parse (parseFromString : string -> Document) (html : string) :
  requests (snd (StaticDashboard.parseHtmlProgress parseFromString html)) = [].
Proof.
  destruct (ParseProofs.static_cases parseFromString html)
    as [-> | [-> | (area & Ht & Ha)]]; try reflexivity.
  rewrite (static_result _ _ area Ht Ha). cbn [snd requests flat_map app].
  apply requests_computePercentage.
Qed.

Lemma dynamic_body_entry (parseFromString : string -> Document)
  (f : TrackedPage) (s : State) :
  exists s' evs,
    (htmlContent <- DynamicDashboard.fetchHtmlContent (path f) ;;
     progress <- liftLogged
                   (DynamicDashboard.parseHtmlProgress parseFromString htmlContent) ;;
     ret {| file := f; progress := progress |})%js s =
    (inr {| file := f;
            progress :=
              fst (DynamicDashboard.parseHtmlProgress parseFromString
                     (bodyOf (network s (clock s) (dynamicUrl s (path f))))) |}, s') /\
    fetchedOne s s' /\
    events s' = events s ++ evs /\
    requests evs = [dynamicUrl s (path f)].
Proof.
  destruct (dynamic_fetch_run (path f) s)
    as (s1 & evs1 & Hrun & Hone & Hev & Hreq).
  unfold bind at 1. rewrite Hrun. cbn.
  eexists; eexists. split; [reflexivity |].
  split; [exact Hone |]. cbn [events withEvents].
  split; [rewrite Hev, <- app_assoc; reflexivity |].
  now rewrite requests_app, Hreq, requests_dynamic_parse.
Qed.

Lemma static_body_entry (parseFromString : string -> Document)
  (resolveUrl : string -> string -> option string) (url : TrackedPage -> string)
  (f : TrackedPage) (s : State) :
  resolveUrl (path f) (href s) = Some (url f) ->
  exists s' evs,
    (htmlContent <- StaticDashboard.fetchHtmlContent resolveUrl (path f) ;;
     progress <- liftLogged
                   (StaticDashboard.parseHtmlProgress parseFromString htmlContent) ;;
     ret {| file := f; progress := progress |})%js s =
    (inr {| file := f;
            progress :=
              fst (StaticDashboard.parseHtmlProgress parseFromString
                     (bodyOf (network s (clock s) (url f)))) |}, s') /\
    fetchedOne s s' /\
    events s' = events s ++ evs /\
    requests evs = [url f].
Proof.
  intro Hurl.
  destruct (static_fetch_run resolveUrl (path f) (url f) s Hurl)
    as (s1 & evs1 & Hrun & Hone & Hev & Hreq).
  unfold bind at 1. rewrite Hrun. cbn.
  eexists; eexists. split; [reflexivity |].
  split; [exact Hone |]. cbn [events withEvents].
  split; [rewrite Hev, <- app_assoc; reflexivity |].
  now rewrite requests_app, Hreq, requests_static_parse.
Qed.

Lemma static_body_throws (parseFromString : string -> Document)
  (resolveUrl : string -> string -> option string) (f : TrackedPage) (s : State) :
  resolveUrl (path f) (href s) = None ->
  exists e,
    (htmlContent <- StaticDashboard.fetchHtmlContent resolveUrl (path f) ;;
     progress <- liftLogged
                   (StaticDashboard.parseHtmlProgress parseFromString htmlContent) ;;
     ret {| file := f; progress := progress |})%js s = (inl e, s).
Proof.
  intro Hurl. eexists. unfold bind at 1.
  now rewrite (static_fetch_throws resolveUrl (path f) s Hurl).
Qed.

(** The loops of the two dashboards. *)
Lemma dynamic_collect_run
  (parseFromString : string -> Document) (files : list TrackedPage) (s : State) :
  exists s' evs,
    DynamicDashboard.collectProgress parseFromString files s =
      (inr (entriesFrom (dynamicParse parseFromString)
              (fun f => dynamicUrl s (path f)) (network s) (clock s) files), s') /\
    fetchedMany (List.length files) s s' /\
    events s' = events s ++ evs /\
    requests evs = map (fun f => dynamicUrl s (path f)) files.
Proof.
  exact (forOfPush_entries _ (dynamicParse parseFromString)
           (fun s f => dynamicUrl s (path f)) (fun _ _ => True)
           dynamicUrl_stable (fun _ _ _ _ H => H)
           (fun f s _ => dynamic_body_entry parseFromString f s) files [] s
           (fun _ _ => I)).
Qed.

Section StaticLoop.

Variable parseFromString : string -> Document.
Variable resolveUrl : string -> string -> option string.
Variable url : TrackedPage -> string.

Lemma resolveUrl_stable (s s' : State) (f : TrackedPage) (o : option string) :
  fetchedOne s s' ->
  resolveUrl (path f) (href s) = o -> resolveUrl (path f) (href s') = o.
Proof. intros (_ & _ & H & _). now rewrite H. Qed.

Lemma static_collect_run (files : list TrackedPage) (s : State) :
  (forall f, In f files -> resolveUrl (path f) (href s) = Some (url f)) ->
  exists s' evs,
    StaticDashboard.collectProgress parseFromString resolveUrl files s =
      (inr (entriesFrom (staticParse parseFromString) url (network s) (clock s) files),
       s') /\
    fetchedMany (List.length files) s s' /\
    events s' = events s ++ evs /\
    requests evs = map url files.
Proof.
  exact (forOfPush_entries _ (staticParse parseFromString)
           (fun _ f => url f)
           (fun s f => resolveUrl (path f) (href s) = Some (url f))
           (fun _ _ _ _ => eq_refl)
           (fun s s' f => resolveUrl_stable s s' f (Some (url f)))
           (fun f s => static_body_entry parseFromString resolveUrl url f s)
           files [] s).
Qed.

Lemma static_collect_aborts_at (before after : list TrackedPage) (f : TrackedPage)
  (s : State) :
  (forall g, In g before -> resolveUrl (path g) (href s) = Some (url g)) ->
  resolveUrl (path f) (href s) = None ->
  exists e s' evs,
    StaticDashboard.collectProgress parseFromString resolveUrl
      (before ++ f :: after) s = (inl e, s') /\
    fetchedMany (List.length before) s s' /\
    events s' = events s ++ evs /\
    requests evs = map url before.
Proof.
  exact (forOfPush_aborts _ (staticParse parseFromString)
           (fun _ f => url f)
           (fun s f => resolveUrl (path f) (href s) = Some (url f))
           (fun _ _ _ _ => eq_refl)
           (fun s s' f => resolveUrl_stable s s' f (Some (url f)))
           (fun f s => static_body_entry parseFromString resolveUrl url f s)
           (fun s f => resolveUrl (path f) (href s) = None)
           (fun s s' f => resolveUrl_stable s s' f None)
           (fun f s => static_body_throws parseFromString resolveUrl f s)
           before after f [] s).
Qed.

End StaticLoop.

(** A fetch that fails returns the empty string. *)
Lemma bodyOf_fails (o : FetchOutcome) : fetchFails o -> bodyOf o = EmptyString.
Proof. destruct o as [e | r]; cbn; [reflexivity | now intros ->]. Qed.

Lemma entriesFrom_length parse url net (n : nat) (files : list TrackedPage) :
  List.length (entriesFrom parse url net n files) = List.length files.
Proof.
  revert n. induction files as [| f files IH]; intro n; [reflexivity |].
  cbn. now rewrite IH.
Qed.

Lemma entriesFrom_files parse url net (n : nat) (files : list TrackedPage) :
  map file (entriesFrom parse url net n files) = files.
Proof.
  revert n. induction files as [| f files IH]; intro n; [reflexivity |].
  cbn. now rewrite IH.
Qed.

(** The entry of the [i]-th page of a batch. *)
Lemma entriesFrom_nth parse url net (files : list TrackedPage) :
  forall n i f,
    nth_error files i = Some f ->
    nth_error (entriesFrom parse url net n files) i =
    Some {| file := f; progress := parse (bodyOf (net (n + i)%nat (url f))) |}.
Proof.
  induction files as [| g files IH]; intros n [| i] f H; try discriminate H.
  - cbn in H. injection H as <-. cbn. now rewrite Nat.add_0_r.
  - cbn in H. cbn [entriesFrom nth_error]. rewrite (IH (S n) i f H).
    now replace (S n + i)%nat with (n + S i)%nat by lia.
Qed.

(** X5: [fetchHtmlContent] of the dynamic dashboard never throws.  It
    issues exactly one request, to origin, base path and page path put
    together, and returns the body of a successful response and the
    empty string in every other case. *)
Theorem dynamic_fetchHtmlContent_returns (pagePath : string) (s : State) :
  exists s' evs,
    DynamicDashboard.fetchHtmlContent pagePath s =
      (inr (bodyOf (network s (clock s) (dynamicUrl s pagePath))), s') /\
    clock s' = S (clock s) /\ container s' = container s /\
    events s' = events s ++ evs /\
    requests evs = [(origin s ++ DynamicDashboard.getBasePath s ++ pagePath)%string].
Proof.
  destruct (dynamic_fetch_run pagePath s) as (s' & evs & Hrun & Hone & Hev & Hreq).
  destruct Hone as (_ & _ & _ & _ & Hclock & Hcont & _).
  exists s', evs. repeat split; assumption.
Qed.

(** X6: [fetchHtmlContent] of the static dashboard throws exactly when
    the page path does not resolve to a URL against the address of the
    page ([new URL] stands before the [try]), and then before any request
    or message.  Otherwise it never throws: it issues one request, to the
    resolved URL, and returns the body of a successful response and the
    empty string in every other case. *)
Theorem static_fetchHtmlContent_returns
  (resolveUrl : string -> string -> option string) (pagePath : string) (s : State) :
  match resolveUrl pagePath (href s) with
  | None =>
      exists e, StaticDashboard.fetchHtmlContent resolveUrl pagePath s = (inl e, s)
  | Some url =>
      exists s' evs,
        StaticDashboard.fetchHtmlContent resolveUrl pagePath s =
          (inr (bodyOf (network s (clock s) url)), s') /\
        clock s' = S (clock s) /\ container s' = container s /\
        events s' = events s ++ evs /\
        requests evs = [url]
  end.
Proof.
  destruct (resolveUrl pagePath (href s)) as [url |] eqn:Hurl.
  - destruct (static_fetch_run resolveUrl pagePath url s Hurl)
      as (s' & evs & Hrun & Hone & Hev & Hreq).
    destruct Hone as (_ & _ & _ & _ & Hclock & Hcont & _).
    exists s', evs. repeat split; assumption.
  - eexists. now apply static_fetch_throws.
Qed.

(** X7: the loop of the dynamic dashboard returns, for every page list
    and network, one entry per page in list order, the [i]-th holding the
    [i]-th page and the progress parsed from the text its own request
    returned; the requests it issues are the URLs of the pages, one per
    page, in list order. *)
Theorem dynamic_collect_entries
  (parseFromString : string -> Document) (files : list TrackedPage) (s : State) :
  exists out s' evs,
    DynamicDashboard.collectProgress parseFromString files s = (inr out, s') /\
    List.length out = List.length files /\
    events s' = events s ++ evs /\
    requests evs = map (fun f => dynamicUrl s (path f)) files /\
    forall i f,
      nth_error files i = Some f ->
      nth_error out i =
      Some {| file := f;
              progress :=
                fst (DynamicDashboard.parseHtmlProgress parseFromString
                       (bodyOf (network s (clock s + i)%nat (dynamicUrl s (path f))))) |}.
Proof.
  destruct (dynamic_collect_run parseFromString files s)
    as (s' & evs & Hrun & _ & Hev & Hreq).
  eexists; exists s', evs. split; [exact Hrun |].
  split; [apply entriesFrom_length |].
  split; [exact Hev |]. split; [exact Hreq |].
  intros i f Hi. now apply (entriesFrom_nth (dynamicParse parseFromString)).
Qed.

Lemma dynamic_collect_entries_witness :
  exists out s',
    DynamicDashboard.collectProgress
      (ExamplePages.parseAs Examples.threeTasks) ExampleRuns.threePages
      (ExampleRuns.start ExampleRuns.secondPageMissing (Some [])) = (inr out, s') /\
    map (fun d => Spec.taskCount (progress d)) out =
      [(2%nat, 3%nat, 67%Z); (0%nat, 0%nat, 0%Z); (2%nat, 3%nat, 67%Z)].
Proof.
  destruct (dynamic_collect_entries
              (ExamplePages.parseAs Examples.threeTasks) ExampleRuns.threePages
              (ExampleRuns.start ExampleRuns.secondPageMissing (Some [])))
    as (out & s' & evs & Hrun & Hlen & _ & _ & Hnth).
  exists out, s'. split; [exact Hrun |].
  pose proof (Hnth 0%nat _ eq_refl) as H0.
  pose proof (Hnth 1%nat _ eq_refl) as H1.
  pose proof (Hnth 2%nat _ eq_refl) as H2.
  destruct out as [| d0 [| d1 [| d2 [| d3 out]]]]; try discriminate Hlen.
  vm_compute in H0, H1, H2. cbn [map].
  injection H0 as ->. injection H1 as ->. injection H2 as ->.
  vm_compute. reflexivity.
Defined.

(** X8: when every page path resolves to a URL, the loop of the static
    dashboard returns one entry per page in list order, the [i]-th holding
    the [i]-th page and the progress its parse function finds in the text
    that page's own request returned; the requests it issues are the
    resolved URLs, one per page, in list order. *)
Theorem static_collect_entries
  (parseFromString : string -> Document)
  (resolveUrl : string -> string -> option string)
  (url : TrackedPage -> string)
  (files : list TrackedPage) (s : State) :
  (forall f, In f files -> resolveUrl (path f) (href s) = Some (url f)) ->
  exists out s' evs,
    StaticDashboard.collectProgress parseFromString resolveUrl files s = (inr out, s') /\
    List.length out = List.length files /\
    events s' = events s ++ evs /\
    requests evs = map url files /\
    forall i f,
      nth_error files i = Some f ->
      nth_error out i =
      Some {| file := f;
              progress :=
                fst (StaticDashboard.parseHtmlProgress parseFromString
                       (bodyOf (network s (clock s + i)%nat (url f)))) |}.
Proof.
  intro Hres.
  destruct (static_collect_run parseFromString resolveUrl url files s Hres)
    as (s' & evs & Hrun & _ & Hev & Hreq).
  eexists; exists s', evs. split; [exact Hrun |].
  split; [apply entriesFrom_length |].
  split; [exact Hev |]. split; [exact Hreq |].
  intros i f Hi. now apply (entriesFrom_nth (staticParse parseFromString)).
Qed.

Lemma static_collect_entries_witness :
  exists out s',
    StaticDashboard.collectProgress
      (ExamplePages.parseAs Examples.threeTasks) ExampleRuns.resolveRelative
      ExampleRuns.threePages
      (ExampleRuns.start ExampleRuns.secondPageMissing (Some [])) = (inr out, s') /\
    map (fun d => Spec.taskCount (progress d)) out =
      [(2%nat, 3%nat, 67%Z); (0%nat, 0%nat, 0%Z); (2%nat, 3%nat, 67%Z)].
Proof.
  destruct (static_collect_entries
              (ExamplePages.parseAs Examples.threeTasks) ExampleRuns.resolveRelative
              (fun f => ("https://example.org/progress-tracker/" ++ path f)%string)
              ExampleRuns.threePages
              (ExampleRuns.start ExampleRuns.secondPageMissing (Some []))
              (fun f _ => eq_refl))
    as (out & s' & evs & Hrun & Hlen & _ & _ & Hnth).
  exists out, s'. split; [exact Hrun |].
  pose proof (Hnth 0%nat _ eq_refl) as H0.
  pose proof (Hnth 1%nat _ eq_refl) as H1.
  pose proof (Hnth 2%nat _ eq_refl) as H2.
  destruct out as [| d0 [| d1 [| d2 [| d3 out]]]]; try discriminate Hlen.
  vm_compute in H0, H1, H2. cbn [map].
  injection H0 as ->. injection H1 as ->. injection H2 as ->.
  vm_compute. reflexivity.
Defined.

(** X18: the loop of the static dashboard stops at the first page whose
    path does not resolve to a URL: it throws, returns no list, has
    requested the pages before that one, in list order, and requests
    none of the pages after it. *)
Theorem static_collect_aborts
  (parseFromString : string -> Document)
  (resolveUrl : string -> string -> option string)
  (url : TrackedPage -> string)
  (before after : list TrackedPage) (f : TrackedPage) (s : State) :
  (forall g, In g before -> resolveUrl (path g) (href s) = Some (url g)) ->
  resolveUrl (path f) (href s) = None ->
  exists e s' evs,
    StaticDashboard.collectProgress parseFromString resolveUrl
      (before ++ f :: after) s = (inl e, s') /\
    clock s' = (clock s + List.length before)%nat /\
    container s' = container s /\
    events s' = events s ++ evs /\
    requests evs = map url before.
Proof.
  intros Hres Hfail.
  destruct (static_collect_aborts_at parseFromString resolveUrl url
              before after f s Hres Hfail)
    as (e & s' & evs & Hrun & Hmany & Hev & Hreq).
  destruct Hmany as (_ & _ & _ & _ & Hclock & Hcont & _).
  exists e, s', evs. repeat split; assumption.
Qed.

Lemma static_collect_aborts_witness :
  exists e s',
    StaticDashboard.collectProgress
      (ExamplePages.parseAs Examples.threeTasks)
      (fun p base => if String.eqb p "b/" then None
                     else ExampleRuns.resolveRelative p base)
      ExampleRuns.threePages
      (ExampleRuns.start ExampleRuns.secondPageMissing (Some [])) = (inl e, s') /\
    requests (events s') = ["https://example.org/progress-tracker/a/"].
Proof.
  destruct (static_collect_aborts
              (ExamplePages.parseAs Examples.threeTasks)
              (fun p base => if String.eqb p "b/" then None
                             else ExampleRuns.resolveRelative p base)
              (fun f => ("https://example.org/progress-tracker/" ++ path f)%string)
              [ {| page_id := "a"; name := "A"; path := "a/" |} ]
              [ {| page_id := "c"; name := "C"; path := "c/" |} ]
              {| page_id := "b"; name := "B"; path := "b/" |}
              (ExampleRuns.start ExampleRuns.secondPageMissing (Some []))
              ltac:(intros g [<- | []]; reflexivity) eq_refl)
    as (e & s' & evs & Hrun & _ & _ & Hev & Hreq).
  exists e, s'. split; [exact Hrun |].
  rewrite Hev, requests_app, Hreq. reflexivity.
Defined.

End BatchProofs.

(** ** The claims on the aggregator *)

Module AggregatorClaims.

Import Spec Runs Batch ParseFacts AggregatorProofs BatchProofs.




(** C6: when the fetch of the [i]-th page fails (rejected request or
    non-success status), the batch returns normally with one entry per
    page; the [i]-th entry records completed 0 of total 0; and the batch
    has gone on: every page of the list has been requested, in list
    order, and every entry holds the progress parsed from the text its
    own request returned. *)
Theorem failed_fetch_yields_zero
  (parseFromString : string -> Document)
  (files : list TrackedPage) (s : State) (i : nat) (f : TrackedPage) :
  nth_error files i = Some f ->
  fetchFails (network s (clock s + i) (dynamicUrl s (path f))) ->
  exists out s' evs d,
    DynamicDashboard.collectProgress parseFromString files s = (inr out, s') /\
    List.length out = List.length files /\
    nth_error out i = Some d /\ file d = f /\
    completed (progress d) = 0%nat /\ total (progress d) = 0%nat /\
    events s' = events s ++ evs /\
    requests evs = map (fun g => dynamicUrl s (path g)) files /\
    (forall j g,
        nth_error files j = Some g ->
        nth_error out j =
        Some {| file := g;
                progress :=
                  fst (DynamicDashboard.parseHtmlProgress parseFromString
                         (bodyOf (network s (clock s + j)%nat
                                    (dynamicUrl s (path g))))) |}).
Proof.
  intros Hi Hfail.
  destruct (dynamic_collect_run parseFromString files s)
    as (s' & evs & Hrun & _ & Hev & Hreq).
  pose proof (entriesFrom_nth (dynamicParse parseFromString)
                (fun g => dynamicUrl s (path g)) (network s) files (clock s))
    as Hnth.
  eexists; exists s', evs. eexists. split; [exact Hrun |].
  split; [apply entriesFrom_length |].
  split; [exact (Hnth i f Hi) |]. cbn [file progress].
  split; [reflexivity |].
  unfold dynamicParse. rewrite (bodyOf_fails _ Hfail).
  split; [reflexivity |]. split; [reflexivity |].
  split; [exact Hev |]. split; [exact Hreq |].
  exact Hnth.
Qed.

Lemma failed_fetch_yields_zero_witness :
  exists out s' d,
    DynamicDashboard.collectProgress
      (ExamplePages.parseAs Examples.threeTasks) ExampleRuns.threePages
      (ExampleRuns.start ExampleRuns.secondPageMissing (Some [])) = (inr out, s') /\
    List.length out = 3%nat /\
    nth_error out 1 = Some d /\
    file d = {| page_id := "b"; name := "B"; path := "b/" |} /\
    completed (progress d) = 0%nat /\ total (progress d) = 0%nat /\
    requests (events s') =
      ["https://example.org/progress-tracker/a/";
       "https://example.org/progress-tracker/b/";
       "https://example.org/progress-tracker/c/"].
Proof.
  destruct (failed_fetch_yields_zero
              (ExamplePages.parseAs Examples.threeTasks) ExampleRuns.threePages
              (ExampleRuns.start ExampleRuns.secondPageMissing (Some []))
              1 {| page_id := "b"; name := "B"; path := "b/" |}
              eq_refl eq_refl)
    as (out & s' & evs & d & Hrun & Hlen & Hd & Hfile & Hc & Ht & Hev & Hreq & _).
  exists out, s', d. repeat split; try assumption.
  rewrite Hev, requests_app, Hreq. reflexivity.
Defined.

(** The static dashboard isolates failed fetches in the same way, where
    the page paths resolve. *)
Lemma static_failed_fetch_yields_zero
  (parseFromString : string -> Document)
  (resolveUrl : string -> string -> option string)
  (url : TrackedPage -> string)
  (files : list TrackedPage) (s : State) (i : nat) (f : TrackedPage) :
  (forall g, In g files -> resolveUrl (path g) (href s) = Some (url g)) ->
  nth_error files i = Some f ->
  fetchFails (network s (clock s + i) (url f)) ->
  exists out s' d,
    StaticDashboard.collectProgress parseFromString resolveUrl files s =
      (inr out, s') /\
    nth_error out i = Some d /\ file d = f /\ zeroProgress (progress d).
Proof.
  intros Hres Hi Hfail.
  destruct (static_collect_run parseFromString resolveUrl url files s Hres)
    as (s' & evs & Hrun & _).
  eexists; exists s'. eexists. split; [exact Hrun |].
  split; [exact (entriesFrom_nth (staticParse parseFromString) url (network s)
                   files (clock s) i f Hi) |].
  cbn [file progress]. split; [reflexivity |].
  unfold staticParse. rewrite (bodyOf_fails _ Hfail). split; reflexivity.
Qed.

End AggregatorClaims.

(** ** Whole runs of the dashboards *)

Module RunProofs.

Import Spec Runs Batch ParseFacts AggregatorProofs BatchProofs SortFacts HandlerProofs.

(** Appending the cards changes the container only. *)
Lemma forEachM_cards (l : list ProgressData) :
  forall s,
    forEachM l (fun data => appendChild (FileCard data)) s =
    (inr tt,
     withContainer (option_map (fun c => c ++ map FileCard l) (container s)) s).
Proof.
  induction l as [| d l IH]; intro s.
  - destruct s as [o p h n c [k |] hs ev ft]; cbn; [now rewrite app_nil_r | reflexivity].
  - cbn [forEachM]. unfold bind at 1, appendChild at 1. rewrite IH.
    destruct s as [o p h n c [k |] hs ev ft]; cbn; [| reflexivity].
    now rewrite <- app_assoc.
Qed.

Section Static.

Variable parseFromString : string -> Document.
Variable resolveUrl : string -> string -> option string.

(** X9: on a page with the dashboard container, the static dashboard
    throws at once, before it renders or requests anything, when the
    document has no head.  With a head, and with the paths of its three
    pages resolving to URLs, it ends, whatever the network does, with one
    card for each of the three pages in their fixed order; it adds the
    script once and issues exactly three requests, for the three pages in
    that order.  With a head and a page whose path does not resolve, it
    throws at that page, having requested the pages before it, and the
    container is left on the loading paragraph. *)
Theorem static_dashboard_run (s : State) (content : list Block) :
  container s = Some content ->
  (headScripts s = None ->
   exists e,
     StaticDashboard.onDOMContentLoaded parseFromString resolveUrl s = (inl e, s)) /\
  (forall (scripts : list string) (url : TrackedPage -> string),
      headScripts s = Some scripts ->
      (forall f, In f StaticDashboard.filesToTrack ->
                 resolveUrl (path f) (href s) = Some (url f)) ->
      exists s' evs,
        StaticDashboard.onDOMContentLoaded parseFromString resolveUrl s =
          (inr tt, s') /\
        container s' =
          Some (map FileCard
                  (entriesFrom (staticParse parseFromString) url
                     (network s) (clock s) StaticDashboard.filesToTrack)) /\
        headScripts s' = Some (scripts ++ [tailwind]) /\
        events s' = events s ++ evs /\
        requests evs = map url StaticDashboard.filesToTrack) /\
  (forall (scripts : list string) (url : TrackedPage -> string)
          (before after : list TrackedPage) (f : TrackedPage),
      headScripts s = Some scripts ->
      StaticDashboard.filesToTrack = before ++ f :: after ->
      (forall g, In g before -> resolveUrl (path g) (href s) = Some (url g)) ->
      resolveUrl (path f) (href s) = None ->
      exists e s' evs,
        StaticDashboard.onDOMContentLoaded parseFromString resolveUrl s =
          (inl e, s') /\
        container s' =
          Some [Paragraph "text-center text-gray-500" "Loading progress..."] /\
        headScripts s' = Some (scripts ++ [tailwind]) /\
        events s' = events s ++ evs /\
        requests evs = map url before).
Proof.
  intro Hc. split; [| split].
  - intro Hhead.
    unfold StaticDashboard.onDOMContentLoaded, bind at 1, getState. rewrite Hc.
    unfold bind at 1, appendHeadScript. rewrite Hhead. eexists. reflexivity.
  - intros scripts url Hhead Hres.
    unfold StaticDashboard.onDOMContentLoaded, bind at 1, getState. rewrite Hc.
    unfold bind at 1, appendHeadScript. rewrite Hhead.
    unfold StaticDashboard.renderProgressDashboard.
    unfold bind at 1, setInnerHTML at 1.
    set (s1 := withContainer _ _).
    destruct (static_collect_run parseFromString resolveUrl url
                StaticDashboard.filesToTrack s1 Hres)
      as (s2 & evs & Hrun & Hmany & Hev & Hreq).
    unfold bind at 1. rewrite Hrun.
    unfold bind at 1, setInnerHTML at 1.
    rewrite entriesFrom_length. cbn [List.length StaticDashboard.filesToTrack Nat.eqb].
    rewrite forEachM_cards.
    eexists; exists evs.
    destruct Hmany as (_ & _ & _ & _ & _ & Hcont & Hhead2 & _).
    split; [reflexivity |]. cbn [container headScripts events withContainer].
    rewrite Hcont, Hhead2, Hev. subst s1. cbn. rewrite Hc. cbn.
    repeat split. exact Hreq.
  - intros scripts url before after f Hhead Hfiles Hres Hfail.
    unfold StaticDashboard.onDOMContentLoaded, bind at 1, getState. rewrite Hc.
    unfold bind at 1, appendHeadScript. rewrite Hhead.
    unfold StaticDashboard.renderProgressDashboard.
    unfold bind at 1, setInnerHTML at 1.
    set (s1 := withContainer _ _). rewrite Hfiles.
    destruct (static_collect_aborts_at parseFromString resolveUrl url
                before after f s1 Hres Hfail)
      as (e & s2 & evs & Hrun & Hmany & Hev & Hreq).
    unfold bind at 1. rewrite Hrun.
    exists e, s2, evs.
    destruct Hmany as (_ & _ & _ & _ & _ & Hcont & Hhead2 & _).
    split; [reflexivity |].
    rewrite Hcont, Hhead2, Hev. subst s1. cbn. rewrite Hc. cbn.
    repeat split. exact Hreq.
Qed.

End Static.

Lemma static_dashboard_run_witness :
  (exists s',
      StaticDashboard.onDOMContentLoaded
        (ExamplePages.parseAs Examples.threeTasks) ExampleRuns.resolveRelative
        (ExampleRuns.start ExampleRuns.secondPageMissing (Some [])) = (inr tt, s') /\
      option_map (map (fun b => match b with
                                | FileCard d => (name (file d), Spec.taskCount (progress d))
                                | Paragraph _ _ => (EmptyString, (0%nat, 0%nat, 0%Z))
                                end)) (container s') =
        Some [("Project Setup Tasks", (2%nat, 3%nat, 67%Z));
              ("Frontend Development", (0%nat, 0%nat, 0%Z));
              ("Backend Development", (2%nat, 3%nat, 67%Z))]) /\
  (exists e,
      StaticDashboard.onDOMContentLoaded
        (ExamplePages.parseAs Examples.threeTasks) ExampleRuns.resolveRelative
        (ExampleRuns.startHeadless ExampleRuns.secondPageMissing (Some [])) =
      (inl e, ExampleRuns.startHeadless ExampleRuns.secondPageMissing (Some []))) /\
  (exists e s',
      StaticDashboard.onDOMContentLoaded
        (ExamplePages.parseAs Examples.threeTasks) ExampleRuns.resolveRelative
        (ExampleRuns.startBlank (Some [])) = (inl e, s') /\
      container s' =
        Some [Paragraph "text-center text-gray-500" "Loading progress..."] /\
      requests (events s') = []).
Proof.
  split; [| split].
  - destruct (static_dashboard_run
                (ExamplePages.parseAs Examples.threeTasks) ExampleRuns.resolveRelative
                (ExampleRuns.start ExampleRuns.secondPageMissing (Some [])) []
                eq_refl) as [_ [H _]].
    destruct (H [] (fun f => ("https://example.org/progress-tracker/" ++ path f)%string)
                eq_refl
                ltac:(intros f [<- | [<- | [<- | []]]]; reflexivity))
      as (s' & evs & Hrun & Hcont & _).
    exists s'. split; [exact Hrun |]. rewrite Hcont. vm_compute. reflexivity.
  - exact (proj1 (static_dashboard_run
                    (ExamplePages.parseAs Examples.threeTasks)
                    ExampleRuns.resolveRelative
                    (ExampleRuns.startHeadless ExampleRuns.secondPageMissing (Some []))
                    [] eq_refl) eq_refl).
  - destruct (static_dashboard_run
                (ExamplePages.parseAs Examples.threeTasks) ExampleRuns.resolveRelative
                (ExampleRuns.startBlank (Some [])) [] eq_refl) as [_ [_ H]].
    destruct (H [] (fun f => path f) [] (tl StaticDashboard.filesToTrack)
                (hd {| page_id := EmptyString; name := EmptyString; path := EmptyString |}
                    StaticDashboard.filesToTrack)
                eq_refl eq_refl ltac:(intros g []) eq_refl)
      as (e & s' & evs & Hrun & Hcont & _ & Hev & Hreq).
    exists e, s'. split; [exact Hrun |]. split; [exact Hcont |].
    rewrite Hev, requests_app, Hreq. reflexivity.
Defined.


Section Dynamic.

Variable parseFromString : string -> Document.
Variable toUpperCase : string -> string.
Variable localeCompare : string -> string -> Z.

(** With the container present, the handler goes on from [started s]
    according to what [populateFilesToTrack] leaves in [filesToTrack]. *)
Lemma dynamic_handler_after_populate (s s2 : State) (content : list Block)
  (scripts : list string) :
  container s = Some content ->
  headScripts s = Some scripts ->
  DynamicDashboard.populateFilesToTrack toUpperCase localeCompare (started s) =
    (inr tt, s2) ->
  DynamicDashboard.onDOMContentLoaded parseFromString toUpperCase localeCompare s =
  (if (List.length (filesToTrack s2) =? 0)%nat then
     setInnerHTML [noPagesParagraph]
   else
     allProgressData <- DynamicDashboard.collectProgress parseFromString (filesToTrack s2) ;;
     setInnerHTML [] ;;
     if (List.length allProgressData =? 0)%nat then
       setInnerHTML
         [DynamicDashboard.infoParagraph
            "No progress data found or failed to load for tracked pages."]
     else
       forEachM allProgressData (fun data => appendChild (FileCard data)))%js s2.
Proof.
  intros Hc Hhead Hrun.
  unfold DynamicDashboard.onDOMContentLoaded, bind at 1, getState. rewrite Hc.
  unfold bind at 1, setFilesToTrack. unfold bind at 1, appendHeadScript.
  cbn [headScripts withFilesToTrack]. rewrite Hhead.
  unfold DynamicDashboard.renderConsolidatedDashboard.
  unfold bind at 1, setInnerHTML at 1.
  replace (withContainer _ _) with (started s)
    by (unfold started; now rewrite Hhead).
  unfold bind at 1. rewrite Hrun. unfold bind at 1, getState. reflexivity.
Qed.

(** When the index is served, [populateFilesToTrack] issues the one
    request for it and stores the discovered pages. *)
Lemma populate_served (s : State) (r : Response) (idx : SearchIndex) :
  network s (clock s) (searchIndexUrl s) = Responds r ->
  ok r = true -> json r = Some idx ->
  exists s' evs,
    DynamicDashboard.populateFilesToTrack toUpperCase localeCompare s = (inr tt, s') /\
    filesToTrack s' = discovered toUpperCase localeCompare idx /\
    fetchedOne s (withFilesToTrack (filesToTrack s) s') /\
    events s' = events s ++ evs /\
    requests evs = [searchIndexUrl s].
Proof.
  intros Hnet Hok Hjson.
  unfold DynamicDashboard.populateFilesToTrack, bind, getState, tryCatch, console,
    fetch, setFilesToTrack.
  fold (dynamicUrl s "search/search_index.json"). fold (searchIndexUrl s).
  cbn [clock network withEvent]. rewrite Hnet. cbn. rewrite Hok. cbn.
  unfold responseJson. rewrite Hjson. cbn.
  eexists; eexists. split; [reflexivity |]. cbn.
  split; [reflexivity |]. split; [repeat split |].
  split; [rewrite <- !app_assoc; reflexivity | reflexivity].
Qed.

(** The run when the index is served and some entry is tracked. *)
Lemma dynamic_run_served
  (s : State) (content : list Block) (scripts : list string)
  (r : Response) (idx : SearchIndex) :
  container s = Some content ->
  headScripts s = Some scripts ->
  network s (clock s) (searchIndexUrl s) = Responds r ->
  ok r = true -> json r = Some idx ->
  filter DynamicDashboard.isTracked (docs idx) <> [] ->
  exists s' evs,
    DynamicDashboard.onDOMContentLoaded parseFromString toUpperCase localeCompare s =
      (inr tt, s') /\
    container s' =
      Some (map FileCard
              (entriesFrom (dynamicParse parseFromString)
                 (fun f => dynamicUrl s (path f)) (network s) (S (clock s))
                 (discovered toUpperCase localeCompare idx))) /\
    headScripts s' = Some (scripts ++ [tailwind]) /\
    events s' = events s ++ evs /\
    requests evs =
      searchIndexUrl s ::
      map (fun f => dynamicUrl s (path f)) (discovered toUpperCase localeCompare idx).
Proof.
  intros Hc Hhead0 Hnet Hok Hjson Hsome.
  destruct (populate_served (started s) r idx Hnet Hok Hjson)
    as (s2 & evs1 & Hrun & Hfiles & Hone & Hev1 & Hreq1).
  rewrite (dynamic_handler_after_populate s s2 content scripts Hc Hhead0 Hrun).
  rewrite Hfiles.
  set (files := discovered toUpperCase localeCompare idx) in *.
  assert (Hlen : List.length files <> 0%nat).
  { unfold files, discovered.
    rewrite (Permutation_length (sort_perm _ _)), length_map.
    intro H. apply length_zero_iff_nil in H. contradiction. }
  destruct (Nat.eqb_spec (List.length files) 0) as [E | _]; [contradiction |].
  destruct (dynamic_collect_run parseFromString files s2)
    as (s3 & evs2 & Hloop & Hmany & Hev2 & Hreq2).
  unfold bind at 1. rewrite Hloop.
  unfold bind at 1, setInnerHTML at 1.
  rewrite entriesFrom_length.
  destruct (Nat.eqb_spec (List.length files) 0) as [E | _]; [contradiction |].
  rewrite forEachM_cards.
  destruct Hone as (Ho & Hp & Hh & Hn & Hk & Hcont & Hhead & _).
  cbn [origin pathname href network clock container headScripts withFilesToTrack started
       withContainer withHeadScripts] in Ho, Hp, Hh, Hn, Hk, Hcont, Hhead.
  assert (Hurl : forall f, dynamicUrl s2 (path f) = dynamicUrl s (path f)).
  { intro f. unfold dynamicUrl, DynamicDashboard.getBasePath. now rewrite Ho, Hp. }
  rewrite (entriesFrom_ext _ _ _ _ _ _ Hurl), Hn, Hk.
  rewrite (map_ext _ _ Hurl) in Hreq2.
  eexists; exists (evs1 ++ evs2). split; [reflexivity |].
  destruct Hmany as (_ & _ & _ & _ & _ & Hcont3 & Hhead3 & _).
  cbn [container headScripts events withContainer].
  rewrite Hcont3, Hcont, Hc, Hhead3, Hhead, Hhead0, Hev2, Hev1.
  cbn [option_map app events started withContainer withHeadScripts withFilesToTrack].
  split; [reflexivity |]. split; [reflexivity |].
  split; [now rewrite app_assoc |].
  rewrite requests_app, Hreq1, Hreq2. reflexivity.
Qed.

(** The run when the index is served and no entry is tracked. *)
Lemma dynamic_run_nothing_tracked
  (s : State) (content : list Block) (scripts : list string)
  (r : Response) (idx : SearchIndex) :
  container s = Some content ->
  headScripts s = Some scripts ->
  network s (clock s) (searchIndexUrl s) = Responds r ->
  ok r = true -> json r = Some idx ->
  filter DynamicDashboard.isTracked (docs idx) = [] ->
  exists s' evs,
    DynamicDashboard.onDOMContentLoaded parseFromString toUpperCase localeCompare s =
      (inr tt, s') /\
    container s' = Some [noPagesParagraph] /\
    headScripts s' = Some (scripts ++ [tailwind]) /\
    events s' = events s ++ evs /\
    requests evs = [searchIndexUrl s].
Proof.
  intros Hc Hhead0 Hnet Hok Hjson Hnone.
  destruct (populate_served (started s) r idx Hnet Hok Hjson)
    as (s2 & evs1 & Hrun & Hfiles & Hone & Hev1 & Hreq1).
  rewrite (dynamic_handler_after_populate s s2 content scripts Hc Hhead0 Hrun).
  rewrite Hfiles.
  unfold discovered. rewrite Hnone. cbn [map DynamicDashboard.sort fold_right List.length Nat.eqb].
  unfold setInnerHTML.
  destruct Hone as (_ & _ & _ & _ & _ & Hcont & Hhead & _).
  cbn [container headScripts withFilesToTrack started withContainer withHeadScripts]
    in Hcont, Hhead.
  eexists; exists evs1. split; [reflexivity |].
  cbn [container headScripts events withContainer].
  rewrite Hcont, Hc, Hhead, Hhead0. repeat split; assumption.
Qed.

(** The run when the index cannot be loaded, with the scripts. *)
Lemma dynamic_dashboard_not_served (s : State) (content : list Block)
  (scripts : list string) :
  container s = Some content ->
  headScripts s = Some scripts ->
  indexFails (network s (clock s) (searchIndexUrl s)) ->
  exists s',
    DynamicDashboard.onDOMContentLoaded parseFromString toUpperCase localeCompare s =
      (inr tt, s') /\
    container s' = Some [noPagesParagraph] /\
    headScripts s' = Some (scripts ++ [tailwind]).
Proof.
  intros Hc Hhead0 Hfail.
  destruct (populate_failure toUpperCase localeCompare (started s) Hfail)
    as (s2 & text & Hrun & Hfiles & Hcont & Hhead & _).
  rewrite (dynamic_handler_after_populate s s2 content scripts Hc Hhead0 Hrun).
  rewrite Hfiles.
  cbn [filesToTrack started withContainer withHeadScripts withFilesToTrack
       List.length Nat.eqb].
  unfold setInnerHTML. eexists. split; [reflexivity |].
  cbn [container headScripts withContainer]. rewrite Hcont, Hhead.
  cbn [container headScripts started withContainer withHeadScripts withFilesToTrack].
  rewrite Hc, Hhead0. split; reflexivity.
Qed.

(** Without a head the handler throws where it adds the script, before
    it renders or requests anything. *)
Lemma dynamic_dashboard_headless (s : State) (content : list Block) :
  container s = Some content ->
  headScripts s = None ->
  DynamicDashboard.onDOMContentLoaded parseFromString toUpperCase localeCompare s =
    (inl (Thrown "TypeError: document.head is null"), withFilesToTrack [] s).
Proof.
  intros Hc Hhead.
  unfold DynamicDashboard.onDOMContentLoaded, bind at 1, getState. rewrite Hc.
  unfold bind at 1, setFilesToTrack. unfold bind at 1, appendHeadScript.
  cbn [headScripts withFilesToTrack]. now rewrite Hhead.
Qed.

(** X10: when the index is served and some entry is tracked, the run of
    the dynamic dashboard ends with one card per discovered page, in name
    order, the [i]-th showing the progress parsed from the text of the
    [i]-th page; the requests are the one for the index followed by one
    per page in that order, and the script is added once.  (On a
    document without head the handler throws where it adds the script,
    before all that.) *)
Theorem dynamic_dashboard_served
  (s : State) (content : list Block) (r : Response) (idx : SearchIndex) :
  container s = Some content ->
  network s (clock s) (searchIndexUrl s) = Responds r ->
  ok r = true -> json r = Some idx ->
  filter DynamicDashboard.isTracked (docs idx) <> [] ->
  match headScripts s with
  | None =>
      exists e,
        DynamicDashboard.onDOMContentLoaded parseFromString toUpperCase localeCompare s =
          (inl e, withFilesToTrack [] s)
  | Some scripts =>
      exists s' evs out,
        DynamicDashboard.onDOMContentLoaded parseFromString toUpperCase localeCompare s =
          (inr tt, s') /\
        container s' = Some (map FileCard out) /\
        map file out = discovered toUpperCase localeCompare idx /\
        (forall i f,
            nth_error (discovered toUpperCase localeCompare idx) i = Some f ->
            nth_error out i =
            Some {| file := f;
                    progress :=
                      fst (DynamicDashboard.parseHtmlProgress parseFromString
                             (bodyOf (network s (S (clock s) + i)%nat
                                        (dynamicUrl s (path f))))) |}) /\
        headScripts s' = Some (scripts ++ [tailwind]) /\
        events s' = events s ++ evs /\
        requests evs =
          searchIndexUrl s ::
          map (fun f => dynamicUrl s (path f)) (discovered toUpperCase localeCompare idx)
  end.
Proof.
  intros Hc Hnet Hok Hjson Hsome.
  destruct (headScripts s) as [scripts |] eqn:Hhead0.
  - destruct (dynamic_run_served s content scripts r idx Hc Hhead0 Hnet Hok Hjson Hsome)
      as (s' & evs & Hrun & Hcont & Hhead & Hev & Hreq).
    exists s', evs. eexists. split; [exact Hrun |]. split; [exact Hcont |].
    split; [apply entriesFrom_files |].
    split; [| repeat split; assumption].
    intros i f Hi. now apply (entriesFrom_nth (dynamicParse parseFromString)).
  - eexists. now apply (dynamic_dashboard_headless s content).
Qed.

(** X11: when the index is served and no entry is tracked (every
    location has one of the three names the filter rejects or a slash
    before its last character), no page is requested and the dashboard
    shows the paragraph for an empty page list.  (On a document without
    head the handler throws where it adds the script, before all that.) *)
Theorem dynamic_dashboard_nothing_tracked
  (s : State) (content : list Block) (r : Response) (idx : SearchIndex) :
  container s = Some content ->
  network s (clock s) (searchIndexUrl s) = Responds r ->
  ok r = true -> json r = Some idx ->
  (forall d, In d (docs idx) ->
             namedIndex (location d) \/ slashInside (location d)) ->
  match headScripts s with
  | None =>
      exists e,
        DynamicDashboard.onDOMContentLoaded parseFromString toUpperCase localeCompare s =
          (inl e, withFilesToTrack [] s)
  | Some _ =>
      exists s' evs,
        DynamicDashboard.onDOMContentLoaded parseFromString toUpperCase localeCompare s =
          (inr tt, s') /\
        container s' = Some [noPagesParagraph] /\
        events s' = events s ++ evs /\
        requests evs = [searchIndexUrl s]
  end.
Proof.
  intros Hc Hnet Hok Hjson Hnone.
  assert (Hf : filter DynamicDashboard.isTracked (docs idx) = []).
  { destruct (filter DynamicDashboard.isTracked (docs idx)) as [| d l] eqn:E;
      [reflexivity |].
    assert (Hin : In d (filter DynamicDashboard.isTracked (docs idx)))
      by (rewrite E; now left).
    apply filter_In in Hin as [Hin Ht].
    apply StringFacts.isTracked_spec in Ht as [H1 H2].
    destruct (Hnone d Hin); contradiction. }
  destruct (headScripts s) as [scripts |] eqn:Hhead0.
  - destruct (dynamic_run_nothing_tracked s content scripts r idx
                Hc Hhead0 Hnet Hok Hjson Hf)
      as (s' & evs & Hrun & Hcont & _ & Hev & Hreq).
    exists s', evs. repeat split; assumption.
  - eexists. now apply (dynamic_dashboard_headless s content).
Qed.

(** X12: on a page with the dashboard container the dynamic dashboard
    throws only when the document has no head, and then at once, before
    it renders or requests anything.  With a head it returns normally,
    whatever the network does, having added the script once, and never
    ends on the loading paragraph, on either of its two error paragraphs,
    or on the paragraph for missing progress data: it ends on the
    paragraph for an empty page list or on the cards. *)
Theorem dynamic_dashboard_never_shows (s : State) (content : list Block) :
  container s = Some content ->
  (headScripts s = None ->
   exists e,
     DynamicDashboard.onDOMContentLoaded parseFromString toUpperCase localeCompare s =
       (inl e, withFilesToTrack [] s)) /\
  (forall scripts,
      headScripts s = Some scripts ->
      exists s',
        DynamicDashboard.onDOMContentLoaded parseFromString toUpperCase localeCompare s =
          (inr tt, s') /\
        headScripts s' = Some (scripts ++ [tailwind]) /\
        (forall b, In b neverShown -> container s' <> Some [b]) /\
        (container s' = Some [noPagesParagraph] \/
         exists d out, container s' = Some (map FileCard (d :: out)))).
Proof.
  intro Hc. split.
  { intro Hhead. eexists. now apply (dynamic_dashboard_headless s content). }
  intros scripts Hhead0.
  assert (Hpar : forall b, In b neverShown -> Some [noPagesParagraph] <> Some [b]).
  { intros b Hb. cbn in Hb.
    destruct Hb as [<- | [<- | [<- | [<- | []]]]]; discriminate. }
  assert (Hcards : forall b d out, In b neverShown ->
                                   Some (map FileCard (d :: out)) <> Some [b]).
  { intros b d out Hb. cbn in Hb.
    destruct Hb as [<- | [<- | [<- | [<- | []]]]]; discriminate. }
  destruct (network s (clock s) (searchIndexUrl s)) as [e | r] eqn:Enet.
  - destruct (dynamic_dashboard_not_served s content scripts Hc Hhead0)
      as (s' & Hrun & Hcont & Hhead);
      [now rewrite Enet |].
    exists s'. rewrite Hcont. repeat split; auto.
  - destruct (ok r) eqn:Eok; [destruct (json r) as [idx |] eqn:Ejson |].
    + destruct (filter DynamicDashboard.isTracked (docs idx)) as [| x l] eqn:Ef.
      * destruct (dynamic_run_nothing_tracked s content scripts r idx
                    Hc Hhead0 Enet Eok Ejson Ef)
          as (s' & evs & Hrun & Hcont & Hhead & _).
        exists s'. rewrite Hcont. repeat split; auto.
      * destruct (dynamic_run_served s content scripts r idx Hc Hhead0 Enet Eok Ejson)
          as (s' & evs & Hrun & Hcont & Hhead & _); [rewrite Ef; discriminate |].
        exists s'. rewrite Hcont.
        destruct (entriesFrom _ _ _ _ _) as [| d out] eqn:Ee.
        { apply (f_equal (@List.length _)) in Ee.
          rewrite entriesFrom_length in Ee. unfold discovered in Ee.
          rewrite (Permutation_length (sort_perm _ _)), length_map, Ef in Ee.
          discriminate Ee. }
        repeat split; eauto.
    + destruct (dynamic_dashboard_not_served s content scripts Hc Hhead0)
        as (s' & Hrun & Hcont & Hhead);
        [rewrite Enet; now right |].
      exists s'. rewrite Hcont. repeat split; auto.
    + destruct (dynamic_dashboard_not_served s content scripts Hc Hhead0)
        as (s' & Hrun & Hcont & Hhead);
        [rewrite Enet; now left |].
      exists s'. rewrite Hcont. repeat split; auto.
Qed.

End Dynamic.

End RunProofs.

Module RunWitnesses.

Import Spec Runs Batch RunProofs SortFacts.

Lemma dynamic_dashboard_served_witness :
  exists s' evs,
    DynamicDashboard.onDOMContentLoaded
      (ExamplePages.parseAs Examples.threeTasks)
      ExampleRuns.upperAscii ExampleRuns.compareCodeUnits
      (ExampleRuns.start ExampleRuns.indexedSite (Some [])) = (inr tt, s') /\
    events s' = [] ++ evs /\
    requests evs =
      ["https://example.org/progress-tracker/search/search_index.json";
       "https://example.org/progress-tracker/backend/";
       "https://example.org/progress-tracker/frontend/"].
Proof.
  destruct (dynamic_dashboard_served
              (ExamplePages.parseAs Examples.threeTasks)
              ExampleRuns.upperAscii ExampleRuns.compareCodeUnits
              (ExampleRuns.start ExampleRuns.indexedSite (Some [])) []
              _ ExampleRuns.siteIndex eq_refl eq_refl eq_refl eq_refl
              ltac:(vm_compute; discriminate))
    as (s' & evs & out & Hrun & _ & _ & _ & _ & Hev & Hreq).
  exists s', evs. split; [exact Hrun |]. split; [exact Hev |].
  rewrite Hreq. vm_compute. reflexivity.
Defined.

Lemma dynamic_dashboard_nothing_tracked_witness :
  exists s',
    DynamicDashboard.onDOMContentLoaded
      (ExamplePages.parseAs Examples.threeTasks)
      ExampleRuns.upperAscii ExampleRuns.compareCodeUnits
      (ExampleRuns.start ExampleRuns.dashboardOnlySite (Some [])) = (inr tt, s') /\
    container s' = Some [noPagesParagraph].
Proof.
  destruct (dynamic_dashboard_nothing_tracked
              (ExamplePages.parseAs Examples.threeTasks)
              ExampleRuns.upperAscii ExampleRuns.compareCodeUnits
              (ExampleRuns.start ExampleRuns.dashboardOnlySite (Some [])) []
              _ ExampleRuns.onlyDashboard eq_refl eq_refl eq_refl eq_refl
              ltac:(intros d [<- | [<- | []]];
                    [left; right; right; reflexivity
                    | right; exists 5%nat; split; [reflexivity | cbn; lia]]))
    as (s' & evs & Hrun & Hcont & _).
  exists s'. split; assumption.
Defined.

Lemma dynamic_dashboard_never_shows_witness :
  (exists s',
      DynamicDashboard.onDOMContentLoaded
        (ExamplePages.parseAs Examples.threeTasks)
        ExampleRuns.upperAscii ExampleRuns.compareCodeUnits
        (ExampleRuns.start ExampleRuns.missingSite (Some [])) = (inr tt, s') /\
      headScripts s' = Some [tailwind]) /\
  (exists e s',
      DynamicDashboard.onDOMContentLoaded
        (ExamplePages.parseAs Examples.threeTasks)
        ExampleRuns.upperAscii ExampleRuns.compareCodeUnits
        (ExampleRuns.startHeadless ExampleRuns.missingSite (Some [])) = (inl e, s') /\
      events s' = [] /\ container s' = Some []).
Proof.
  split.
  - destruct (dynamic_dashboard_never_shows
                (ExamplePages.parseAs Examples.threeTasks)
                ExampleRuns.upperAscii ExampleRuns.compareCodeUnits
                (ExampleRuns.start ExampleRuns.missingSite (Some [])) [] eq_refl)
      as [_ H].
    destruct (H [] eq_refl) as (s' & Hrun & Hhead & _).
    exists s'. split; assumption.
  - destruct (dynamic_dashboard_never_shows
                (ExamplePages.parseAs Examples.threeTasks)
                ExampleRuns.upperAscii ExampleRuns.compareCodeUnits
                (ExampleRuns.startHeadless ExampleRuns.missingSite (Some [])) []
                eq_refl)
      as [H _].
    destruct (H eq_refl) as (e & Hrun).
    exists e. eexists. split; [exact Hrun |]. split; reflexivity.
Defined.

End RunWitnesses.

(** ** The discovered pages *)

Module DiscoveryFacts.

Import Spec Runs Batch SortFacts StringFacts.

Lemma filter_perm {A} (f : A -> bool) (l1 l2 : list A) :
  Permutation l1 l2 -> Permutation (filter f l1) (filter f l2).
Proof.
  induction 1 as [| x l1 l2 _ IH | x y l | l1 l2 l3 _ IH1 _ IH2]; cbn.
  - constructor.
  - destruct (f x); [now constructor | exact IH].
  - destruct (f x), (f y); try reflexivity. apply perm_swap.
  - now transitivity (filter f l2).
Qed.

(** Two sorted lists with the same elements are equal, when elements
    that compare equal are equal. *)
Lemma sorted_perm_unique {A} (R : A -> A -> Prop) (l1 : list A) :
  forall l2,
    StronglySorted R l1 -> StronglySorted R l2 -> Permutation l1 l2 ->
    (forall a b, In a l1 -> In b l1 -> R a b -> R b a -> a = b) ->
    l1 = l2.
Proof.
  induction l1 as [| a l1 IH]; intros l2 S1 S2 P Hanti.
  - apply Permutation_nil in P. now subst.
  - destruct l2 as [| b l2].
    { apply Permutation_sym, Permutation_nil in P. discriminate P. }
    inversion S1 as [| ? ? S1' F1]; subst.
    inversion S2 as [| ? ? S2' F2]; subst.
    rewrite Forall_forall in F1, F2.
    assert (Hb : In b (a :: l1))
      by (apply (Permutation_in _ (Permutation_sym P)); now left).
    assert (Ha : In a (b :: l2)) by (apply (Permutation_in _ P); now left).
    assert (E : a = b).
    { destruct Hb as [Hb | Hb]; [exact Hb |].
      destruct Ha as [Ha | Ha]; [now symmetry |].
      apply Hanti; [now left | now right | now apply F1 | now apply F2]. }
    subst b. f_equal. apply IH; try assumption.
    + now apply Permutation_cons_inv with a.
    + intros x y Hx Hy. apply Hanti; now right.
Qed.

(** X13: the discovered page list does not depend on the order of the
    index: two indexes with the same entries give the same list, when
    [localeCompare] orders consistently and no two different tracked
    pages have names that compare equal. *)
Theorem discovery_order_independent
  (toUpperCase : string -> string) (localeCompare : string -> string -> Z)
  (idx1 idx2 : SearchIndex) :
  consistent localeCompare ->
  Permutation (docs idx1) (docs idx2) ->
  (forall a b, In a (tracked toUpperCase idx1) -> In b (tracked toUpperCase idx1) ->
               nameOrder localeCompare a b -> nameOrder localeCompare b a -> a = b) ->
  discovered toUpperCase localeCompare idx1 =
  discovered toUpperCase localeCompare idx2.
Proof.
  intros [Htotal Htrans] Hperm Hanti.
  assert (Hsorted : forall idx,
             StronglySorted (nameOrder localeCompare)
               (discovered toUpperCase localeCompare idx)).
  { intro idx. unfold discovered.
    apply (sort_sorted (fun a b : TrackedPage => localeCompare (name a) (name b))).
    - intros a b. apply Htotal.
    - intros a b c. apply Htrans. }
  assert (Hp : forall idx, Permutation (discovered toUpperCase localeCompare idx)
                                       (tracked toUpperCase idx))
    by (intro idx; apply sort_perm).
  apply (sorted_perm_unique (nameOrder localeCompare)); try apply Hsorted.
  - rewrite (Hp idx1), (Hp idx2). unfold tracked.
    now apply Permutation_map, filter_perm.
  - intros a b Ha Hb. apply Hanti; eapply Permutation_in; eauto.
Qed.

Lemma discovery_order_independent_witness :
  discovered ExampleRuns.upperAscii ExampleRuns.compareCodeUnits ExampleRuns.siteIndex =
  discovered ExampleRuns.upperAscii ExampleRuns.compareCodeUnits ExampleRuns.shuffledIndex /\
  map path (discovered ExampleRuns.upperAscii ExampleRuns.compareCodeUnits
              ExampleRuns.shuffledIndex) = ["backend/"; "frontend/"].
Proof.
  split; [| vm_compute; reflexivity].
  apply (discovery_order_independent
           ExampleRuns.upperAscii ExampleRuns.compareCodeUnits
           ExampleRuns.siteIndex ExampleRuns.shuffledIndex
           compareCodeUnits_consistent).
  - apply Permutation_rev.
  - intros a b Ha Hb. vm_compute in Ha, Hb.
    destruct Ha as [<- | [<- | []]]; destruct Hb as [<- | [<- | []]];
      try reflexivity; vm_compute; intros H1 H2; exfalso;
      try (apply H1; reflexivity); try (apply H2; reflexivity).
Defined.

End DiscoveryFacts.

(** ** The accuracy of the percentage *)

Module PercentageFacts.

Import Number NumberFacts Spec.
Local Open Scope Q_scope.

(** The exact quotient and its half-up rounding. *)
Lemma exact_quotient (c t : nat) :
  (0 < t)%nat ->
  inject_Z (exactPercentage c t) <= 100 * ofNat c / ofNat t + (1 # 2) /\
  100 * ofNat c / ofNat t + (1 # 2) < inject_Z (exactPercentage c t) + 1.
Proof.
  intro Ht. unfold exactPercentage.
  set (n := (200 * Z.of_nat c + Z.of_nat t)%Z).
  set (d := (2 * Z.of_nat t)%Z).
  assert (Hd : (0 < d)%Z) by (unfold d; lia).
  pose proof (Z.div_mod n d ltac:(lia)) as Hdm.
  pose proof (Z.mod_pos_bound n d Hd) as Hr.
  set (k := (n / d)%Z) in *. set (r := (n mod d)%Z) in *.
  assert (HT : 0 < ofNat t).
  { unfold ofNat. change 0 with (inject_Z 0). rewrite <- Zlt_Qlt. lia. }
  assert (E : 200 * ofNat c + ofNat t == 2 * ofNat t * inject_Z k + inject_Z r).
  { unfold ofNat.
    change 200 with (inject_Z 200). change 2 with (inject_Z 2).
    rewrite <- !inject_Z_mult, <- !inject_Z_plus.
    apply inject_Z_injective. unfold n, d in Hdm. lia. }
  assert (R1 : 0 <= inject_Z r).
  { change 0 with (inject_Z 0). rewrite <- Zle_Qle. lia. }
  assert (R2 : inject_Z r <= 2 * ofNat t - 1).
  { unfold ofNat. change 2 with (inject_Z 2). change 1 with (inject_Z 1).
    rewrite <- inject_Z_mult. unfold Qminus. rewrite <- inject_Z_opp, <- inject_Z_plus.
    rewrite <- Zle_Qle. unfold d in Hr. lia. }
  set (X := 100 * ofNat c / ofNat t) in *.
  assert (HX : X * ofNat t == 100 * ofNat c) by (unfold X; field; lra).
  split.
  - assert (G : (inject_Z k - (X + (1 # 2))) * (2 * ofNat t) <= 0) by nra.
    nra.
  - assert (G : 0 < (inject_Z k + 1 - (X + (1 # 2))) * (2 * ofNat t)) by nra.
    nra.
Qed.

(** X14: the percentage a parse function reports is never off by more
    than one from [100 * completed / total] rounded half up. *)
Theorem percentage_within_one (c t : nat) :
  (0 < t)%nat -> (c <= t)%nat ->
  (exactPercentage c t - 1 <= fst (computePercentage c t) <= exactPercentage c t + 1)%Z.
Proof.
  intros Ht Hc. rewrite computePercentage_pos by exact Ht.
  destruct (quotient_near c t Ht Hc) as (_ & HL & HU). cbv zeta in HL, HU.
  destruct (exact_quotient c t Ht) as [E1 E2].
  set (y := mul (div (ofNat c) (ofNat t)) 100) in *.
  set (k := exactPercentage c t) in *.
  set (X := 100 * ofNat c / ofNat t) in *.
  clearbody X y k.
  unfold Math_round.
  pose proof (Qfloor_le (y + (1 # 2))) as Hlo.
  pose proof (Qlt_floor (y + (1 # 2))) as Hhi.
  rewrite inject_Z_plus in Hhi. change (inject_Z 1) with 1 in Hhi.
  assert (A : inject_Z (Qfloor (y + (1 # 2))) < inject_Z (k + 2)).
  { rewrite inject_Z_plus. change (inject_Z 2) with 2. unfold eps in *. lra. }
  assert (B : inject_Z (k - 2) < inject_Z (Qfloor (y + (1 # 2)))).
  { replace (k - 2)%Z with (k + (-2))%Z by lia.
    rewrite inject_Z_plus. change (inject_Z (-2)) with (-2 # 1).
    unfold eps in *. lra. }
  rewrite <- Zlt_Qlt in A, B. lia.
Qed.

Lemma percentage_within_one_witness :
  (exactPercentage 23 40 - 1 <= fst (computePercentage 23 40) <= exactPercentage 23 40 + 1)%Z /\
  fst (computePercentage 23 40) = 57%Z /\ exactPercentage 23 40 = 58%Z.
Proof.
  split; [apply percentage_within_one; lia | vm_compute; split; reflexivity].
Defined.

(** X15: when [100 * completed] is a multiple of [total], the reported
    percentage is the exact quotient: all tasks checked give 100, none
    give 0, one of four gives 25. *)
Theorem percentage_exact_when_whole (c t : nat) :
  (0 < t)%nat -> (c <= t)%nat ->
  ((100 * Z.of_nat c) mod Z.of_nat t = 0)%Z ->
  fst (computePercentage c t) = (100 * Z.of_nat c / Z.of_nat t)%Z.
Proof.
  intros Ht Hc Hmod. rewrite computePercentage_pos by exact Ht.
  destruct (quotient_near c t Ht Hc) as (_ & HL & HU). cbv zeta in HL, HU.
  set (y := mul (div (ofNat c) (ofNat t)) 100) in *.
  set (k := (100 * Z.of_nat c / Z.of_nat t)%Z).
  assert (Hk : (100 * Z.of_nat c = Z.of_nat t * k)%Z).
  { unfold k. pose proof (Z.div_mod (100 * Z.of_nat c) (Z.of_nat t) ltac:(lia)). lia. }
  assert (HT : 0 < ofNat t).
  { unfold ofNat. change 0 with (inject_Z 0). rewrite <- Zlt_Qlt. lia. }
  assert (HX : 100 * ofNat c / ofNat t == inject_Z k).
  { assert (HK : 100 * ofNat c == inject_Z k * ofNat t).
    { unfold ofNat. change 100 with (inject_Z 100). rewrite <- !inject_Z_mult.
      apply inject_Z_injective. lia. }
    rewrite HK. field. lra. }
  rewrite HX in HL, HU.
  unfold Math_round. apply Qfloor_eq; unfold eps in *; lra.
Qed.

Lemma percentage_exact_when_whole_witness :
  fst (computePercentage 40 40) = 100%Z /\ fst (computePercentage 0 40) = 0%Z /\
  fst (computePercentage 1 4) = 25%Z.
Proof.
  split; [| split].
  - apply (percentage_exact_when_whole 40 40); [lia | lia | reflexivity].
  - apply (percentage_exact_when_whole 0 40); [lia | lia | reflexivity].
  - apply (percentage_exact_when_whole 1 4); [lia | lia | reflexivity].
Defined.

End PercentageFacts.

(** ** The ids of the tracked pages *)

Module PageIdFacts.

Import Spec Slashes StringFacts.

Lemma count_replaceAll (s : string) : count (Str.replaceAll "/" "-" s) = 0%nat.
Proof.
  induction s as [| c s IH]; [reflexivity |].
  cbn [Str.replaceAll count].
  destruct (Ascii.eqb_spec c "/") as [-> | Hne]; [exact IH |].
  destruct (Ascii.eqb_spec c "/"); [contradiction | exact IH].
Qed.

Lemma count_substring (n : nat) (s : string) :
  (count (String.substring 0 n s) <= count s)%nat.
Proof.
  revert n. induction s as [| c s IH]; intros [| n];
    cbn [String.substring count]; try lia.
  specialize (IH n). destruct (Ascii.eqb c "/"); lia.
Qed.

Lemma count_removeSuffix (suf s : string) :
  (count (Str.removeSuffix suf s) <= count s)%nat.
Proof.
  unfold Str.removeSuffix. destruct (Str.endsWith s suf); [| lia].
  apply count_substring.
Qed.

(** X16: the id of a tracked page never contains a slash, and its path
    is the location of the index entry as it stands. *)
Theorem page_id_has_no_slash (toUpperCase : string -> string) (d : IndexDoc) :
  count (page_id (DynamicDashboard.toTrackedPage toUpperCase d)) = 0%nat /\
  path (DynamicDashboard.toTrackedPage toUpperCase d) = location d.
Proof.
  split; [| reflexivity]. cbn [page_id DynamicDashboard.toTrackedPage].
  pose proof (count_removeSuffix ".html"
                (Str.removeSuffix ".md" (Str.replaceAll "/" "-" (location d)))).
  pose proof (count_removeSuffix ".md" (Str.replaceAll "/" "-" (location d))).
  pose proof (count_replaceAll (location d)). lia.
Qed.

(** X17: the id is not unique: the tracked entries [about.md] and
    [about.html] are different pages with the same id. *)
Theorem page_id_not_unique (toUpperCase : string -> string) :
  exists d1 d2,
    DynamicDashboard.isTracked d1 = true /\ DynamicDashboard.isTracked d2 = true /\
    location d1 <> location d2 /\
    page_id (DynamicDashboard.toTrackedPage toUpperCase d1) =
    page_id (DynamicDashboard.toTrackedPage toUpperCase d2).
Proof.
  exists {| location := "about.md"; title := None |},
         {| location := "about.html"; title := None |}.
  repeat split. discriminate.
Qed.

End PageIdFacts.
